(** * Cart and checkout logic of the storefront: pricing, cart handlers, order placement

    A shallow embedding of the client-side logic of
    [src/pages/CartPage.tsx] and [src/pages/CheckoutPage.tsx]:

    - JavaScript numbers are IEEE 754 binary64 values, modelled with the
      Standard Library's [spec_float] and its correctly rounded operations;
    - the event handlers ([fetchCart], [updateQuantity], [removeItem],
      [handlePlaceOrder], [loadCheckoutData], and [fetchProducts] and
      [handleAddToCart] of the featured products) are written in a small
      monad with state, JavaScript completions (normal, [return], [throw])
      and [try]/[catch]/[finally];
    - a parsed response body is a record whose fields are optional where
      the handlers read them without a guard, so that the [TypeError] of
      reading a field of [undefined] is a path of the model;
    - [localStorage] and request headers are finite maps from strings to
      strings. *)

From Stdlib Require Import ZArith QArith Qabs Qround SpecFloat.
From stdpp Require Import base option list gmap strings fin_maps.

#[local] Open Scope Z_scope.

(** ** JavaScript numbers *)

Module JS.

Definition prec : Z := 53.
Definition emax : Z := 1024.

(** A JavaScript [number]. *)
Definition number : Type := spec_float.

Definition add (x y : number) : number := SFadd prec emax x y.
Definition mul (x y : number) : number := SFmul prec emax x y.
(** [x > y] *)
Definition gt (x y : number) : bool := SFltb y x.
(** [x <= y] *)
Definition le (x y : number) : bool := SFleb x y.

(** The number denoted by an integer literal. *)
Definition lit (z : Z) : number := binary_normalize prec emax z 0 false.

(** The number denoted by the literal [0.09]: the binary64 value
    0x1.70a3d70a3d70ap-4. *)
Definition lit_0_09 : number := S754_finite false 6485183463413514 (-56).

(** [Math.round]: the integral number closest to [x], ties towards
    positive infinity; NaN, the infinities and the zeros are returned
    unchanged, and a result of zero keeps the sign of [x]. *)
Definition Math_round (x : number) : number :=
  match x with
  | S754_finite s m e =>
      match e with
      | Zneg k =>
          let v := cond_Zopp s (Zpos m) in
          binary_normalize prec emax
            (Z.shiftr (2 * v + Z.shiftl 1 (Zpos k)) (Zpos k + 1)) 0 s
      | _ => x
      end
  | _ => x
  end.

(** The rational value of a finite number ([None] for NaN and the
    infinities). *)
Definition to_Q (x : number) : option Q :=
  match x with
  | S754_zero _ => Some 0%Q
  | S754_finite s m e =>
      Some (match e with
            | Zneg k => Qmake (cond_Zopp s (Zpos m)) (2 ^ k)
            | _ => inject_Z (cond_Zopp s (Zpos m) * 2 ^ e)
            end)
  | _ => None
  end.

(** The integer value of a finite number that is integral ([None]
    otherwise). *)
Definition to_Z (x : number) : option Z :=
  match x with
  | S754_zero _ => Some 0
  | S754_finite s m e =>
      match e with
      | Zneg k =>
          if Zpos m mod 2 ^ Zpos k =? 0
          then Some (cond_Zopp s (Zpos m / 2 ^ Zpos k))
          else None
      | _ => Some (cond_Zopp s (Zpos m) * 2 ^ e)
      end
  | _ => None
  end.

(** The mantissa of a finite number fits in [prec] bits. *)
Definition bounded (x : number) : Prop :=
  match x with
  | S754_finite _ m _ => Zpos m < 2 ^ prec
  | _ => True
  end.

(** The canonical binary64 representation, with a 53-bit mantissa, of the
    integer of magnitude [z], [0 < z < 2^53], and sign [s]. *)
Definition canon_m (z : Z) : Z := z * 2 ^ (prec - Zdigits2 z).
Definition canon_e (z : Z) : Z := Zdigits2 z - prec.
Definition canon (s : bool) (z : Z) : number :=
  S754_finite s (Z.to_pos (canon_m z)) (canon_e z).

(** [x - y], [x / y] and [x === y]. *)
Definition sub (x y : number) : number := SFsub prec emax x y.
Definition div (x y : number) : number := SFdiv prec emax x y.
Definition eq (x y : number) : bool := SFeqb x y.

(** Truthiness of a number: neither a zero nor NaN. *)
Definition truthy (x : number) : bool :=
  match x with
  | S754_zero _ | S754_nan => false
  | _ => true
  end.

(** The number denoted by the literals [4.5] and [0.5]. *)
Definition lit_4_5 : number := S754_finite false 5066549580791808 (-50).
Definition lit_0_5 : number := S754_finite false 4503599627370496 (-53).

End JS.

Declare Scope js_scope.
Delimit Scope js_scope with js.
Bind Scope js_scope with JS.number.
Infix "+" := JS.add : js_scope.
Infix "*" := JS.mul : js_scope.
Infix ">" := JS.gt : js_scope.
Infix "<=" := JS.le : js_scope.
Infix "-" := JS.sub : js_scope.
Infix "/" := JS.div : js_scope.
Infix "===" := JS.eq (at level 70) : js_scope.

(** ** The pricing calculator

    The same four lines appear in both pages, over each page's own
    [CartItem] type:
<<
  const subtotal = cartItems.reduce((sum, item) => sum + item.price * item.quantity, 0);
  const shipping = subtotal > 1000000 ? 0 : 50000;
  const tax = Math.round(subtotal * 0.09);
  const total = subtotal + shipping + tax;
>> *)

Module Pricing.
Section Pricing.
Context {Item : Type} (price quantity : Item → JS.number).

Definition subtotal (cartItems : list Item) : JS.number :=
  fold_left (λ sum item, sum + price item * quantity item)%js
            cartItems (JS.lit 0).

Definition shipping (cartItems : list Item) : JS.number :=
  if (subtotal cartItems > JS.lit 1000000)%js then JS.lit 0 else JS.lit 50000.

Definition tax (cartItems : list Item) : JS.number :=
  JS.Math_round (subtotal cartItems * JS.lit_0_09)%js.

Definition total (cartItems : list Item) : JS.number :=
  (subtotal cartItems + shipping cartItems + tax cartItems)%js.

End Pricing.
End Pricing.

(** ** Effects of an event handler

    A handler runs against the component's state variables, the browser's
    [localStorage] and the outside world (network, router, console).  What
    it does to the outside world is recorded in a trace; what the network
    answers is an input of the handler. *)

#[local] Open Scope string_scope.

Module Eff.

#[local] Set Warnings "-register-all".

(** Values passed to [JSON.stringify] and to the router. *)
Inductive JSON :=
| JString (s : string)
| JNumber (n : JS.number)
| JObject (fields : list (string * JSON)).

Inductive Effect :=
| EFetch (url method : string) (headers : gmap string string) (body : option JSON)
| ENavigate (to : string) (state : option JSON)
| EConsoleWarn (msg : string)
| EConsoleError (msg : string).

Definition is_fetch (e : Effect) : bool :=
  match e with EFetch _ _ _ _ => true | _ => false end.

(** Thrown values. *)
Inductive exn :=
| Error (message : string)
| TypeError
| SyntaxError.

(** How a statement completes. *)
Inductive completion (A : Type) :=
| Normal (a : A)
| Returned
| Thrown (e : exn).
Arguments Normal {A} a.
Arguments Returned {A}.
Arguments Thrown {A} e.

(** How a call of an [async] function settles. *)
Inductive promise := Fulfilled | Rejected (e : exn).

Record Sigma (St : Type) := mkSigma {
  st : St;
  localStorage : gmap string string;
  trace : list Effect
}.
Arguments mkSigma {St} st localStorage trace.
Arguments st {St} σ : rename.
Arguments localStorage {St} σ : rename.
Arguments trace {St} σ : rename.

(** A response of the server, with the type [B] of its parsed body:
    [body] is [None] when [response.json()] rejects. *)
Record Response (B : Type) := mkResponse {
  ok : bool;
  body : option B
}.
Arguments mkResponse {B} ok body.
Arguments ok {B} r : rename.
Arguments body {B} r : rename.

(** What the network answers to the request of a handler: the [fetch]
    promise rejects (network error), or resolves to a response. *)
Inductive FetchOutcome (B : Type) :=
| NetworkError
| Responded (r : Response B).
Arguments NetworkError {B}.
Arguments Responded {B} r.

(** Computations of a handler over the state variables [St]. *)
Definition M (St A : Type) : Type := Sigma St → completion A * Sigma St.

Section Ops.
Context {St : Type}.

Definition ret {A} (a : A) : M St A := λ σ, (Normal a, σ).

Definition bind {A B} (c : M St A) (k : A → M St B) : M St B :=
  λ σ, match c σ with
       | (Normal a, σ') => k a σ'
       | (Returned, σ') => (Returned, σ')
       | (Thrown e, σ') => (Thrown e, σ')
       end.

(** [return;] *)
Definition return_ {A} : M St A := λ σ, (Returned, σ).

(** [throw e;] *)
Definition throw {A} (e : exn) : M St A := λ σ, (Thrown e, σ).

(** [try { body } catch (err) { handler err }] *)
Definition try_catch {A} (body : M St A) (handler : exn → M St A) : M St A :=
  λ σ, match body σ with
       | (Thrown e, σ') => handler e σ'
       | r => r
       end.

(** [try { body } finally { fin }]: [fin] runs however [body]
    completes, and an abrupt completion of [fin] replaces that of
    [body]. *)
Definition try_finally {A} (body : M St A) (fin : M St unit) : M St A :=
  λ σ, let '(c, σ') := body σ in
       match fin σ' with
       | (Normal _, σ'') => (c, σ'')
       | (Returned, σ'') => (Returned, σ'')
       | (Thrown e, σ'') => (Thrown e, σ'')
       end.

(** Reading a state variable, and calling its setter.  A handler sees the
    state variables of the render that created it; no handler below reads
    a variable after setting it, so it reads the state it starts from. *)
Definition read {A} (f : St → A) : M St A := λ σ, (Normal (f (st σ)), σ).
Definition write (f : St → St) : M St unit :=
  λ σ, (Normal tt, mkSigma (f (st σ)) (localStorage σ) (trace σ)).

Definition emit (e : Effect) : M St unit :=
  λ σ, (Normal tt, mkSigma (st σ) (localStorage σ) (trace σ ++ [e])).

Definition localStorage_getItem (key : string) : M St (option string) :=
  λ σ, (Normal (localStorage σ !! key), σ).

Definition localStorage_removeItem (key : string) : M St unit :=
  λ σ, (Normal tt, mkSigma (st σ) (delete key (localStorage σ)) (trace σ)).

Definition console_warn (msg : string) : M St unit := emit (EConsoleWarn msg).
Definition console_error (msg : string) : M St unit := emit (EConsoleError msg).
Definition navigate (to : string) (state : option JSON) : M St unit :=
  emit (ENavigate to state).

(** The body of an [async] function, run to completion. *)
Definition async (body : M St unit) : Sigma St → promise * Sigma St :=
  λ σ, match body σ with
       | (Thrown e, σ') => (Rejected e, σ')
       | (_, σ') => (Fulfilled, σ')
       end.

(** Calling an [async] function without awaiting it: the promise is
    dropped.  The callee's effects are those of running it to
    completion; the caller does nothing after such a call in the
    handlers below. *)
Definition call (f : Sigma St → promise * Sigma St) : M St unit :=
  λ σ, (Normal tt, (f σ).2).

(** [await fetch(url, { method, headers, body })]; the method is GET
    when the call gives none. *)
Definition fetch {B} (net : FetchOutcome B)
    (url method : string) (headers : gmap string string) (body : option JSON)
  : M St (Response B) :=
  bind (emit (EFetch url method headers body))
       (λ _, match net with
             | NetworkError => throw TypeError
             | Responded r => ret r
             end).

(** [await response.json()] *)
Definition json {B} (response : Response B) : M St B :=
  match body response with
  | Some b => ret b
  | None => throw SyntaxError
  end.

(** Reading [o.f], or calling [o.f(...)], where [o] is [undefined]: a
    [TypeError]. *)
Definition member {A} (o : option A) : M St A :=
  match o with
  | Some a => ret a
  | None => throw TypeError
  end.

(** [l.map(f)] for a callback that may throw: the elements are mapped in
    order, and the first exception ends the loop. *)
Fixpoint array_map {A B} (f : A → M St B) (l : list A) : M St (list B) :=
  match l with
  | [] => ret []
  | x :: l =>
      bind (f x) (λ y, bind (array_map f l) (λ ys, ret (y :: ys)))
  end.
End Ops.

(** Truthiness of a value of type [string | null], and of a string. *)
Definition truthy (o : option string) : bool :=
  match o with
  | Some s => bool_decide (s ≠ "")
  | None => false
  end.
Definition truthy_string (s : string) : bool := bool_decide (s ≠ "").

(** A [string | null] spliced into a template literal. *)
Definition splice (o : option string) : string := default "null" o.

(** [a || b] on strings. *)
Definition or_else (a : option string) (b : string) : string :=
  match a with
  | Some s => if truthy_string s then s else b
  | None => b
  end.

(** [localStorage.setItem(key, value)] *)
Definition localStorage_setItem {St} (key value : string) : M St unit :=
  λ σ, (Normal tt, mkSigma (st σ) (<[ key := value ]> (localStorage σ)) (trace σ)).

End Eff.

Import Eff.

Declare Scope eff_scope.
Delimit Scope eff_scope with eff.
Bind Scope eff_scope with Eff.M.
Notation "x ← c ; k" := (Eff.bind c (λ x, k))
  (at level 20, c at level 100, k at level 200, only parsing) : eff_scope.
Notation "c ;; k" := (Eff.bind c (λ _, k))
  (at level 100, k at level 200, right associativity, only parsing) : eff_scope.

(** ** The cart page ([src/pages/CartPage.tsx]) *)

Module CartPage.

Record CartItem := mkCartItem {
  id : string;
  name : string;
  price : JS.number;
  quantity : JS.number;
  image : string;
  category : string;
  productId : string
}.

(** The shape of the server's answer to [GET /cart].  The body is parsed
    JSON: whatever the interfaces [ApiCart] and [ApiCartItem] declare, the
    [items] of the cart and the [product] of an item may be missing, and
    are [None] then. *)
Module Api.
Record Category := mkCategory { name : string }.
Record Product := mkProduct {
  id : string;
  title : string;
  price : JS.number;
  images : option (list string);
  category : option Category
}.
Record ApiCartItem := mkApiCartItem {
  item_id : string;
  quantity : JS.number;
  product : option Product
}.
Record ApiCart := mkApiCart {
  cart_id : string;
  items : option (list ApiCartItem)
}.
(** The envelope [{success, data}]: [success] is the truthiness of
    [result.success], [data] is [None] when [result.data] is absent. *)
Record Envelope := mkEnvelope {
  success : bool;
  data : option ApiCart
}.
End Api.

(** Mock data - used as fallback. *)
Definition mockCartItems : list CartItem :=
  [ {| id := "1"; productId := "1"; name := "کود ارگانیک";
       price := JS.lit 250000; quantity := JS.lit 2;
       image := "/images/fertilizer.jpg"; category := "کود" |};
    {| id := "2"; productId := "2"; name := "بذر گندم با کیفیت بالا";
       price := JS.lit 150000; quantity := JS.lit 1;
       image := "/images/seeds.jpg"; category := "بذر" |} ].

(** The component's state variables. *)
Record State := mkState {
  cartItems : list CartItem;
  loading : bool;
  error : option string;
  cartId : option string
}.

Definition setCartItems (v : list CartItem) : M State unit :=
  write (λ s, mkState v (loading s) (error s) (cartId s)).
Definition setLoading (v : bool) : M State unit :=
  write (λ s, mkState (cartItems s) v (error s) (cartId s)).
Definition setError (v : option string) : M State unit :=
  write (λ s, mkState (cartItems s) (loading s) v (cartId s)).
Definition setCartId (v : option string) : M State unit :=
  write (λ s, mkState (cartItems s) (loading s) (error s) v).

(** [{ ...item, quantity: newQuantity }] *)
Definition with_quantity (item : CartItem) (newQuantity : JS.number) : CartItem :=
  {| id := id item; name := name item; price := price item;
     quantity := newQuantity; image := image item;
     category := category item; productId := productId item |}.

(** The flat view model that [fetchCart] builds from a server item whose
    [product] is [product]. *)
Definition of_api (item : Api.ApiCartItem) (product : Api.Product) : CartItem :=
  {| id := Api.item_id item;
     productId := Api.id product;
     name := Api.title product;
     price := Api.price product;
     quantity := Api.quantity item;
     image := or_else (Api.images product ≫= head) "/images/placeholder.jpg";
     category := or_else (Api.name <$> Api.category product)
                         "دسته‌بندی نشده" |}.

(** The callback of [apiCart.items.map] in [fetchCart]: [item.product.id]
    throws when the item has no product. *)
Definition map_item (item : Api.ApiCartItem) : M State CartItem :=
  bind (member (Api.product item)) (λ product, ret (of_api item product)).

Section Handlers.
(** [API_BASE_URL] of [@/lib/api-config]. *)
Variable API_BASE_URL : string.

#[local] Open Scope eff_scope.

Definition base_headers (token : option string) : gmap string string :=
  let headers := {[ "Content-Type" := "application/json" ]} in
  if truthy token
  then <[ "Authorization" := "Bearer " +:+ splice token ]> headers
  else headers.

(** [fetchCart]; [net] is the answer to its [GET]. *)
Definition fetchCart (net : FetchOutcome Api.Envelope)
  : Sigma State → promise * Sigma State :=
  async (
    try_finally
      (try_catch
         (setLoading true ;;
          setError None ;;
          token ← localStorage_getItem "token" ;
          guestToken ← localStorage_getItem "guestToken" ;
          let headers := base_headers token in
          let url :=
            if truthy guestToken
            then API_BASE_URL +:+ "/cart?guestToken=" +:+ splice guestToken
            else API_BASE_URL +:+ "/cart" in
          response ← fetch net url "GET" headers None ;
          if negb (ok response) then throw (Error "Failed to fetch cart")
          else
            result ← json response ;
            match Api.success result, Api.data result with
            | true, Some apiCart =>
                setCartId (Some (Api.cart_id apiCart)) ;;
                apiItems ← member (Api.items apiCart) ;
                items ← array_map map_item apiItems ;
                setCartItems items
            | _, _ =>
                console_warn "Using mock cart data" ;;
                setCartItems mockCartItems
            end)
         (λ err,
            console_error "Error fetching cart:" ;;
            setError (Some "خطا در بارگذاری سبد خرید") ;;
            setCartItems mockCartItems))
      (setLoading false)).

(** [removeItem]; [net] is the answer to its [DELETE]. *)
Definition removeItem {B} (net : FetchOutcome B) (itemId : string)
  : Sigma State → promise * Sigma State :=
  async (
    try_catch
      (token ← localStorage_getItem "token" ;
       let headers := base_headers token in
       response ← fetch net (API_BASE_URL +:+ "/cart/items/" +:+ itemId)
                        "DELETE" headers None ;
       if negb (ok response) then throw (Error "Failed to remove item")
       else
         cartItems ← read cartItems ;
         setCartItems (filter (λ item, id item ≠ itemId) cartItems))
      (λ err,
         console_error "Error removing item:" ;;
         setError (Some "خطا در حذف محصول") ;;
         cartItems ← read cartItems ;
         setCartItems (filter (λ item, id item ≠ itemId) cartItems))).

(** [updateQuantity]; [net] is the answer to the one request it leads to:
    the [PUT], or the [DELETE] of [removeItem]. *)
Definition updateQuantity {B} (net : FetchOutcome B)
    (itemId : string) (newQuantity : JS.number)
  : Sigma State → promise * Sigma State :=
  async (
    if (newQuantity <= JS.lit 0)%js then
      call (removeItem net itemId) ;;
      return_
    else
      try_catch
        (token ← localStorage_getItem "token" ;
         let headers := base_headers token in
         response ← fetch net (API_BASE_URL +:+ "/cart/items/" +:+ itemId)
                          "PUT" headers
                          (Some (JObject [("quantity", JNumber newQuantity)])) ;
         if negb (ok response) then throw (Error "Failed to update item")
         else
           cartItems ← read cartItems ;
           setCartItems
             (map (λ item, if decide (id item = itemId)
                           then with_quantity item newQuantity else item)
                  cartItems))
        (λ err,
           console_error "Error updating quantity:" ;;
           setError (Some "خطا در به‌روزرسانی تعداد") ;;
           cartItems ← read cartItems ;
           setCartItems
             (map (λ item, if decide (id item = itemId)
                           then with_quantity item newQuantity else item)
                  cartItems))).
End Handlers.

(** *** The handlers of one render

    [removeItem] and [updateQuantity] are created anew by every render, and
    the [cartItems] in their bodies is the list of that render.  Above, a
    handler is run in the state of the render that created it.  Here the
    list of the render is explicit, so that a handler can also be run
    after the state has changed: when two clicks overlap, both handlers
    come from the same render, and the second one settles in the state
    that the first one left. *)
Module Render.
Section Render.
Variable API_BASE_URL : string.
(** [cartItems] as the render saw it. *)
Variable cartItems : list CartItem.

#[local] Open Scope eff_scope.

Definition removeItem {B} (net : FetchOutcome B) (itemId : string)
  : Sigma State → promise * Sigma State :=
  async (
    try_catch
      (token ← localStorage_getItem "token" ;
       let headers := base_headers token in
       response ← fetch net (API_BASE_URL +:+ "/cart/items/" +:+ itemId)
                        "DELETE" headers None ;
       if negb (ok response) then throw (Error "Failed to remove item")
       else setCartItems (filter (λ item, id item ≠ itemId) cartItems))
      (λ err,
         console_error "Error removing item:" ;;
         setError (Some "خطا در حذف محصول") ;;
         setCartItems (filter (λ item, id item ≠ itemId) cartItems))).

Definition updateQuantity {B} (net : FetchOutcome B)
    (itemId : string) (newQuantity : JS.number)
  : Sigma State → promise * Sigma State :=
  async (
    if (newQuantity <= JS.lit 0)%js then
      call (removeItem net itemId) ;;
      return_
    else
      try_catch
        (token ← localStorage_getItem "token" ;
         let headers := base_headers token in
         response ← fetch net (API_BASE_URL +:+ "/cart/items/" +:+ itemId)
                          "PUT" headers
                          (Some (JObject [("quantity", JNumber newQuantity)])) ;
         if negb (ok response) then throw (Error "Failed to update item")
         else
           setCartItems
             (map (λ item, if decide (id item = itemId)
                           then with_quantity item newQuantity else item)
                  cartItems))
        (λ err,
           console_error "Error updating quantity:" ;;
           setError (Some "خطا در به‌روزرسانی تعداد") ;;
           setCartItems
             (map (λ item, if decide (id item = itemId)
                           then with_quantity item newQuantity else item)
                  cartItems))).
End Render.
End Render.

Definition subtotal := Pricing.subtotal price quantity.
Definition shipping := Pricing.shipping price quantity.
Definition tax := Pricing.tax price quantity.
Definition total := Pricing.total price quantity.

(** *** The buttons of a cart line *)

Section Buttons.
Variable API_BASE_URL : string.

(** [onClick={() => updateQuantity(item.id, item.quantity + 1)}] *)
Definition onPlus {B} (net : FetchOutcome B) (item : CartItem)
  : Sigma State → promise * Sigma State :=
  updateQuantity API_BASE_URL net (id item) (quantity item + JS.lit 1)%js.

(** [onClick={() => updateQuantity(item.id, item.quantity - 1)}] *)
Definition onMinus {B} (net : FetchOutcome B) (item : CartItem)
  : Sigma State → promise * Sigma State :=
  updateQuantity API_BASE_URL net (id item) (quantity item - JS.lit 1)%js.

(** [onClick={() => removeItem(item.id)}] *)
Definition onRemove {B} (net : FetchOutcome B) (item : CartItem)
  : Sigma State → promise * Sigma State :=
  removeItem API_BASE_URL net (id item).
End Buttons.

(** *** What the page renders *)

(** The shipping line of the summary: [shipping === 0 ? "free" : amount]. *)
Inductive ShippingLabel :=
| Free
| Fee (amount : JS.number).

Record Summary := mkSummary {
  shown_subtotal : JS.number;
  shown_shipping : ShippingLabel;
  shown_tax : JS.number;
  shown_total : JS.number;
  (** [subtotal <= 1000000 && ...]: the amount still missing for free
      shipping, [1000000 - subtotal] *)
  shown_missing : option JS.number
}.

(** A rendered cart line: name, category, [item.price * item.quantity]
    and the quantity. *)
Record Line := mkLine {
  line_name : string;
  line_category : string;
  line_total : JS.number;
  line_quantity : JS.number
}.

Inductive View :=
| LoadingView
| EmptyCartView
| CartView (count : nat) (banner : option string) (lines : list Line)
           (summary : Summary).

Definition summary (cartItems : list CartItem) : Summary :=
  {| shown_subtotal := subtotal cartItems;
     shown_shipping :=
       if (shipping cartItems === JS.lit 0)%js then Free
       else Fee (shipping cartItems);
     shown_tax := tax cartItems;
     shown_total := total cartItems;
     shown_missing :=
       if (subtotal cartItems <= JS.lit 1000000)%js
       then Some (JS.lit 1000000 - subtotal cartItems)%js
       else None |}.

(** The three [return]s of the component: the spinner while loading, the
    empty-cart card when there is no item, the cart otherwise; the error
    banner is [{error && ...}]. *)
Definition render (s : State) : View :=
  if loading s then LoadingView
  else if bool_decide (length (cartItems s) = 0%nat) then EmptyCartView
  else
    CartView (length (cartItems s))
             (if truthy (error s) then error s else None)
             (map (λ item, mkLine (name item) (category item)
                                  (price item * quantity item)%js
                                  (quantity item))
                  (cartItems s))
             (summary (cartItems s)).

End CartPage.

(** ** The checkout page ([src/pages/CheckoutPage.tsx]) *)

Module CheckoutPage.

Record CartItem := mkCartItem {
  id : string;
  productId : string;
  name : string;
  price : JS.number;
  quantity : JS.number
}.

Record Address := mkAddress {
  address_id : string;
  title : string;
  fullName : string;
  street : string;
  city : string;
  province : string;
  postalCode : string;
  phone : string;
  isDefault : option bool
}.

Inductive PaymentMethod := credit_card | bank_transfer | cash_on_delivery.

(** The answer to [POST /orders]: [{success, data: {id}, message}]. *)
Module Api.
Record Order := mkOrder { id : string }.
Record Envelope := mkEnvelope {
  success : bool;
  data : option Order;
  message : option string
}.
End Api.

Record State := mkState {
  cartItems : list CartItem;
  cartId : option string;
  addresses : list Address;
  loading : bool;
  submitting : bool;
  error : option string;
  selectedAddressId : string;
  paymentMethod : PaymentMethod;
  notes : string
}.

Definition setSubmitting (v : bool) : M State unit :=
  write (λ s, mkState (cartItems s) (cartId s) (addresses s) (loading s) v
                      (error s) (selectedAddressId s) (paymentMethod s) (notes s)).
Definition setError (v : option string) : M State unit :=
  write (λ s, mkState (cartItems s) (cartId s) (addresses s) (loading s)
                      (submitting s) v (selectedAddressId s) (paymentMethod s)
                      (notes s)).

Section Handlers.
#[local] Open Scope eff_scope.

(** [handlePlaceOrder]; [net] is the answer to its [POST].  The URL of the
    request is written between double quotes in the source,
    [fetch("${API_BASE_URL}/orders", ...)]: it is that text, not a
    template over [API_BASE_URL]. *)
Definition handlePlaceOrder (net : FetchOutcome Api.Envelope)
  : Sigma State → promise * Sigma State :=
  async (
    cartId ← read cartId ;
    if negb (truthy cartId) then
      setError (Some "سبد خرید یافت نشد") ;;
      return_
    else
    selectedAddressId ← read selectedAddressId ;
    addresses ← read addresses ;
    if negb (truthy_string selectedAddressId)
       && bool_decide (0 < length addresses)%nat then
      setError (Some "لطفا آدرس تحویل را انتخاب کنید") ;;
      return_
    else
    try_finally
      (try_catch
         (setSubmitting true ;;
          setError None ;;
          token ← localStorage_getItem "token" ;
          if negb (truthy token) then
            setError (Some "لطفا ابتدا وارد حساب کاربری شوید") ;;
            navigate "/login" None ;;
            return_
          else
          let headers : gmap string string :=
            <[ "Authorization" := "Bearer " +:+ splice token ]>
              {[ "Content-Type" := "application/json" ]} in
          response ← fetch net "${API_BASE_URL}/orders" "POST" headers
                           (Some (JObject [("cartId", JString (splice cartId))])) ;
          if negb (ok response) then throw (Error "Failed to place order")
          else
            result ← json response ;
            if Api.success result then
              localStorage_removeItem "guestToken" ;;
              match Api.data result with
              | Some order =>
                  navigate "/order-success"
                           (Some (JObject [("orderId", JString (Api.id order))]))
              | None => throw TypeError
              end
            else
              setError (Some (or_else (Api.message result) "خطا در ثبت سفارش")))
         (λ err,
            console_error "Error placing order:" ;;
            setError (Some "خطا در ثبت سفارش. لطفا دوباره تلاش کنید.")))
      (setSubmitting false)).
End Handlers.

Definition subtotal := Pricing.subtotal price quantity.
Definition shipping := Pricing.shipping price quantity.
Definition tax := Pricing.tax price quantity.
Definition total := Pricing.total price quantity.

(** *** Loading the page: [loadCheckoutData] *)

(** The answers to [GET /cart] and [GET /address] as [loadCheckoutData]
    reads them.  An item is typed [any] in the source: its [product] may
    be missing, and is [None] then. *)
Module LoadApi.
Record Product := mkProduct {
  id : string;
  (** [item.product.title || item.product.name] *)
  title : option string;
  name : string;
  price : JS.number
}.
Record Item := mkItem {
  item_id : string;
  quantity : JS.number;
  product : option Product
}.
Record Cart := mkCart {
  cart_id : string;
  (** [None] when [cartData.data.items] is absent *)
  items : option (list Item)
}.
Record CartEnvelope := mkCartEnvelope {
  success : bool;
  data : option Cart
}.
(** [addr_data] is [None] when [addrData.data] is not an array. *)
Record AddressEnvelope := mkAddressEnvelope {
  addr_success : bool;
  addr_data : option (list Address)
}.
End LoadApi.

Definition setCartItems (v : list CartItem) : M State unit :=
  write (λ s, mkState v (cartId s) (addresses s) (loading s) (submitting s)
                      (error s) (selectedAddressId s) (paymentMethod s) (notes s)).
Definition setCartId (v : option string) : M State unit :=
  write (λ s, mkState (cartItems s) v (addresses s) (loading s) (submitting s)
                      (error s) (selectedAddressId s) (paymentMethod s) (notes s)).
Definition setAddresses (v : list Address) : M State unit :=
  write (λ s, mkState (cartItems s) (cartId s) v (loading s) (submitting s)
                      (error s) (selectedAddressId s) (paymentMethod s) (notes s)).
Definition setLoading (v : bool) : M State unit :=
  write (λ s, mkState (cartItems s) (cartId s) (addresses s) v (submitting s)
                      (error s) (selectedAddressId s) (paymentMethod s) (notes s)).
Definition setSelectedAddressId (v : string) : M State unit :=
  write (λ s, mkState (cartItems s) (cartId s) (addresses s) (loading s)
                      (submitting s) (error s) v (paymentMethod s) (notes s)).
Definition setPaymentMethod (v : PaymentMethod) : M State unit :=
  write (λ s, mkState (cartItems s) (cartId s) (addresses s) (loading s)
                      (submitting s) (error s) (selectedAddressId s) v (notes s)).
Definition setNotes (v : string) : M State unit :=
  write (λ s, mkState (cartItems s) (cartId s) (addresses s) (loading s)
                      (submitting s) (error s) (selectedAddressId s)
                      (paymentMethod s) v).

(** The line that [loadCheckoutData] builds from a server item whose
    [product] is [product]. *)
Definition of_api (item : LoadApi.Item) (product : LoadApi.Product) : CartItem :=
  {| id := LoadApi.item_id item;
     productId := LoadApi.id product;
     name := or_else (LoadApi.title product) (LoadApi.name product);
     price := LoadApi.price product;
     quantity := LoadApi.quantity item |}.

(** The callback of [cartData.data.items.map]: [item.product.id] throws
    when the item has no product. *)
Definition map_item (item : LoadApi.Item) : M State CartItem :=
  bind (member (LoadApi.product item)) (λ product, ret (of_api item product)).

(** [a.isDefault] as a condition. *)
Definition is_default (a : Address) : bool := default false (isDefault a).

Section Loading.
(** [API_BASE_URL] of [@/lib/api-config]. *)
Variable API_BASE_URL : string.

#[local] Open Scope eff_scope.

(** [loadCheckoutData]; [net_cart] is the answer to [GET /cart] and
    [net_address] the answer to [GET /address], if that request is
    issued. *)
Definition loadCheckoutData
    (net_cart : FetchOutcome LoadApi.CartEnvelope)
    (net_address : FetchOutcome LoadApi.AddressEnvelope)
  : Sigma State → promise * Sigma State :=
  async (
    try_finally
      (try_catch
         (setLoading true ;;
          token ← localStorage_getItem "token" ;
          let headers : gmap string string :=
            if truthy token
            then <[ "Authorization" := "Bearer " +:+ splice token ]> ∅
            else ∅ in
          guestToken ← localStorage_getItem "guestToken" ;
          let cartUrl :=
            if truthy guestToken
            then API_BASE_URL +:+ "/cart?guestToken=" +:+ splice guestToken
            else API_BASE_URL +:+ "/cart" in
          cartResp ← fetch net_cart cartUrl "GET" headers None ;
          (if ok cartResp then
             cartData ← json cartResp ;
             match LoadApi.success cartData, LoadApi.data cartData with
             | true, Some data =>
                 setCartId (Some (LoadApi.cart_id data)) ;;
                 match LoadApi.items data with
                 | Some apiItems =>
                     items ← array_map map_item apiItems ;
                     setCartItems items
                 | None => ret tt
                 end
             | _, _ => ret tt
             end
           else ret tt) ;;
          if truthy token then
            addrResp ← fetch net_address (API_BASE_URL +:+ "/address") "GET"
                             headers None ;
            if ok addrResp then
              addrData ← json addrResp ;
              match LoadApi.addr_success addrData, LoadApi.addr_data addrData with
              | true, Some data =>
                  setAddresses data ;;
                  match find is_default data with
                  | Some defaultAddr =>
                      setSelectedAddressId (address_id defaultAddr)
                  | None => ret tt
                  end
              | _, _ => ret tt
              end
            else ret tt
          else ret tt)
         (λ err,
            console_error "Error loading checkout data:" ;;
            setError (Some "خطا در بارگذاری اطلاعات")))
      (setLoading false)).
End Loading.

(** *** What the page renders *)

(** [disabled={submitting || (addresses.length > 0 && !selectedAddressId)}]
    of the place-order button. *)
Definition placeOrder_disabled (s : State) : bool :=
  submitting s
  || (bool_decide (0 < length (addresses s))%nat
      && negb (truthy_string (selectedAddressId s))).

Inductive View :=
| LoadingView
| EmptyCartView
| CheckoutView (banner : option string) (placeOrderDisabled : bool).

(** The three [return]s of the component: the spinner while loading, the
    empty-cart card when there is no item, the checkout form otherwise. *)
Definition render (s : State) : View :=
  if loading s then LoadingView
  else if bool_decide (length (cartItems s) = 0%nat) then EmptyCartView
  else CheckoutView (if truthy (error s) then error s else None)
                    (placeOrder_disabled s).

End CheckoutPage.

(** ** The featured products section (the component appended to
    [src/pages/CheckoutPage.tsx]) *)

Module FeaturedProductsSection.

Record Product := mkProduct {
  id : string;
  name : string;
  price : JS.number;
  originalPrice : option JS.number;
  image : string;
  category : string;
  rating : option JS.number
}.

(** The answer to [GET /products]: [data] is [None] when [data.data] is
    not an array. *)
Module Api.
Record Category := mkCategory { name : string }.
Record Product := mkProduct {
  id : string;
  title : string;
  price : JS.number;
  images : option (list string);
  category : option Category
}.
Record Envelope := mkEnvelope {
  success : bool;
  data : option (list Product)
}.
End Api.

(** Fallback products in case API fails. *)
Definition fallbackProducts : list Product :=
  [ {| id := "1"; name := "نهال سیب گلدن دلیشس پایه مالینگ";
       price := JS.lit 850000; originalPrice := Some (JS.lit 1000000);
       image := "https://images.unsplash.com/photo-1560806887-1e4cd0b6cbd6?w=400";
       category := "نهال میوه";
       rating := Some (S754_finite false 5404319552844595 (-50)) |};
    {| id := "2"; name := "کود NPK آلی ویژه درختان میوه";
       price := JS.lit 450000; originalPrice := None;
       image := "https://images.unsplash.com/photo-1416879595882-3373a0480b5b?w=400";
       category := "کود";
       rating := Some (S754_finite false 5179139571476070 (-50)) |};
    {| id := "3"; name := "سیستم آبیاری قطره‌ای هوشمند";
       price := JS.lit 2500000; originalPrice := Some (JS.lit 3000000);
       image := "https://images.unsplash.com/photo-1563514227147-6d2ff665a6a0?w=400";
       category := "سیستم آبیاری";
       rating := Some (S754_finite false 5516909543528858 (-50)) |};
    {| id := "4"; name := "بذر گوجه فرنگی گلخانه‌ای";
       price := JS.lit 180000; originalPrice := None;
       image := "https://images.unsplash.com/photo-1592921870789-04563d55041c?w=400";
       category := "بذر";
       rating := Some (S754_finite false 5291729562160333 (-50)) |} ].

Record State := mkState {
  products : list Product;
  loading : bool
}.

Definition setProducts (v : list Product) : M State unit :=
  write (λ s, mkState v (loading s)).
Definition setLoading (v : bool) : M State unit :=
  write (λ s, mkState (products s) v).

(** The mapping of a server product; [random] is the value of the call of
    [Math.random()] made for it. *)
Definition of_api (random : JS.number) (p : Api.Product) : Product :=
  {| id := Api.id p;
     name := Api.title p;
     price := Api.price p;
     originalPrice := None;
     image := or_else (Api.images p ≫= head)
                "https://images.unsplash.com/photo-1560806887-1e4cd0b6cbd6?w=400";
     category := or_else (Api.name <$> Api.category p) "محصول";
     rating := Some (JS.lit_4_5 + random * JS.lit_0_5)%js |}.

Section Handlers.
(** [API_BASE_URL] of [@/lib/api-config]. *)
Variable API_BASE_URL : string.

#[local] Open Scope eff_scope.

(** [fetchProducts]; [net] is the answer to its [GET] and [random i] the
    value of the [i]-th call of [Math.random()]. *)
Definition fetchProducts (net : FetchOutcome Api.Envelope)
    (random : nat → JS.number)
  : Sigma State → promise * Sigma State :=
  async (
    try_finally
      (try_catch
         (response ← fetch net (API_BASE_URL +:+ "/products?limit=8") "GET"
                           ∅ None ;
          if ok response then
            data ← json response ;
            match Api.success data, Api.data data with
            | true, Some l =>
                let mapped := imap (λ i p, of_api (random i) p) l in
                setProducts mapped
            | _, _ => setProducts fallbackProducts
            end
          else setProducts fallbackProducts)
         (λ err,
            console_error "Error fetching featured products:" ;;
            setProducts fallbackProducts))
      (setLoading false)).
End Handlers.

End FeaturedProductsSection.

(** ** The product card ([src/components/cards/ProductCard.tsx]) *)

Module ProductCard.

(** The props; [rating] and [inStock] are optional, with defaults 4.5 and
    [true]. *)
Record Props := mkProps {
  id : string;
  name : string;
  price : JS.number;
  originalPrice : option JS.number;
  image : string;
  category : string;
  rating : option JS.number;
  inStock : option bool
}.

Definition rating_of (p : Props) : JS.number := default JS.lit_4_5 (rating p).
Definition inStock_of (p : Props) : bool := default true (inStock p).

(** A call of [toast({ title, description, variant })]. *)
Record Toast := mkToast {
  title : string;
  description : string;
  variant : option string
}.

(** The state variable of the card and, in call order, the toasts raised
    through [useToast]. *)
Record State := mkState {
  isAddingToCart : bool;
  toasts : list Toast
}.

Definition setIsAddingToCart (v : bool) : M State unit :=
  write (λ s, mkState v (toasts s)).
Definition toast (t : Toast) : M State unit :=
  write (λ s, mkState (isAddingToCart s) (toasts s ++ [t])).

(** The answer to [GET /cart] as [handleAddToCart] reads it. *)
Module Api.
Record Cart := mkCart {
  id : string;
  guestToken : option string
}.
Record Envelope := mkEnvelope {
  success : bool;
  data : option Cart
}.
End Api.

(** [originalPrice ? Math.round(((originalPrice - price) / originalPrice) * 100) : 0] *)
Definition discount (p : Props) : JS.number :=
  match originalPrice p with
  | Some o =>
      if JS.truthy o
      then JS.Math_round (((o - price p) / o) * JS.lit 100)%js
      else JS.lit 0
  | None => JS.lit 0
  end.

(** [{discount > 0 && ...}]: the discount badge is shown. *)
Definition discount_badge (p : Props) : bool := (discount p > JS.lit 0)%js.

Section Handlers.
(** [API_BASE_URL] of [@/lib/api-config]. *)
Variable API_BASE_URL : string.

#[local] Open Scope eff_scope.

(** [handleAddToCart]; [net_cart] is the answer to [GET /cart] and
    [net_add] the answer to the [POST] that adds the item, if it is
    issued.  The first URL is written between double quotes in the
    source, [let cartUrl = "${API_BASE_URL}/cart"]: it is that text. *)
Definition handleAddToCart {B} (p : Props)
    (net_cart : FetchOutcome Api.Envelope) (net_add : FetchOutcome B)
  : Sigma State → promise * Sigma State :=
  async (
    if negb (inStock_of p) then
      toast {| title := "خطا"; description := "این محصول ناموجود است";
               variant := Some "destructive" |} ;;
      return_
    else
    try_finally
      (try_catch
         (setIsAddingToCart true ;;
          token ← localStorage_getItem "token" ;
          guestToken ← localStorage_getItem "guestToken" ;
          let headers : gmap string string :=
            let headers := {[ "Content-Type" := "application/json" ]} in
            if truthy token
            then <[ "Authorization" := "Bearer " +:+ splice token ]> headers
            else headers in
          let cartUrl :=
            if negb (truthy token) && truthy guestToken
            then "${API_BASE_URL}/cart" +:+ "?guestToken=" +:+ splice guestToken
            else "${API_BASE_URL}/cart" in
          cartResponse ← fetch net_cart cartUrl "GET" headers None ;
          if negb (ok cartResponse) then throw (Error "Failed to get cart")
          else
            cartData ← json cartResponse ;
            match Api.success cartData, Api.data cartData with
            | true, Some data =>
                guestToken ←
                  (if negb (truthy token) && truthy (Api.guestToken data)
                      && negb (truthy guestToken)
                   then
                     localStorage_setItem "guestToken"
                                          (splice (Api.guestToken data)) ;;
                     ret (Api.guestToken data)
                   else ret guestToken) ;
                let cartId := Api.id data in
                let addUrl :=
                  if negb (truthy token) && truthy guestToken
                  then API_BASE_URL +:+ "/cart/" +:+ cartId +:+ "/items"
                       +:+ "?guestToken=" +:+ splice guestToken
                  else API_BASE_URL +:+ "/cart/" +:+ cartId +:+ "/items" in
                addResponse ← fetch net_add addUrl "POST" headers
                                    (Some (JObject [("productId", JString (id p));
                                                    ("quantity", JNumber (JS.lit 1))])) ;
                if negb (ok addResponse) then throw (Error "Failed to add to cart")
                else
                  toast {| title := "موفق";
                           description := name p +:+ " به سبد خرید اضافه شد";
                           variant := None |}
            | _, _ => throw (Error "Invalid cart response")
            end)
         (λ err,
            console_error "Error adding to cart:" ;;
            toast {| title := "خطا";
                     description := "خطا در اضافه کردن به سبد خرید";
                     variant := Some "destructive" |}))
      (setIsAddingToCart false)).
End Handlers.

End ProductCard.

(** * Specification-side definitions *)

Module PricingSpec.
Section PricingSpec.
Context {Item : Type} (price quantity : Item → JS.number).

(** The sum [f 0 + f 1 + ... + f (n-1)] of numbers, from zero, in index
    order. *)
Fixpoint sigma (n : nat) (f : nat → JS.number) : JS.number :=
  match n with
  | O => JS.lit 0
  | S n' => (sigma n' f + f n')%js
  end.

(** The price of line [i] times its quantity. *)
Definition line_amount (cartItems : list Item) (i : nat) : JS.number :=
  match cartItems !! i with
  | Some item => (price item * quantity item)%js
  | None => JS.lit 0
  end.

(** The sum over the items of price times quantity. *)
Definition sum_price_quantity (cartItems : list Item) : JS.number :=
  sigma (length cartItems) (line_amount cartItems).

(** The cart of the end-to-end scenario: 250000 x 2 and 150000 x 1. *)
Definition scenario (cartItems : list Item) : Prop :=
  price <$> cartItems = [JS.lit 250000; JS.lit 150000]
  ∧ quantity <$> cartItems = [JS.lit 2; JS.lit 1].

(** The items carry the integer amounts [amounts] (price, quantity):
    non-negative integers below 2^53. *)
Definition integer_amounts (cartItems : list Item) (amounts : list (Z * Z)) : Prop :=
  Forall2 (λ item pq,
             price item = JS.lit pq.1 ∧ quantity item = JS.lit pq.2
             ∧ 0 ≤ pq.1 < 2 ^ 53 ∧ 0 ≤ pq.2 < 2 ^ 53)
          cartItems amounts.

(** The sum of price times quantity, over the integers. *)
Definition integer_sum (amounts : list (Z * Z)) : Z :=
  foldr (λ pq acc, pq.1 * pq.2 + acc) 0 amounts.

End PricingSpec.
End PricingSpec.

(** The request of a handler succeeded: the network answered, with an OK
    status. *)
Definition request_ok {B} (net : FetchOutcome B) : bool :=
  match net with
  | NetworkError => false
  | Responded r => ok r
  end.

Module CartPageSpec.
Import CartPage.

(** The local update of [updateQuantity]. *)
Definition set_quantity (itemId : string) (newQuantity : JS.number)
    (cartItems : list CartItem) : list CartItem :=
  map (λ item, if decide (id item = itemId)
               then with_quantity item newQuantity else item) cartItems.

(** The local update of [removeItem]. *)
Definition without (itemId : string) (cartItems : list CartItem)
  : list CartItem :=
  filter (λ item, id item ≠ itemId) cartItems.

(** The line for a server item, when the item has a product; and the
    lines for the items of a cart, when the cart has a list of items and
    each of them has a product. *)
Definition line (item : Api.ApiCartItem) : option CartItem :=
  of_api item <$> Api.product item.
Definition lines (apiCart : Api.ApiCart) : option (list CartItem) :=
  Api.items apiCart ≫= mapM line.

(** The ways [fetchCart] can go: the cart was loaded; the envelope is a
    success but the lines of its cart cannot be built (no list of items,
    or an item without product); the response was read but its envelope
    is not a success; or the request failed (network error, status not
    OK, unreadable body). *)
Inductive fetch_result :=
| Loaded (apiCart : Api.ApiCart)
| Malformed (apiCart : Api.ApiCart)
| Unsuccessful
| Failed.

Definition classify (net : FetchOutcome Api.Envelope) : fetch_result :=
  match net with
  | NetworkError => Failed
  | Responded r =>
      if ok r then
        match body r with
        | Some result =>
            match Api.success result, Api.data result with
            | true, Some apiCart =>
                match lines apiCart with
                | Some _ => Loaded apiCart
                | None => Malformed apiCart
                end
            | _, _ => Unsuccessful
            end
        | None => Failed
        end
      else Failed
  end.

(** [fetchCart] did not load the cart. *)
Definition fetch_failure (net : FetchOutcome Api.Envelope) : Prop :=
  ∀ apiCart, classify net ≠ Loaded apiCart.

Definition cart_url (API_BASE_URL : string) (guestToken : option string) : string :=
  if truthy guestToken
  then API_BASE_URL +:+ "/cart?guestToken=" +:+ splice guestToken
  else API_BASE_URL +:+ "/cart".

(** The state of a page that has just been mounted. *)
Definition initial : Sigma State :=
  mkSigma (mkState [] true None None) ∅ [].

End CartPageSpec.

Module CheckoutPageSpec.
Import CheckoutPage.

(** The first precondition of [handlePlaceOrder]: a cart identifier. *)
Definition has_cart (s : State) : bool := truthy (cartId s).

(** The second one fails when there are saved addresses and none is
    selected. *)
Definition address_missing (s : State) : bool :=
  negb (truthy_string (selectedAddressId s))
  && bool_decide (0 < length (addresses s))%nat.

Definition with_error (s : State) (submitting' : bool) (e : option string) : State :=
  mkState (cartItems s) (cartId s) (addresses s) (loading s) submitting' e
          (selectedAddressId s) (paymentMethod s) (notes s).

Definition order_headers (token : option string) : gmap string string :=
  <[ "Authorization" := "Bearer " +:+ splice token ]>
    {[ "Content-Type" := "application/json" ]}.

(** The request that [handlePlaceOrder] issues. *)
Definition order_request (s : State) (ls : gmap string string) : Effect :=
  EFetch "${API_BASE_URL}/orders" "POST" (order_headers (ls !! "token"))
         (Some (JObject [("cartId", JString (splice (cartId s)))])).

(** The requests among the effects that a handler added to the trace
    [tr]. *)
Definition requests_since (tr : list Effect) (σ' : Sigma State) : list Effect :=
  filter (λ e, is_fetch e = true) (drop (length tr) (trace σ')).

End CheckoutPageSpec.

(** ** Definitions for the properties of the rest of the code *)

(** The effects that a handler added to the trace [tr], and the requests
    among them. *)
Definition new_effects {St} (tr : list Effect) (σ' : Sigma St) : list Effect :=
  drop (length tr) (trace σ').
Definition new_requests {St} (tr : list Effect) (σ' : Sigma St) : list Effect :=
  filter (λ e, is_fetch e = true) (new_effects tr σ').

(** The navigations among the effects. *)
Definition is_navigate (e : Effect) : bool :=
  match e with ENavigate _ _ => true | _ => false end.
Definition new_navigations {St} (tr : list Effect) (σ' : Sigma St) : list Effect :=
  filter (λ e, is_navigate e = true) (new_effects tr σ').

(** What a handler gets out of one request: the payload it was after; a
    response it silently ignores (status not OK, or an envelope that is not
    a success); or an exception (the network failed, or the body could not
    be read). *)
Inductive answer (A : Type) :=
| Got (a : A)
| Ignored
| Threw.
Arguments Got {A} a.
Arguments Ignored {A}.
Arguments Threw {A}.

Module CheckoutLoadSpec.
Import CheckoutPage.

Definition cart_answer (net : FetchOutcome LoadApi.CartEnvelope)
  : answer LoadApi.Cart :=
  match net with
  | NetworkError => Threw
  | Responded r =>
      if ok r then
        match body r with
        | Some env =>
            match LoadApi.success env, LoadApi.data env with
            | true, Some cart => Got cart
            | _, _ => Ignored
            end
        | None => Threw
        end
      else Ignored
  end.

Definition address_answer (net : FetchOutcome LoadApi.AddressEnvelope)
  : answer (list Address) :=
  match net with
  | NetworkError => Threw
  | Responded r =>
      if ok r then
        match body r with
        | Some env =>
            match LoadApi.addr_success env, LoadApi.addr_data env with
            | true, Some l => Got l
            | _, _ => Ignored
            end
        | None => Threw
        end
      else Ignored
  end.

(** The line for a server item, when the item has a product. *)
Definition line (item : LoadApi.Item) : option CartItem :=
  of_api item <$> LoadApi.product item.

(** What the cart obtained does to the local cart: it is replaced by the
    lines of the items; it is kept, when the cart carries no list of
    items; or the mapping throws, because an item has no product. *)
Inductive items_result :=
| Replaced (lines : list CartItem)
| Kept
| MapThrew.

Definition map_items (cart : LoadApi.Cart) : items_result :=
  match LoadApi.items cart with
  | Some items =>
      match mapM line items with
      | Some lines => Replaced lines
      | None => MapThrew
      end
  | None => Kept
  end.

(** The cart step of [loadCheckoutData] threw: the request did, or the
    mapping of the items of the cart obtained. *)
Definition cart_threw (net_cart : FetchOutcome LoadApi.CartEnvelope) : bool :=
  match cart_answer net_cart with
  | Threw => true
  | Got cart => match map_items cart with MapThrew => true | _ => false end
  | Ignored => false
  end.

(** What [loadCheckoutData] gets out of the address request: [None] when
    the request is not issued, because the cart step threw or because no
    bearer token is stored. *)
Definition address_step (ls : gmap string string)
    (net_cart : FetchOutcome LoadApi.CartEnvelope)
    (net_address : FetchOutcome LoadApi.AddressEnvelope)
  : option (answer (list Address)) :=
  if cart_threw net_cart then None
  else if truthy (ls !! "token") then Some (address_answer net_address)
  else None.

(** [loadCheckoutData] threw inside its [try]: in the cart step, or in
    the address request. *)
Definition load_threw (ls : gmap string string)
    (net_cart : FetchOutcome LoadApi.CartEnvelope)
    (net_address : FetchOutcome LoadApi.AddressEnvelope) : bool :=
  cart_threw net_cart
  || match address_step ls net_cart net_address with
     | Some Threw => true
     | _ => false
     end.

(** The headers of the requests of [loadCheckoutData]. *)
Definition load_headers (token : option string) : gmap string string :=
  if truthy token
  then <[ "Authorization" := "Bearer " +:+ splice token ]> ∅
  else ∅.

(** The state of a page that has just been mounted. *)
Definition initial_state : State :=
  mkState [] None [] true false None "" cash_on_delivery "".
Definition initial : Sigma State := mkSigma initial_state ∅ [].

(** How the answer to [POST /orders] is read by [handlePlaceOrder]. *)
Inductive order_answer :=
| Placed (order : Api.Order)
| AcceptedWithoutData
| Refused (message : option string)
| RequestFailed.

Definition classify_order (net : FetchOutcome Api.Envelope) : order_answer :=
  match net with
  | NetworkError => RequestFailed
  | Responded r =>
      if ok r then
        match body r with
        | Some env =>
            if Api.success env then
              match Api.data env with
              | Some order => Placed order
              | None => AcceptedWithoutData
              end
            else Refused (Api.message env)
        | None => RequestFailed
        end
      else RequestFailed
  end.

End CheckoutLoadSpec.

Module FeaturedProductsSpec.
Import FeaturedProductsSection.

Definition products_answer (net : FetchOutcome Api.Envelope)
  : option (list Api.Product) :=
  match net with
  | NetworkError => None
  | Responded r =>
      if ok r then
        match body r with
        | Some env =>
            match Api.success env, Api.data env with
            | true, Some l => Some l
            | _, _ => None
            end
        | None => None
        end
      else None
  end.


End FeaturedProductsSpec.

Module ProductCardSpec.
Import ProductCard.

(** The cart that the lookup of [handleAddToCart] yields, if any. *)
Definition cart_answer (net : FetchOutcome Api.Envelope) : option Api.Cart :=
  match net with
  | NetworkError => None
  | Responded r =>
      if ok r then
        match body r with
        | Some env =>
            match Api.success env, Api.data env with
            | true, Some cart => Some cart
            | _, _ => None
            end
        | None => None
        end
      else None
  end.

(** The visitor is anonymous and the server issues a guest token while
    none is stored: the token is to be persisted. *)
Definition issues_guest_token (ls : gmap string string) (cart : Api.Cart) : bool :=
  negb (truthy (ls !! "token")) && truthy (Api.guestToken cart)
  && negb (truthy (ls !! "guestToken")).

(** The guest token in use after the cart lookup: the one just issued, or
    the stored one. *)
Definition guest_after (ls : gmap string string) (cart : Api.Cart)
  : option string :=
  if issues_guest_token ls cart then Api.guestToken cart else ls !! "guestToken".

(** The URL of the cart lookup. *)
Definition lookup_url (ls : gmap string string) : string :=
  if negb (truthy (ls !! "token")) && truthy (ls !! "guestToken")
  then "${API_BASE_URL}/cart?guestToken=" +:+ splice (ls !! "guestToken")
  else "${API_BASE_URL}/cart".

(** The request that adds the product to the cart [cart]. *)
Definition add_request (API_BASE_URL : string) (p : Props)
    (ls : gmap string string) (cart : Api.Cart) : Effect :=
  EFetch
    (if negb (truthy (ls !! "token")) && truthy (guest_after ls cart)
     then API_BASE_URL +:+ "/cart/" +:+ Api.id cart +:+ "/items"
          +:+ "?guestToken=" +:+ splice (guest_after ls cart)
     else API_BASE_URL +:+ "/cart/" +:+ Api.id cart +:+ "/items")
    "POST" (CartPage.base_headers (ls !! "token"))
    (Some (JObject [("productId", JString (id p));
                    ("quantity", JNumber (JS.lit 1))])).

(** A number that is a zero or carries the minus sign: it is not [> 0]. *)
Definition nonpositive (x : JS.number) : Prop :=
  match x with
  | S754_zero _ => True
  | S754_finite s _ _ => s = true
  | S754_infinity s => s = true
  | S754_nan => False
  end.

Definition success_toast (p : Props) : Toast :=
  {| title := "موفق"; description := name p +:+ " به سبد خرید اضافه شد";
     variant := None |}.
Definition failure_toast : Toast :=
  {| title := "خطا"; description := "خطا در اضافه کردن به سبد خرید";
     variant := Some "destructive" |}.
Definition out_of_stock_toast : Toast :=
  {| title := "خطا"; description := "این محصول ناموجود است";
     variant := Some "destructive" |}.

End ProductCardSpec.

(** * Properties *)

(** ** Binary64 arithmetic on integers

    The rounding of the Standard Library's [SpecFloat] operations is the
    identity on values that fit in 53 bits; mantissas of results never
    exceed 53 bits. *)

Module Binary64.

#[local] Open Scope Z_scope.

Lemma digits2_pos_size p : digits2_pos p = Pos.size p.
Proof. induction p; simpl; congruence. Qed.

Lemma Zdigits2_log2 m : 0 < m → Zdigits2 m = Z.log2 m + 1.
Proof.
  destruct m as [|p|p]; try lia. intros _. simpl.
  rewrite digits2_pos_size. destruct p; simpl; lia.
Qed.

Lemma iter_pos_iter {A} (f : A → A) p x : SpecFloat.iter_pos f p x = Pos.iter f x p.
Proof.
  revert x. induction p as [p IH|p IH|]; intros x; simpl; try done.
  - by rewrite !IH, !Pos.iter_swap.
  - by rewrite !IH.
Qed.

Lemma shr_1_m r : 0 ≤ shr_m r → shr_m (shr_1 r) = shr_m r / 2.
Proof.
  destruct r as [m r s]. simpl. intros Hm.
  destruct m as [|[p|p|]|p]; simpl; try lia; try done.
  - rewrite Pos2Z.inj_xI. apply Z.div_unique with 1; lia.
  - rewrite Pos2Z.inj_xO. apply Z.div_unique with 0; lia.
Qed.

Lemma shr_nat_m n r :
  0 ≤ shr_m r → shr_m (Nat.iter n shr_1 r) = shr_m r / 2 ^ Z.of_nat n.
Proof.
  intros Hm. induction n as [|n IH].
  - change (Z.of_nat 0) with 0. by rewrite Z.pow_0_r, Z.div_1_r.
  - rewrite Nat2Z.inj_succ, Z.pow_succ_r by lia. rewrite Nat.iter_succ.
    rewrite shr_1_m.
    + rewrite IH. rewrite Z.div_div by lia. f_equal. lia.
    + rewrite IH. apply Z.div_pos; lia.
Qed.

Lemma shr_iter_m p r :
  0 ≤ shr_m r → shr_m (SpecFloat.iter_pos shr_1 p r) = shr_m r / 2 ^ Zpos p.
Proof.
  intros Hm.
  rewrite iter_pos_iter, Pos2Nat.inj_iter, <- (positive_nat_Z p).
  by apply shr_nat_m.
Qed.

Lemma shr_1_even j :
  0 ≤ j →
  shr_1 (Build_shr_record (2 * j) false false) = Build_shr_record j false false.
Proof. by destruct j. Qed.

(** Shifting out zero bits is exact. *)
Lemma shr_nat_exact n k :
  0 ≤ k →
  Nat.iter n shr_1 (Build_shr_record (k * 2 ^ Z.of_nat n) false false)
  = Build_shr_record k false false.
Proof.
  intros Hk. induction n as [|n IH] in k, Hk |- *.
  - change (Z.of_nat 0) with 0. simpl. f_equal. lia.
  - rewrite Nat2Z.inj_succ, Z.pow_succ_r by lia.
    replace (k * (2 * 2 ^ Z.of_nat n)) with (2 * (k * 2 ^ Z.of_nat n)) by lia.
    rewrite Nat.iter_succ_r, shr_1_even by lia. by apply IH.
Qed.

Lemma shr_iter_exact p k :
  0 ≤ k →
  SpecFloat.iter_pos shr_1 p (Build_shr_record (k * 2 ^ Zpos p) false false)
  = Build_shr_record k false false.
Proof.
  intros Hk.
  rewrite iter_pos_iter, Pos2Nat.inj_iter, <- (positive_nat_Z p).
  by apply shr_nat_exact.
Qed.

Lemma fexp_64 e : fexp 53 1024 e = Z.max (e - 53) (-1074).
Proof. reflexivity. Qed.

Lemma Zdigits2_mul_pow2 m k :
  0 < m → 0 ≤ k → Zdigits2 (m * 2 ^ k) = Zdigits2 m + k.
Proof.
  intros Hm Hk. rewrite !Zdigits2_log2 by (try apply Z.mul_pos_pos; lia).
  rewrite Z.log2_mul_pow2 by lia. lia.
Qed.

Lemma Zdigits2_bounds m :
  0 < m → 2 ^ (Zdigits2 m - 1) ≤ m < 2 ^ Zdigits2 m.
Proof.
  intros Hm. rewrite Zdigits2_log2 by done.
  replace (Z.log2 m + 1 - 1) with (Z.log2 m) by lia.
  apply Z.log2_spec. done.
Qed.

Lemma shr_fexp_exact (m0 : positive) k e :
  Zdigits2 (Zpos m0) = 53 → 0 ≤ k → -1074 ≤ e + k →
  shr_fexp 53 1024 (Zpos m0 * 2 ^ k) e loc_Exact
  = (Build_shr_record (Zpos m0) false false, e + k).
Proof.
  intros Hd Hk He. unfold shr_fexp.
  rewrite Zdigits2_mul_pow2, Hd, fexp_64 by lia.
  replace (Z.max (53 + k + e - 53) (-1074) - e) with k by lia.
  destruct k as [|p|p]; [| |lia].
  - simpl. f_equal; [f_equal|]; lia.
  - cbn [shr shr_record_of_loc]. by rewrite shr_iter_exact.
Qed.

Lemma binary_round_aux_exact s (m0 : positive) k e :
  Zdigits2 (Zpos m0) = 53 → 0 ≤ k → -1074 ≤ e + k ≤ 971 →
  binary_round_aux 53 1024 s (Zpos m0 * 2 ^ k) e loc_Exact
  = S754_finite s m0 (e + k).
Proof.
  intros Hd Hk He. unfold binary_round_aux.
  rewrite shr_fexp_exact by lia. cbn [shr_m loc_of_shr_record round_nearest_even].
  replace (Zpos m0) with (Zpos m0 * 2 ^ 0) at 1 by lia.
  rewrite shr_fexp_exact by lia. cbn [shr_m].
  rewrite Z.add_0_r.
  destruct (Z.leb_spec (e + k) (1024 - 53)); [done|lia].
Qed.

Lemma shr_record_of_loc_m m l : shr_m (shr_record_of_loc m l) = m.
Proof. by destruct l as [|[]]. Qed.

Lemma shr_fexp_bound m e l :
  0 ≤ m → 0 ≤ shr_m (shr_fexp 53 1024 m e l).1 < 2 ^ 53.
Proof.
  intros Hm. unfold shr_fexp. rewrite fexp_64.
  assert (Hn : Zdigits2 m - 53 ≤ Z.max (Zdigits2 m + e - 53) (-1074) - e) by lia.
  revert Hn. generalize (Z.max (Zdigits2 m + e - 53) (-1074) - e). intros n Hn.
  assert (Hsmall : n ≤ 0 → 0 ≤ m < 2 ^ 53).
  { intros Hn0. split; [done|].
    destruct (Z.eq_dec m 0) as [->|]; [done|].
    pose proof (Zdigits2_bounds m ltac:(lia)) as [_ Hlt].
    eapply Z.lt_le_trans; [done|]. apply Z.pow_le_mono_r; lia. }
  destruct n as [|p|p]; cbn [shr fst]; rewrite ?shr_record_of_loc_m; try (apply Hsmall; lia).
  rewrite shr_iter_m by (rewrite shr_record_of_loc_m; lia).
  rewrite shr_record_of_loc_m. split; [apply Z.div_pos; lia|].
  apply Z.div_lt_upper_bound; [lia|].
  destruct (Z.eq_dec m 0) as [->|]; [lia|].
  pose proof (Zdigits2_bounds m ltac:(lia)) as [_ Hlt].
  eapply Z.lt_le_trans; [done|].
  rewrite <- Z.pow_add_r by lia. apply Z.pow_le_mono_r; lia.
Qed.

Lemma round_nearest_even_nonneg m l : 0 ≤ m → 0 ≤ round_nearest_even m l.
Proof.
  intros Hm. destruct l as [|[]]; simpl; try lia. destruct (Z.even m); lia.
Qed.

Lemma binary_round_aux_bound s m e l s' m' e' :
  0 ≤ m →
  binary_round_aux 53 1024 s m e l = S754_finite s' m' e' →
  Zpos m' < 2 ^ 53.
Proof.
  intros Hm. unfold binary_round_aux.
  pose proof (shr_fexp_bound m e l Hm) as H1.
  destruct (shr_fexp 53 1024 m e l) as [mrs1 e1]. cbn [fst] in H1.
  pose proof (shr_fexp_bound
                (round_nearest_even (shr_m mrs1) (loc_of_shr_record mrs1)) e1
                loc_Exact) as H2.
  destruct (shr_fexp 53 1024 _ e1 loc_Exact) as [mrs2 e2]. cbn [fst] in H2.
  destruct (shr_m mrs2) as [|p|p]; try done.
  destruct (e2 <=? 1024 - 53); try done.
  intros [= _ <- _]. apply H2, round_nearest_even_nonneg. lia.
Qed.

Lemma SFmul_bound x y s m e :
  SFmul 53 1024 x y = S754_finite s m e → Zpos m < 2 ^ 53.
Proof.
  destruct x as [sx|sx| |sx mx ex], y as [sy|sy| |sy my ey]; try done.
  simpl. apply binary_round_aux_bound. lia.
Qed.

Section Canon.
Variable z : Z.
Hypothesis Hz : 0 < z < 2 ^ 53.

Lemma digits_53 : 1 ≤ Zdigits2 z ≤ 53.
Proof.
  pose proof (Zdigits2_bounds z ltac:(lia)) as [Hlo Hhi].
  rewrite Zdigits2_log2 by lia.
  pose proof (Z.log2_nonneg z).
  assert (Z.log2 z < 53) by (apply Z.log2_lt_pow2; lia). lia.
Qed.

Lemma canon_m_pos : 0 < JS.canon_m z.
Proof.
  pose proof digits_53. unfold JS.canon_m, JS.prec. apply Z.mul_pos_pos; [lia|].
  apply Z.pow_pos_nonneg; lia.
Qed.

Lemma canon_m_digits : Zdigits2 (JS.canon_m z) = 53.
Proof.
  pose proof digits_53. unfold JS.canon_m, JS.prec. rewrite Zdigits2_mul_pow2; lia.
Qed.

Lemma canon_m_to_pos : Zpos (Z.to_pos (JS.canon_m z)) = JS.canon_m z.
Proof. pose proof canon_m_pos. lia. Qed.

Lemma binary_round_aux_canon s m e :
  e ≤ JS.canon_e z → Zpos m = z * 2 ^ (- e) →
  binary_round_aux 53 1024 s (Zpos m) e loc_Exact = JS.canon s z.
Proof.
  intros He Hm. pose proof digits_53. unfold JS.canon_e, JS.prec in He.
  assert (Zpos m = Zpos (Z.to_pos (JS.canon_m z)) * 2 ^ (JS.canon_e z - e)) as ->.
  { rewrite canon_m_to_pos, Hm. unfold JS.canon_m, JS.canon_e, JS.prec.
    rewrite <- Z.mul_assoc, <- Z.pow_add_r by lia. do 2 f_equal. lia. }
  rewrite binary_round_aux_exact.
  - unfold JS.canon. f_equal. lia.
  - rewrite canon_m_to_pos. apply canon_m_digits.
  - unfold JS.canon_e, JS.prec. lia.
  - unfold JS.canon_e, JS.prec. lia.
Qed.

Lemma pos_iter_xO (m d : positive) : Zpos (Pos.iter xO m d) = Zpos m * 2 ^ Zpos d.
Proof.
  rewrite Pos2Nat.inj_iter, <- (positive_nat_Z d).
  induction (Pos.to_nat d) as [|n IH]; [simpl; lia|].
  rewrite Nat2Z.inj_succ, Z.pow_succ_r by lia. simpl.
  rewrite Pos2Z.inj_xO. simpl in IH. rewrite IH. lia.
Qed.

Lemma binary_round_canon s m e :
  e ≤ 0 → Zpos m = z * 2 ^ (- e) →
  binary_round 53 1024 s m e = JS.canon s z.
Proof.
  intros He Hm. pose proof digits_53. unfold binary_round.
  assert (Hd : Zpos (digits2_pos m) = Zdigits2 z - e).
  { change (Zpos (digits2_pos m)) with (Zdigits2 (Zpos m)).
    rewrite Hm, Zdigits2_mul_pow2; lia. }
  rewrite Hd, fexp_64.
  replace (Z.max (Zdigits2 z - e + e - 53) (-1074)) with (JS.canon_e z)
    by (unfold JS.canon_e, JS.prec; lia).
  unfold shl_align. destruct (JS.canon_e z - e) as [|d|d] eqn:Hsh.
  - apply binary_round_aux_canon; [lia|done].
  - apply binary_round_aux_canon; [lia|done].
  - apply binary_round_aux_canon; [lia|].
    rewrite pos_iter_xO, Hm, <- Z.mul_assoc, <- Z.pow_add_r by lia.
    do 2 f_equal. lia.
Qed.
End Canon.

Lemma lit_pos z : 0 < z < 2 ^ 53 → JS.lit z = JS.canon false z.
Proof.
  intros Hz. unfold JS.lit. destruct z as [|p|p]; try lia.
  apply binary_round_canon; [done|done|]. simpl. lia.
Qed.

Lemma to_Z_canon s z : 0 < z < 2 ^ 53 → JS.to_Z (JS.canon s z) = Some (cond_Zopp s z).
Proof.
  intros Hz. pose proof (digits_53 z Hz). unfold JS.canon, JS.to_Z.
  rewrite canon_m_to_pos by done. unfold JS.canon_m, JS.canon_e, JS.prec.
  destruct (Zdigits2 z - 53) as [|e|e] eqn:He; try lia.
  - replace (53 - Zdigits2 z) with 0 by lia. f_equal.
    rewrite !Z.pow_0_r, !Z.mul_1_r. done.
  - replace (53 - Zdigits2 z) with (Zpos e) by lia.
    rewrite Z.mod_mul, Z.div_mul by lia. done.
Qed.

Lemma to_Z_normalize z s :
  - 2 ^ 53 < z < 2 ^ 53 →
  JS.to_Z (binary_normalize 53 1024 z 0 s) = Some z.
Proof.
  intros Hz. destruct z as [|p|p]; [done| |].
  - cbn [binary_normalize].
    rewrite (binary_round_canon (Zpos p)), to_Z_canon; try done; simpl; lia.
  - cbn [binary_normalize].
    rewrite (binary_round_canon (Zpos p)), to_Z_canon; try done; simpl; lia.
Qed.

Lemma Math_round_spec x q :
  JS.bounded x → JS.to_Q x = Some q →
  JS.to_Z (JS.Math_round x) = Some (Qfloor (q + (1 # 2))%Q).
Proof.
  destruct x as [s|s| |s m e]; try done.
  - intros _ [= <-]. done.
  - cbn [JS.bounded JS.to_Q]. intros Hm [= <-]. unfold JS.prec in Hm.
    destruct e as [|e|k].
    + cbn [JS.Math_round JS.to_Z]. f_equal. rewrite Z.pow_0_r, Z.mul_1_r.
      unfold Qfloor, Qplus, inject_Z. cbn [Qnum Qden].
      change (Zpos (1 * 2)) with 2. apply Z.div_unique with 1; lia.
    + cbn [JS.Math_round JS.to_Z]. f_equal.
      unfold Qfloor, Qplus, inject_Z. cbn [Qnum Qden].
      change (Zpos (1 * 2)) with 2.
      generalize (cond_Zopp s (Zpos m) * 2 ^ Zpos e). intros n.
      apply Z.div_unique with 1; lia.
    + cbn [JS.Math_round]. cbv zeta.
      set (v := cond_Zopp s (Zpos m)).
      assert (Hv : - 2 ^ 53 < v < 2 ^ 53) by (subst v; destruct s; simpl; lia).
      assert (Hk : 2 ≤ 2 ^ Zpos k).
      { change 2 with (2 ^ 1) at 1. apply Z.pow_le_mono_r; lia. }
      unfold Qfloor, Qplus. cbn [Qnum Qden].
      rewrite Z.shiftr_div_pow2, Z.shiftl_mul_pow2 by lia.
      rewrite Pos2Z.inj_mul, Pos2Z.inj_pow, Z.pow_add_r by lia.
      replace (2 * v + 1 * 2 ^ Zpos k) with (v * 2 + 1 * 2 ^ Zpos k) by lia.
      change (2 ^ 1) with 2. change (Zpos 2) with 2.
      apply to_Z_normalize.
      set (n := (v * 2 + 1 * 2 ^ Zpos k) / (2 ^ Zpos k * 2)).
      assert (Hpos : 0 < 2 ^ Zpos k * 2) by lia.
      pose proof (Z.mul_div_le (v * 2 + 1 * 2 ^ Zpos k) _ Hpos).
      pose proof (Z.mul_succ_div_gt (v * 2 + 1 * 2 ^ Zpos k) _ Hpos).
      fold n in H, H0. nia.
Qed.

Lemma canon_scaled z : 0 < z < 2 ^ 53 →
  Zpos (Z.to_pos (JS.canon_m z)) = z * 2 ^ (- JS.canon_e z) ∧ JS.canon_e z ≤ 0.
Proof.
  intros Hz. pose proof (digits_53 z Hz). rewrite canon_m_to_pos by done.
  unfold JS.canon_m, JS.canon_e, JS.prec. split; [|lia]. do 2 f_equal. lia.
Qed.

Lemma mul_canon sa sb a b :
  0 < a → 0 < b → a * b < 2 ^ 53 →
  JS.mul (JS.canon sa a) (JS.canon sb b) = JS.canon (xorb sa sb) (a * b).
Proof.
  intros Ha Hb Hab.
  assert (Ha' : 0 < a < 2 ^ 53) by nia.
  assert (Hb' : 0 < b < 2 ^ 53) by nia.
  destruct (canon_scaled a Ha') as [Hma Hea].
  destruct (canon_scaled b Hb') as [Hmb Heb].
  unfold JS.mul, JS.canon at 1 2. cbn [SFmul].
  apply binary_round_aux_canon; [nia| |].
  - unfold JS.canon_e, JS.prec. rewrite !Zdigits2_log2 by nia.
    pose proof (Z.log2_mul_below a b ltac:(lia) ltac:(lia)).
    pose proof (digits_53 a Ha'). pose proof (digits_53 b Hb').
    rewrite !Zdigits2_log2 in * by lia. lia.
  - rewrite Pos2Z.inj_mul, Hma, Hmb.
    replace (- (JS.canon_e a + JS.canon_e b)) with (- JS.canon_e a + - JS.canon_e b) by lia.
    rewrite Z.pow_add_r by lia. lia.
Qed.

Lemma shl_align_scaled m e e' :
  e' ≤ e → Zpos (shl_align m e e').1 = Zpos m * 2 ^ (e - e').
Proof.
  intros He. unfold shl_align. destruct (e' - e) as [|d|d] eqn:Hd; cbn [fst].
  - replace (e - e') with 0 by lia. lia.
  - lia.
  - rewrite pos_iter_xO. do 2 f_equal. lia.
Qed.

Lemma add_canon a b :
  0 < a → 0 < b → a + b < 2 ^ 53 →
  JS.add (JS.canon false a) (JS.canon false b) = JS.canon false (a + b).
Proof.
  intros Ha Hb Hab.
  assert (Ha' : 0 < a < 2 ^ 53) by lia.
  assert (Hb' : 0 < b < 2 ^ 53) by lia.
  destruct (canon_scaled a Ha') as [Hma Hea].
  destruct (canon_scaled b Hb') as [Hmb Heb].
  unfold JS.add, JS.canon at 1 2. cbn [SFadd cond_Zopp].
  set (ez := Z.min (JS.canon_e a) (JS.canon_e b)).
  rewrite !shl_align_scaled, Hma, Hmb by lia.
  assert (Hsum : a * 2 ^ (- JS.canon_e a) * 2 ^ (JS.canon_e a - ez)
                 + b * 2 ^ (- JS.canon_e b) * 2 ^ (JS.canon_e b - ez)
                 = (a + b) * 2 ^ (- ez)).
  { rewrite <- !Z.mul_assoc, <- !Z.pow_add_r by lia.
    replace (- JS.canon_e a + (JS.canon_e a - ez)) with (- ez) by lia.
    replace (- JS.canon_e b + (JS.canon_e b - ez)) with (- ez) by lia. lia. }
  rewrite Hsum.
  assert (Hp : 0 < (a + b) * 2 ^ (- ez)).
  { apply Z.mul_pos_pos; [lia|]. apply Z.pow_pos_nonneg; lia. }
  destruct ((a + b) * 2 ^ (- ez)) as [|p|p] eqn:Hv; try lia.
  cbn [binary_normalize]. apply binary_round_canon; [lia|lia|done].
Qed.

Lemma lit_0 : JS.lit 0 = S754_zero false.
Proof. reflexivity. Qed.


Lemma mul_lit a b :
  0 ≤ a < 2 ^ 53 → 0 ≤ b < 2 ^ 53 → a * b < 2 ^ 53 →
  JS.mul (JS.lit a) (JS.lit b) = JS.lit (a * b).
Proof.
  intros Ha Hb Hab.
  destruct (Z.eq_dec a 0) as [->|Ha0], (Z.eq_dec b 0) as [->|Hb0].
  - done.
  - by rewrite Z.mul_0_l, lit_0, lit_pos by lia.
  - by rewrite Z.mul_0_r, lit_0, lit_pos by lia.
  - rewrite !lit_pos by nia. apply mul_canon; lia.
Qed.

Lemma add_lit a b :
  0 ≤ a → 0 ≤ b → a + b < 2 ^ 53 →
  JS.add (JS.lit a) (JS.lit b) = JS.lit (a + b).
Proof.
  intros Ha Hb Hab.
  destruct (Z.eq_dec a 0) as [->|Ha0], (Z.eq_dec b 0) as [->|Hb0].
  - done.
  - by rewrite Z.add_0_l, lit_0, lit_pos by lia.
  - by rewrite Z.add_0_r, lit_0, lit_pos by lia.
  - rewrite !lit_pos by lia. apply add_canon; lia.
Qed.

Lemma ltb_canon a b :
  0 < a < 2 ^ 53 → 0 < b < 2 ^ 53 →
  SFltb (JS.canon false a) (JS.canon false b) = (a <? b).
Proof.
  intros Ha Hb.
  pose proof (Zdigits2_bounds a ltac:(lia)) as [Halo Hahi].
  pose proof (Zdigits2_bounds b ltac:(lia)) as [Hblo Hbhi].
  pose proof (digits_53 a Ha). pose proof (digits_53 b Hb).
  unfold SFltb, JS.canon. cbn [SFcompare].
  unfold JS.canon_e, JS.prec.
  destruct (Z.compare_spec (Zdigits2 a - 53) (Zdigits2 b - 53)) as [He|He|He].
  - change (Pos.compare_cont Eq ?x ?y) with (Z.compare (Zpos x) (Zpos y)).
    rewrite !canon_m_to_pos by done. unfold JS.canon_m, JS.prec.
    replace (Zdigits2 b) with (Zdigits2 a) by lia.
    assert (0 < 2 ^ (53 - Zdigits2 a)) by (apply Z.pow_pos_nonneg; lia).
    destruct (Z.compare_spec (a * 2 ^ (53 - Zdigits2 a)) (b * 2 ^ (53 - Zdigits2 a)));
      destruct (Z.ltb_spec a b); try done; nia.
  - assert (2 ^ Zdigits2 a ≤ 2 ^ (Zdigits2 b - 1)) by (apply Z.pow_le_mono_r; lia).
    destruct (Z.ltb_spec a b); [done|lia].
  - assert (2 ^ Zdigits2 b ≤ 2 ^ (Zdigits2 a - 1)) by (apply Z.pow_le_mono_r; lia).
    destruct (Z.ltb_spec a b); [lia|done].
Qed.

(** On integers, [>] is the order of the integers. *)
Lemma gt_lit a b :
  0 ≤ a < 2 ^ 53 → 0 ≤ b < 2 ^ 53 →
  JS.gt (JS.lit a) (JS.lit b) = (b <? a).
Proof.
  intros Ha Hb. unfold JS.gt.
  destruct (Z.eq_dec a 0) as [->|Ha0], (Z.eq_dec b 0) as [->|Hb0].
  - done.
  - rewrite lit_0, lit_pos by lia. cbn. by destruct (Z.ltb_spec b 0); [lia|].
  - rewrite lit_0, lit_pos by lia. cbn. by destruct (Z.ltb_spec 0 a); [|lia].
  - rewrite !lit_pos by lia. apply ltb_canon; lia.
Qed.

End Binary64.

(** ** The pricing calculator *)

Module PricingFacts.
Import PricingSpec.

#[local] Open Scope Z_scope.

(** The literal [0.09] denotes the binary64 number nearest to 9/100:
    they differ by less than half a unit in the last place, 2^-57. *)
Lemma lit_0_09_nearest :
  ∃ q, JS.to_Q JS.lit_0_09 = Some q
       ∧ (Qabs (q - (9 # 100)) < 1 # (2 ^ 57))%Q.
Proof. eexists. split; [reflexivity|]. by vm_compute. Qed.

(** [Math.round] on halves: 2.5 gives 3, -2.5 gives -2, -0.5 gives -0 and
    0.25 gives +0. *)
Example Math_round_halves :
  JS.Math_round (S754_finite false 5 (-1)) = JS.lit 3
  ∧ JS.Math_round (S754_finite true 5 (-1)) = JS.lit (-2)
  ∧ JS.Math_round (S754_finite true 1 (-1)) = S754_zero true
  ∧ JS.Math_round (S754_finite false 1 (-2)) = S754_zero false.
Proof. by vm_compute. Qed.

(** 100000 * 0.09 is exactly 9000 in binary64, and 50 * 0.09 is 4.5. *)
Example products_by_0_09 :
  (JS.lit 100000 * JS.lit_0_09)%js = JS.lit 9000
  ∧ (JS.lit 50 * JS.lit_0_09)%js = S754_finite false 5066549580791808 (-50).
Proof. by vm_compute. Qed.

Lemma mul_bounded (x y : JS.number) : JS.bounded (x * y)%js.
Proof.
  destruct (x * y)%js as [s|s| |s m e] eqn:Hxy; try done.
  simpl. by eapply Binary64.SFmul_bound.
Qed.

Section PricingFacts.
Context {Item : Type} (price quantity : Item → JS.number).

Lemma sigma_ext n f g :
  (∀ i, (i < n)%nat → f i = g i) → sigma n f = sigma n g.
Proof.
  induction n as [|n IH]; intros Hfg; simpl; [done|].
  rewrite (Hfg n) by lia. rewrite IH; [done|].
  intros i Hi. apply Hfg. lia.
Qed.

Lemma subtotal_snoc cartItems item :
  Pricing.subtotal price quantity (cartItems ++ [item])
  = (Pricing.subtotal price quantity cartItems + price item * quantity item)%js.
Proof. unfold Pricing.subtotal. by rewrite fold_left_app. Qed.

Lemma subtotal_is_sum cartItems :
  Pricing.subtotal price quantity cartItems
  = sum_price_quantity price quantity cartItems.
Proof.
  induction cartItems as [|item cartItems IH] using rev_ind; [done|].
  rewrite subtotal_snoc, IH. unfold sum_price_quantity.
  rewrite length_app, Nat.add_1_r. simpl. f_equal.
  - apply sigma_ext. intros i Hi. unfold line_amount.
    by rewrite lookup_app_l.
  - unfold line_amount. by rewrite list_lookup_middle.
Qed.

Lemma total_is_sum cartItems :
  Pricing.total price quantity cartItems
  = (Pricing.subtotal price quantity cartItems
     + Pricing.shipping price quantity cartItems
     + Pricing.tax price quantity cartItems)%js.
Proof. reflexivity. Qed.

Lemma scenario_amounts cartItems :
  scenario price quantity cartItems →
  Pricing.subtotal price quantity cartItems = JS.lit 650000
  ∧ Pricing.shipping price quantity cartItems = JS.lit 50000
  ∧ Pricing.tax price quantity cartItems = JS.lit 58500
  ∧ Pricing.total price quantity cartItems = JS.lit 758500.
Proof.
  intros [Hp Hq].
  destruct cartItems as [|a [|b [|c l]]]; try discriminate.
  injection Hp as Hpa Hpb. injection Hq as Hqa Hqb.
  assert (Hsub : Pricing.subtotal price quantity [a; b] = JS.lit 650000).
  { unfold Pricing.subtotal. simpl. rewrite Hpa, Hpb, Hqa, Hqb.
    by vm_compute. }
  unfold Pricing.total, Pricing.tax, Pricing.shipping. rewrite Hsub.
  by vm_compute.
Qed.

(** Shipping is decided by the strict comparison of the subtotal with
    1,000,000. *)
Lemma shipping_cases cartItems :
  (Pricing.shipping price quantity cartItems = JS.lit 0
     ↔ (Pricing.subtotal price quantity cartItems > JS.lit 1000000)%js = true)
  ∧ (Pricing.shipping price quantity cartItems = JS.lit 50000
     ↔ (Pricing.subtotal price quantity cartItems > JS.lit 1000000)%js = false).
Proof.
  unfold Pricing.shipping.
  destruct (Pricing.subtotal price quantity cartItems > JS.lit 1000000)%js;
    split; split; (done || by vm_compute).
Qed.

Lemma shipping_at cartItems (z : Z) :
  Pricing.subtotal price quantity cartItems = JS.lit z →
  Pricing.shipping price quantity cartItems
  = if (JS.lit z > JS.lit 1000000)%js then JS.lit 0 else JS.lit 50000.
Proof. unfold Pricing.shipping. by intros ->. Qed.

Lemma empty_amounts :
  Pricing.subtotal price quantity [] = JS.lit 0
  ∧ Pricing.shipping price quantity [] = JS.lit 50000
  ∧ Pricing.tax price quantity [] = JS.lit 0
  ∧ Pricing.total price quantity [] = JS.lit 50000.
Proof. by vm_compute. Qed.

(** The tax is the product [subtotal * 0.09], as rounded by the binary64
    multiplication, rounded to the nearest integer with ties towards
    positive infinity. *)
Lemma tax_rounds cartItems q :
  JS.to_Q (Pricing.subtotal price quantity cartItems * JS.lit_0_09)%js = Some q →
  JS.to_Z (Pricing.tax price quantity cartItems)
  = Some (Qfloor (q + (1 # 2))%Q).
Proof. apply Binary64.Math_round_spec, mul_bounded. Qed.

Lemma tax_at cartItems (z : Z) :
  Pricing.subtotal price quantity cartItems = JS.lit z →
  Pricing.tax price quantity cartItems
  = JS.Math_round (JS.lit z * JS.lit_0_09)%js.
Proof. unfold Pricing.tax. by intros ->. Qed.

(** On integer amounts the subtotal is computed without rounding. *)
Lemma integer_sum_nonneg cartItems amounts :
  integer_amounts price quantity cartItems amounts → 0 ≤ integer_sum amounts.
Proof.
  induction 1 as [|item [p q] items amounts (_ & _ & Hp & Hq) _ IH];
    simpl in *; [done|nia].
Qed.

Lemma fold_exact cartItems amounts acc :
  integer_amounts price quantity cartItems amounts →
  0 ≤ acc → acc + integer_sum amounts < 2 ^ 53 →
  fold_left (λ sum item, sum + price item * quantity item)%js
            cartItems (JS.lit acc)
  = JS.lit (acc + integer_sum amounts).
Proof.
  intros Hall. revert acc.
  induction Hall as [|item [p q] items amounts (Hpi & Hqi & Hp & Hq) Hrest IH];
    intros acc Hacc Hsum; simpl in *.
  - by rewrite Z.add_0_r.
  - pose proof (integer_sum_nonneg _ _ Hrest).
    rewrite Hpi, Hqi, Binary64.mul_lit, Binary64.add_lit by nia.
    rewrite IH by nia. f_equal. lia.
Qed.

Lemma subtotal_exact cartItems amounts :
  integer_amounts price quantity cartItems amounts →
  integer_sum amounts < 2 ^ 53 →
  Pricing.subtotal price quantity cartItems = JS.lit (integer_sum amounts).
Proof.
  intros Hall Hsum. unfold Pricing.subtotal.
  by rewrite (fold_exact _ amounts 0).
Qed.

End PricingFacts.
End PricingFacts.

(** ** Running handlers *)

Ltac eff_run :=
  cbv beta iota zeta delta
    [async try_catch try_finally bind ret return_ throw read write emit fetch
     json call console_warn console_error navigate localStorage_getItem
     localStorage_removeItem st localStorage trace ok body fst snd negb
     request_ok member
     CartPage.setCartItems CartPage.setLoading CartPage.setError
     CartPage.setCartId CartPage.cartItems CartPage.loading CartPage.error
     CartPage.cartId CartPage.Api.success CartPage.Api.data
     CheckoutPage.Api.success CheckoutPage.Api.data CheckoutPage.Api.message
     CheckoutPage.setSubmitting CheckoutPage.setError CheckoutPage.cartItems
     CheckoutPage.cartId CheckoutPage.addresses CheckoutPage.loading
     CheckoutPage.submitting CheckoutPage.error CheckoutPage.selectedAddressId
     CheckoutPage.paymentMethod CheckoutPage.notes].

Ltac trace_norm := rewrite <- ?(assoc_L (++)), ?app_nil_r.

Module EffFacts.

(** Mapping a list with a callback that only reads its argument: all the
    elements are mapped, or the loop throws; the state is untouched. *)
Lemma array_map_run {St A C} (f : A → M St C) (g : A → option C)
    (l : list A) (σ : Sigma St) :
  (∀ x σ', f x σ' = match g x with
                    | Some y => (Normal y, σ')
                    | None => (Thrown TypeError, σ')
                    end) →
  array_map f l σ = match mapM g l with
                    | Some k => (Normal k, σ)
                    | None => (Thrown TypeError, σ)
                    end.
Proof.
  intros Hf. induction l as [|x l IH]; [done|].
  cbn [array_map mapM]. unfold bind at 1. rewrite Hf.
  destruct (g x) as [y|]; [|done]. simpl.
  unfold bind at 1. rewrite IH. by destruct (mapM g l).
Qed.

End EffFacts.

Module CartPageFacts.
Import CartPage CartPageSpec.

Lemma map_item_run (item : Api.ApiCartItem) (σ : Sigma State) :
  map_item item σ = match line item with
                    | Some y => (Normal y, σ)
                    | None => (Thrown TypeError, σ)
                    end.
Proof. unfold map_item, line. by destruct (Api.product item). Qed.

(** The lines of a cart, item by item. *)
Lemma lines_lookup (apiCart : Api.ApiCart) (l : list CartItem) :
  lines apiCart = Some l →
  ∃ items,
    Api.items apiCart = Some items
    ∧ length l = length items
    ∧ ∀ (i : nat) (item : Api.ApiCartItem),
        items !! i = Some item →
        ∃ product,
          Api.product item = Some product
          ∧ l !! i = Some (of_api item product).
Proof.
  unfold lines. destruct (Api.items apiCart) as [items|]; [|done]. simpl.
  intros Hl. apply mapM_Some in Hl. exists items. split; [done|].
  split; [symmetry; by eapply Forall2_length|].
  intros i item Hi.
  destruct (Forall2_lookup_l _ _ _ _ _ Hl Hi) as (y & Hy & Hline).
  unfold line in Hline. destruct (Api.product item) as [product|]; [|done].
  injection Hline as <-. by exists product.
Qed.


Lemma classify_Loaded net apiCart :
  classify net = Loaded apiCart → ∃ l, lines apiCart = Some l.
Proof.
  unfold classify.
  destruct net as [|[[] [[[] [cart|]]|]]]; cbn [ok body Api.success Api.data];
    try done.
  destruct (lines cart) as [l|] eqn:Hl; [|done]. intros [= <-]. eauto.
Qed.


Section Runs.
Variable API_BASE_URL : string.
Context {B : Type}.

Lemma removeItem_run (net : FetchOutcome B) itemId s ls tr :
  removeItem API_BASE_URL net itemId (mkSigma s ls tr)
  = (Fulfilled,
     mkSigma
       (mkState (without itemId (cartItems s)) (loading s)
                (if request_ok net then error s
                 else Some "خطا در حذف محصول")
                (cartId s))
       ls
       (tr ++ [EFetch (API_BASE_URL +:+ "/cart/items/" +:+ itemId) "DELETE"
                      (base_headers (ls !! "token")) None]
           ++ (if request_ok net then []
               else [EConsoleError "Error removing item:"]))).
Proof.
  unfold removeItem, without. destruct s as [items ld err cid].
  destruct net as [|[[] b]]; eff_run; by trace_norm.
Qed.

Lemma updateQuantity_run (net : FetchOutcome B) itemId newQuantity s ls tr :
  (newQuantity <= JS.lit 0)%js = false →
  updateQuantity API_BASE_URL net itemId newQuantity (mkSigma s ls tr)
  = (Fulfilled,
     mkSigma
       (mkState (set_quantity itemId newQuantity (cartItems s)) (loading s)
                (if request_ok net then error s
                 else Some "خطا در به‌روزرسانی تعداد")
                (cartId s))
       ls
       (tr ++ [EFetch (API_BASE_URL +:+ "/cart/items/" +:+ itemId) "PUT"
                      (base_headers (ls !! "token"))
                      (Some (JObject [("quantity", JNumber newQuantity)]))]
           ++ (if request_ok net then []
               else [EConsoleError "Error updating quantity:"]))).
Proof.
  intros Hq. unfold updateQuantity, set_quantity. rewrite Hq.
  destruct s as [items ld err cid].
  destruct net as [|[[] b]]; eff_run; by trace_norm.
Qed.

Lemma updateQuantity_delegates (net : FetchOutcome B) itemId newQuantity σ :
  (newQuantity <= JS.lit 0)%js = true →
  updateQuantity API_BASE_URL net itemId newQuantity σ
  = removeItem API_BASE_URL net itemId σ.
Proof.
  intros Hq. unfold updateQuantity. rewrite Hq.
  destruct σ as [s ls tr]. eff_run.
  by rewrite removeItem_run.
Qed.
End Runs.

Lemma fetchCart_run API_BASE_URL (net : FetchOutcome Api.Envelope) s ls tr :
  fetchCart API_BASE_URL net (mkSigma s ls tr)
  = (Fulfilled,
     mkSigma
       (match classify net with
        | Loaded apiCart =>
            mkState (default [] (lines apiCart)) false None
                    (Some (Api.cart_id apiCart))
        | Malformed apiCart =>
            mkState mockCartItems false
                    (Some "خطا در بارگذاری سبد خرید")
                    (Some (Api.cart_id apiCart))
        | Unsuccessful => mkState mockCartItems false None (cartId s)
        | Failed =>
            mkState mockCartItems false
                    (Some "خطا در بارگذاری سبد خرید") (cartId s)
        end)
       ls
       (tr ++ [EFetch (cart_url API_BASE_URL (ls !! "guestToken")) "GET"
                      (base_headers (ls !! "token")) None]
           ++ match classify net with
              | Loaded _ => []
              | Unsuccessful => [EConsoleWarn "Using mock cart data"]
              | Malformed _ | Failed => [EConsoleError "Error fetching cart:"]
              end)).
Proof.
  unfold fetchCart, classify, lines, cart_url. destruct s as [items ld err cid].
  destruct net as [|[[] [[[] [[cart_id [apiItems|]]|]]|]]];
    eff_run; cbn [Api.items Api.cart_id mbind option_bind]; eff_run;
    try (by trace_norm).
  rewrite (EffFacts.array_map_run _ line) by apply map_item_run.
  destruct (mapM line apiItems) as [l|] eqn:Hl; eff_run;
    cbn [Api.items Api.cart_id mbind option_bind]; rewrite ?Hl;
    by trace_norm.
Qed.

(** A strictly positive number is not [<= 0]. *)
Lemma positive_not_le_0 (q : JS.number) :
  (q > JS.lit 0)%js = true → (q <= JS.lit 0)%js = false.
Proof. by destruct q as [[]|[]| |[] m e]. Qed.

(** The local update of [updateQuantity], item by item. *)
Lemma set_quantity_lookup itemId q (cartItems : list CartItem) (i : nat) :
  set_quantity itemId q cartItems !! i
  = (λ item, if decide (id item = itemId) then with_quantity item q else item)
      <$> cartItems !! i.
Proof. unfold set_quantity. apply list_lookup_fmap. Qed.

Lemma set_quantity_absent itemId q (cartItems : list CartItem) :
  (∀ item, item ∈ cartItems → id item ≠ itemId) →
  set_quantity itemId q cartItems = cartItems.
Proof.
  unfold set_quantity. induction cartItems as [|item l IH]; intros Hne; [done|].
  simpl. rewrite decide_False by (apply Hne; left).
  f_equal. apply IH. intros x Hx. apply Hne. by right.
Qed.

End CartPageFacts.

Module CheckoutPageFacts.
Import CheckoutPage CheckoutPageSpec.

Lemma handlePlaceOrder_no_cart net s ls tr :
  has_cart s = false →
  handlePlaceOrder net (mkSigma s ls tr)
  = (Fulfilled,
     mkSigma (with_error s (submitting s) (Some "سبد خرید یافت نشد")) ls tr).
Proof.
  unfold has_cart, handlePlaceOrder, with_error.
  destruct s as [items cid addrs ld sub err sel pm nt]. eff_run.
  by intros ->.
Qed.

Lemma handlePlaceOrder_no_address net s ls tr :
  has_cart s = true → address_missing s = true →
  handlePlaceOrder net (mkSigma s ls tr)
  = (Fulfilled,
     mkSigma (with_error s (submitting s)
                         (Some "لطفا آدرس تحویل را انتخاب کنید")) ls tr).
Proof.
  unfold has_cart, address_missing, handlePlaceOrder, with_error.
  destruct s as [items cid addrs ld sub err sel pm nt]. eff_run.
  by intros -> ->.
Qed.

Lemma handlePlaceOrder_no_token net s ls tr :
  has_cart s = true → address_missing s = false →
  truthy (ls !! "token") = false →
  handlePlaceOrder net (mkSigma s ls tr)
  = (Fulfilled,
     mkSigma (with_error s false (Some "لطفا ابتدا وارد حساب کاربری شوید"))
             ls (tr ++ [ENavigate "/login" None])).
Proof.
  unfold has_cart, address_missing, handlePlaceOrder, with_error.
  destruct s as [items cid addrs ld sub err sel pm nt]. eff_run.
  by intros -> -> ->.
Qed.

Lemma handlePlaceOrder_success s ls tr order msg :
  has_cart s = true → address_missing s = false →
  truthy (ls !! "token") = true →
  handlePlaceOrder
    (Responded (mkResponse true (Some (Api.mkEnvelope true (Some order) msg))))
    (mkSigma s ls tr)
  = (Fulfilled,
     mkSigma (with_error s false None)
             (delete "guestToken" ls)
             (tr ++ [order_request s ls;
                     ENavigate "/order-success"
                       (Some (JObject [("orderId", JString (Api.id order))]))])).
Proof.
  unfold has_cart, address_missing, handlePlaceOrder, with_error,
    order_request, order_headers.
  destruct s as [items cid addrs ld sub err sel pm nt]. eff_run.
  intros -> -> ->. by trace_norm.
Qed.

Lemma length_append (s t : string) :
  String.length (s +:+ t) = (String.length s + String.length t)%nat.
Proof. induction s as [|a s IH]; simpl; [done|]. by rewrite IH. Qed.

Lemma append_cancel_r (s1 s2 t : string) : s1 +:+ t = s2 +:+ t → s1 = s2.
Proof.
  revert s2. induction s1 as [|a s1 IH]; intros [|b s2] Heq; simpl in *.
  - done.
  - apply (f_equal String.length) in Heq.
    rewrite ?length_append in Heq. simpl in Heq.
    rewrite ?length_append in Heq. lia.
  - apply (f_equal String.length) in Heq.
    rewrite ?length_append in Heq. simpl in Heq.
    rewrite ?length_append in Heq. lia.
  - injection Heq as -> Heq. f_equal. by apply IH.
Qed.

(** The URL requested by [handlePlaceOrder] is [base/orders] only for
    the base that is the text of the placeholder itself. *)
Lemma literal_url_base (base : string) :
  "${API_BASE_URL}/orders" = base +:+ "/orders" → base = "${API_BASE_URL}".
Proof.
  intros Heq. symmetry. apply (append_cancel_r _ _ "/orders"). exact Heq.
Qed.

(** Whatever the network answers, a submission that passes the checks
    issues exactly the request [order_request]. *)
Lemma handlePlaceOrder_request net s ls tr :
  has_cart s = true → address_missing s = false →
  truthy (ls !! "token") = true →
  requests_since tr (handlePlaceOrder net (mkSigma s ls tr)).2
  = [order_request s ls].
Proof.
  unfold has_cart, address_missing, handlePlaceOrder, order_request,
    order_headers, requests_since.
  destruct s as [items cid addrs ld sub err sel pm nt]. eff_run.
  intros -> -> ->.
  destruct net as [|[[] [[[] [order|] msg]|]]]; eff_run;
    trace_norm; rewrite drop_app_length; done.
Qed.

End CheckoutPageFacts.

(** ** The claims of the specification *)

Import PricingSpec CartPageSpec CheckoutPageSpec.

#[local] Open Scope Z_scope.

(** C1.  For every list of cart items, on both pages, the subtotal is the
    sum over the items of price times quantity (the terms added in list
    order, in the arithmetic of JavaScript numbers; on non-negative integer
    amounts whose sum stays below 2^53 this is the exact integer sum), and
    the total is subtotal plus shipping plus tax.  For the cart
    [{price: 250000, qty: 2}, {price: 150000, qty: 1}] the subtotal is
    650000, the shipping 50000, the tax 58500 and the total 758500. *)
Theorem pricing_subtotal_and_total :
  (∀ cartItems : list CartPage.CartItem,
     CartPage.subtotal cartItems
     = sum_price_quantity CartPage.price CartPage.quantity cartItems
     ∧ (∀ amounts,
          integer_amounts CartPage.price CartPage.quantity cartItems amounts →
          integer_sum amounts < 2 ^ 53 →
          CartPage.subtotal cartItems = JS.lit (integer_sum amounts))
     ∧ CartPage.total cartItems
       = (CartPage.subtotal cartItems + CartPage.shipping cartItems
          + CartPage.tax cartItems)%js
     ∧ (scenario CartPage.price CartPage.quantity cartItems →
        CartPage.subtotal cartItems = JS.lit 650000
        ∧ CartPage.shipping cartItems = JS.lit 50000
        ∧ CartPage.tax cartItems = JS.lit 58500
        ∧ CartPage.total cartItems = JS.lit 758500))
  ∧ (∀ cartItems : list CheckoutPage.CartItem,
       CheckoutPage.subtotal cartItems
       = sum_price_quantity CheckoutPage.price CheckoutPage.quantity cartItems
       ∧ (∀ amounts,
            integer_amounts CheckoutPage.price CheckoutPage.quantity
                            cartItems amounts →
            integer_sum amounts < 2 ^ 53 →
            CheckoutPage.subtotal cartItems = JS.lit (integer_sum amounts))
       ∧ CheckoutPage.total cartItems
         = (CheckoutPage.subtotal cartItems + CheckoutPage.shipping cartItems
            + CheckoutPage.tax cartItems)%js
       ∧ (scenario CheckoutPage.price CheckoutPage.quantity cartItems →
          CheckoutPage.subtotal cartItems = JS.lit 650000
          ∧ CheckoutPage.shipping cartItems = JS.lit 50000
          ∧ CheckoutPage.tax cartItems = JS.lit 58500
          ∧ CheckoutPage.total cartItems = JS.lit 758500)).
Proof.
  split; intros cartItems; repeat split;
    first [ apply PricingFacts.subtotal_is_sum
          | apply PricingFacts.subtotal_exact
          | apply PricingFacts.scenario_amounts; assumption ].
Qed.

Lemma pricing_subtotal_and_total_witness :
  CartPage.subtotal CartPage.mockCartItems = JS.lit (250000 * 2 + (150000 * 1 + 0))
  ∧ CartPage.subtotal CartPage.mockCartItems = JS.lit 650000
  ∧ CartPage.shipping CartPage.mockCartItems = JS.lit 50000
  ∧ CartPage.tax CartPage.mockCartItems = JS.lit 58500
  ∧ CartPage.total CartPage.mockCartItems = JS.lit 758500.
Proof.
  destruct pricing_subtotal_and_total as [H _].
  destruct (H CartPage.mockCartItems) as (_ & Hexact & _ & Hscenario).
  split.
  - apply (Hexact [(250000, 2); (150000, 1)]).
    + repeat constructor; simpl; lia.
    + simpl. lia.
  - apply Hscenario. split; reflexivity.
Defined.

(** C2.  For every item list, on both pages, the shipping fee is 0 exactly
    when the subtotal strictly exceeds 1,000,000 and 50,000 otherwise; for
    an integer subtotal [z] this is the comparison [1000000 < z] of
    integers.  A subtotal of 1,000,000 gives shipping 50,000 and a subtotal
    of 1,000,001 gives shipping 0. *)
Theorem shipping_threshold :
  (∀ cartItems : list CartPage.CartItem,
     (CartPage.shipping cartItems = JS.lit 0
      ↔ (CartPage.subtotal cartItems > JS.lit 1000000)%js = true)
     ∧ (CartPage.shipping cartItems = JS.lit 50000
        ↔ (CartPage.subtotal cartItems > JS.lit 1000000)%js = false)
     ∧ (∀ z, 0 ≤ z < 2 ^ 53 → CartPage.subtotal cartItems = JS.lit z →
             CartPage.shipping cartItems
             = if 1000000 <? z then JS.lit 0 else JS.lit 50000)
     ∧ (CartPage.subtotal cartItems = JS.lit 1000000 →
        CartPage.shipping cartItems = JS.lit 50000)
     ∧ (CartPage.subtotal cartItems = JS.lit 1000001 →
        CartPage.shipping cartItems = JS.lit 0))
  ∧ (∀ cartItems : list CheckoutPage.CartItem,
       (CheckoutPage.shipping cartItems = JS.lit 0
        ↔ (CheckoutPage.subtotal cartItems > JS.lit 1000000)%js = true)
       ∧ (CheckoutPage.shipping cartItems = JS.lit 50000
          ↔ (CheckoutPage.subtotal cartItems > JS.lit 1000000)%js = false)
       ∧ (∀ z, 0 ≤ z < 2 ^ 53 → CheckoutPage.subtotal cartItems = JS.lit z →
               CheckoutPage.shipping cartItems
               = if 1000000 <? z then JS.lit 0 else JS.lit 50000)
       ∧ (CheckoutPage.subtotal cartItems = JS.lit 1000000 →
          CheckoutPage.shipping cartItems = JS.lit 50000)
       ∧ (CheckoutPage.subtotal cartItems = JS.lit 1000001 →
          CheckoutPage.shipping cartItems = JS.lit 0)).
Proof.
  split; intros cartItems.
  - pose proof (PricingFacts.shipping_cases CartPage.price CartPage.quantity
                  cartItems) as [H0 H1].
    split; [exact H0|]. split; [exact H1|]. split; [|split].
    + intros z Hz Hsub. unfold CartPage.shipping.
      rewrite (PricingFacts.shipping_at _ _ _ z Hsub).
      by rewrite Binary64.gt_lit by lia.
    + intros Hsub. unfold CartPage.shipping.
      by rewrite (PricingFacts.shipping_at _ _ _ _ Hsub).
    + intros Hsub. unfold CartPage.shipping.
      by rewrite (PricingFacts.shipping_at _ _ _ _ Hsub).
  - pose proof (PricingFacts.shipping_cases CheckoutPage.price
                  CheckoutPage.quantity cartItems) as [H0 H1].
    split; [exact H0|]. split; [exact H1|]. split; [|split].
    + intros z Hz Hsub. unfold CheckoutPage.shipping.
      rewrite (PricingFacts.shipping_at _ _ _ z Hsub).
      by rewrite Binary64.gt_lit by lia.
    + intros Hsub. unfold CheckoutPage.shipping.
      by rewrite (PricingFacts.shipping_at _ _ _ _ Hsub).
    + intros Hsub. unfold CheckoutPage.shipping.
      by rewrite (PricingFacts.shipping_at _ _ _ _ Hsub).
Qed.

Lemma shipping_threshold_witness :
  CheckoutPage.shipping
    [CheckoutPage.mkCartItem "1" "1" "a" (JS.lit 1000000) (JS.lit 1)]
  = JS.lit 50000
  ∧ CheckoutPage.shipping
      [CheckoutPage.mkCartItem "1" "1" "a" (JS.lit 1000001) (JS.lit 1)]
    = JS.lit 0
  ∧ CheckoutPage.shipping
      [CheckoutPage.mkCartItem "1" "1" "a" (JS.lit 500000) (JS.lit 3)]
    = JS.lit 0.
Proof.
  destruct shipping_threshold as [_ H]. split; [|split].
  - destruct (H [CheckoutPage.mkCartItem "1" "1" "a" (JS.lit 1000000) (JS.lit 1)])
      as (_ & _ & _ & Heq & _).
    apply Heq. reflexivity.
  - destruct (H [CheckoutPage.mkCartItem "1" "1" "a" (JS.lit 1000001) (JS.lit 1)])
      as (_ & _ & _ & _ & Hgt).
    apply Hgt. reflexivity.
  - destruct (H [CheckoutPage.mkCartItem "1" "1" "a" (JS.lit 500000) (JS.lit 3)])
      as (_ & _ & Hz & _).
    apply (Hz 1500000); [lia|reflexivity].
Defined.

(** C3 (as amended).  For the empty item list, on both pages, the subtotal
    is 0 and the tax is 0, while the shipping is the flat fee 50,000 and
    the total is 50,000: zero does not exceed the free-shipping
    threshold.  With an empty cart, whatever the other state variables
    are, both pages render the loading view while loading and the
    empty-cart view afterwards, never the view that shows the amounts. *)
Theorem empty_cart_amounts :
  (CartPage.subtotal [] = JS.lit 0
   ∧ CartPage.shipping [] = JS.lit 50000
   ∧ CartPage.tax [] = JS.lit 0
   ∧ CartPage.total [] = JS.lit 50000)
  ∧ (CheckoutPage.subtotal [] = JS.lit 0
     ∧ CheckoutPage.shipping [] = JS.lit 50000
     ∧ CheckoutPage.tax [] = JS.lit 0
     ∧ CheckoutPage.total [] = JS.lit 50000)
  ∧ (CartPage.subtotal [] > JS.lit 1000000)%js = false
  ∧ (CheckoutPage.subtotal [] > JS.lit 1000000)%js = false
  ∧ (∀ (loading : bool) (error cartId : option string),
       CartPage.render (CartPage.mkState [] loading error cartId)
       = if loading then CartPage.LoadingView else CartPage.EmptyCartView)
  ∧ (∀ (cartId : option string) (addresses : list CheckoutPage.Address)
       (loading submitting : bool) (error : option string)
       (selectedAddressId : string) (paymentMethod : CheckoutPage.PaymentMethod)
       (notes : string),
       CheckoutPage.render
         (CheckoutPage.mkState [] cartId addresses loading submitting error
            selectedAddressId paymentMethod notes)
       = if loading then CheckoutPage.LoadingView
         else CheckoutPage.EmptyCartView).
Proof.
  split; [apply PricingFacts.empty_amounts|].
  split; [apply PricingFacts.empty_amounts|].
  split; [reflexivity|]. split; [reflexivity|].
  split.
  - intros loading error cartId. by destruct loading.
  - intros cartId addresses loading submitting error selectedAddressId
      paymentMethod notes.
    by destruct loading.
Qed.

(** C3 as stated fails: the empty cart does not yield all-zero amounts. *)
Lemma empty_cart_not_all_zero :
  ¬ (CartPage.subtotal [] = JS.lit 0
     ∧ CartPage.shipping [] = JS.lit 0
     ∧ CartPage.tax [] = JS.lit 0
     ∧ CartPage.total [] = JS.lit 0).
Proof. intros (_ & Hship & _). by vm_compute in Hship. Qed.

(** C4.  For every item list, on both pages, the tax is [Math.round] of
    the binary64 product of the subtotal and the literal 0.09: when that
    product is the finite value [q], the tax is the integer
    [floor (q + 1/2)].  A subtotal of 100,000 yields a tax of 9,000. *)
Theorem tax_rounding :
  (∀ cartItems : list CartPage.CartItem,
     CartPage.tax cartItems
     = JS.Math_round (CartPage.subtotal cartItems * JS.lit_0_09)%js
     ∧ (∀ q, JS.to_Q (CartPage.subtotal cartItems * JS.lit_0_09)%js = Some q →
             JS.to_Z (CartPage.tax cartItems) = Some (Qfloor (q + (1 # 2))%Q))
     ∧ (CartPage.subtotal cartItems = JS.lit 100000 →
        CartPage.tax cartItems = JS.lit 9000))
  ∧ (∀ cartItems : list CheckoutPage.CartItem,
       CheckoutPage.tax cartItems
       = JS.Math_round (CheckoutPage.subtotal cartItems * JS.lit_0_09)%js
       ∧ (∀ q, JS.to_Q (CheckoutPage.subtotal cartItems * JS.lit_0_09)%js = Some q →
               JS.to_Z (CheckoutPage.tax cartItems)
               = Some (Qfloor (q + (1 # 2))%Q))
       ∧ (CheckoutPage.subtotal cartItems = JS.lit 100000 →
          CheckoutPage.tax cartItems = JS.lit 9000)).
Proof.
  split; intros cartItems; (split; [reflexivity|split]).
  - apply PricingFacts.tax_rounds.
  - intros Hsub. unfold CartPage.tax.
    by rewrite (PricingFacts.tax_at _ _ _ _ Hsub).
  - apply PricingFacts.tax_rounds.
  - intros Hsub. unfold CheckoutPage.tax.
    by rewrite (PricingFacts.tax_at _ _ _ _ Hsub).
Qed.

Lemma tax_rounding_witness :
  CheckoutPage.tax
    [CheckoutPage.mkCartItem "1" "1" "a" (JS.lit 100000) (JS.lit 1)]
  = JS.lit 9000
  ∧ JS.to_Z (CheckoutPage.tax
               [CheckoutPage.mkCartItem "1" "1" "a" (JS.lit 50) (JS.lit 1)])
    = Some 5.
Proof.
  destruct tax_rounding as [_ H]. split.
  - destruct (H [CheckoutPage.mkCartItem "1" "1" "a" (JS.lit 100000) (JS.lit 1)])
      as (_ & _ & Hex).
    apply Hex. reflexivity.
  - destruct (H [CheckoutPage.mkCartItem "1" "1" "a" (JS.lit 50) (JS.lit 1)])
      as (_ & Hq & _).
    exact (Hq _ eq_refl).
Defined.

(** C5.  For every cart state, item id and network answer, calling
    [updateQuantity] with a new quantity [<= 0] leaves the page in the same
    state as calling [removeItem] with that id (same state variables, same
    storage, same requests issued, same settlement). *)
Theorem updateQuantity_nonpositive_is_removeItem
    (API_BASE_URL : string) {B : Type} (net : FetchOutcome B)
    (itemId : string) (newQuantity : JS.number) (σ : Sigma CartPage.State) :
  (newQuantity <= JS.lit 0)%js = true →
  CartPage.updateQuantity API_BASE_URL net itemId newQuantity σ
  = CartPage.removeItem API_BASE_URL net itemId σ.
Proof. apply CartPageFacts.updateQuantity_delegates. Qed.

Lemma updateQuantity_nonpositive_is_removeItem_witness :
  CartPage.updateQuantity "/api" (@NetworkError unit) "1" (JS.lit 0)
    (mkSigma (CartPage.mkState CartPage.mockCartItems false None None) ∅ [])
  = CartPage.removeItem "/api" (@NetworkError unit) "1"
      (mkSigma (CartPage.mkState CartPage.mockCartItems false None None) ∅ []).
Proof.
  apply (updateQuantity_nonpositive_is_removeItem "/api" NetworkError "1"
           (JS.lit 0)).
  reflexivity.
Defined.

(** C6 (as amended).  Whenever [fetchCart] does not load the cart, the
    cart items are set to the fixed, non-empty mock cart, loading ends and
    the call settles without an exception.  On a network error, a non-OK
    status or an unreadable body, and on a success envelope whose cart has
    no list of items or an item without product, the error string is
    recorded and, after the request, one console error is written.  On a
    response whose envelope is not a success the error stays cleared, and
    after the request only one console warning is written. *)
Theorem fetchCart_failure_falls_back
    (API_BASE_URL : string) (net : FetchOutcome CartPage.Api.Envelope)
    (σ : Sigma CartPage.State) :
  fetch_failure net →
  (CartPage.fetchCart API_BASE_URL net σ).1 = Fulfilled
  ∧ CartPage.cartItems (st (CartPage.fetchCart API_BASE_URL net σ).2)
    = CartPage.mockCartItems
  ∧ CartPage.mockCartItems ≠ []
  ∧ CartPage.loading (st (CartPage.fetchCart API_BASE_URL net σ).2) = false
  ∧ (((classify net = Failed ∨ ∃ apiCart, classify net = Malformed apiCart)
      ∧ CartPage.error (st (CartPage.fetchCart API_BASE_URL net σ).2)
        = Some "خطا در بارگذاری سبد خرید"
      ∧ new_effects (trace σ) (CartPage.fetchCart API_BASE_URL net σ).2
        = [EFetch (cart_url API_BASE_URL (localStorage σ !! "guestToken")) "GET"
                  (CartPage.base_headers (localStorage σ !! "token")) None;
           EConsoleError "Error fetching cart:"])
     ∨ (classify net = Unsuccessful
        ∧ CartPage.error (st (CartPage.fetchCart API_BASE_URL net σ).2) = None
        ∧ new_effects (trace σ) (CartPage.fetchCart API_BASE_URL net σ).2
          = [EFetch (cart_url API_BASE_URL (localStorage σ !! "guestToken")) "GET"
                    (CartPage.base_headers (localStorage σ !! "token")) None;
             EConsoleWarn "Using mock cart data"])).
Proof.
  intros Hfail. destruct σ as [s ls tr].
  rewrite CartPageFacts.fetchCart_run. unfold fetch_failure in Hfail.
  unfold new_effects. cbn [fst snd st localStorage trace]. rewrite drop_app_length.
  destruct (classify net) as [apiCart|apiCart| |].
  - by destruct (Hfail apiCart).
  - repeat split; try done. left. split; [right; by exists apiCart|done].
  - repeat split; try done. by right.
  - repeat split; try done. left. split; [by left|done].
Qed.

Lemma fetchCart_failure_falls_back_witness :
  CartPage.cartItems (st (CartPage.fetchCart "/api" NetworkError initial).2)
  = CartPage.mockCartItems
  ∧ CartPage.error (st (CartPage.fetchCart "/api" NetworkError initial).2)
    = Some "خطا در بارگذاری سبد خرید"
  ∧ new_effects [] (CartPage.fetchCart "/api" NetworkError initial).2
    = [EFetch "/api/cart" "GET" {[ "Content-Type" := "application/json" ]} None;
       EConsoleError "Error fetching cart:"].
Proof.
  destruct (fetchCart_failure_falls_back "/api" NetworkError initial)
    as (_ & Hitems & _ & _ & [(_ & Herr & Heff) | (Hcase & _)]);
    [intros apiCart; discriminate| |discriminate Hcase].
  split; [exact Hitems|]. split; [exact Herr|exact Heff].
Defined.

(** C6 as stated fails: a response read successfully whose envelope is not
    a success is a failure of [fetchCart], yet no error string is
    recorded. *)
Lemma fetchCart_unsuccessful_envelope_records_no_error :
  fetch_failure
    (Responded (mkResponse true (Some (CartPage.Api.mkEnvelope false None))))
  ∧ CartPage.error
      (st (CartPage.fetchCart "/api"
             (Responded (mkResponse true
                           (Some (CartPage.Api.mkEnvelope false None))))
             initial).2)
    = None.
Proof.
  split; [by intros apiCart|]. unfold initial.
  by rewrite CartPageFacts.fetchCart_run.
Qed.

(** C7.  For every item id and every positive new quantity,
    [updateQuantity] applies the new quantity to the matching items of the
    local cart whether the request succeeds or fails; [removeItem] removes
    the items with that id from the local cart whether the request
    succeeds or fails, and records an error message when it fails. *)
Theorem optimistic_local_updates
    (API_BASE_URL : string) {B : Type} (net : FetchOutcome B)
    (itemId : string) (newQuantity : JS.number)
    (s : CartPage.State) (ls : gmap string string) (tr : list Effect) :
  ((newQuantity > JS.lit 0)%js = true →
   CartPage.cartItems
     (st (CartPage.updateQuantity API_BASE_URL net itemId newQuantity
            (mkSigma s ls tr)).2)
   = set_quantity itemId newQuantity (CartPage.cartItems s)
   ∧ ∀ (i : nat) (item : CartPage.CartItem),
       CartPage.cartItems s !! i = Some item → CartPage.id item = itemId →
       CartPage.quantity
         <$> CartPage.cartItems
               (st (CartPage.updateQuantity API_BASE_URL net itemId newQuantity
                      (mkSigma s ls tr)).2) !! i
       = Some newQuantity)
  ∧ CartPage.cartItems
      (st (CartPage.removeItem API_BASE_URL net itemId (mkSigma s ls tr)).2)
    = without itemId (CartPage.cartItems s)
  ∧ (∀ item,
       item ∈ CartPage.cartItems
                (st (CartPage.removeItem API_BASE_URL net itemId
                       (mkSigma s ls tr)).2)
       ↔ item ∈ CartPage.cartItems s ∧ CartPage.id item ≠ itemId)
  ∧ (request_ok net = false →
     CartPage.error
       (st (CartPage.removeItem API_BASE_URL net itemId (mkSigma s ls tr)).2)
     = Some "خطا در حذف محصول").
Proof.
  rewrite CartPageFacts.removeItem_run. cbn [snd st CartPage.cartItems CartPage.error].
  split; [|split; [done|split]].
  - intros Hq. apply CartPageFacts.positive_not_le_0 in Hq.
    rewrite CartPageFacts.updateQuantity_run by done.
    cbn [snd st CartPage.cartItems]. split; [done|].
    intros i item Hi Hid.
    rewrite CartPageFacts.set_quantity_lookup, Hi. simpl.
    by rewrite decide_True.
  - intros item. unfold without. by rewrite list_elem_of_filter, (comm and).
  - by intros ->.
Qed.

Lemma optimistic_local_updates_witness :
  CartPage.cartItems
    (st (CartPage.updateQuantity "/api" (@NetworkError unit) "1" (JS.lit 5)
           (mkSigma (CartPage.mkState CartPage.mockCartItems false None None)
                    ∅ [])).2)
  = set_quantity "1" (JS.lit 5) CartPage.mockCartItems
  ∧ CartPage.error
      (st (CartPage.removeItem "/api" (@NetworkError unit) "1"
             (mkSigma (CartPage.mkState CartPage.mockCartItems false None None)
                      ∅ [])).2)
    = Some "خطا در حذف محصول".
Proof.
  destruct (optimistic_local_updates "/api" (@NetworkError unit) "1" (JS.lit 5)
              (CartPage.mkState CartPage.mockCartItems false None None) ∅ [])
    as (Hupd & _ & _ & Herr).
  split; [apply Hupd|apply Herr]; reflexivity.
Defined.

(** C8.  [handlePlaceOrder] called without a cart identifier, or with
    saved addresses and none selected, sets an error and returns: the trace
    is unchanged, so no network request is issued.  When both checks pass
    and no bearer token is stored, it sets an error, navigates to the login
    page, issues no request and resets the submitting flag. *)
Theorem placeOrder_guards
    (net : FetchOutcome CheckoutPage.Api.Envelope)
    (s : CheckoutPage.State) (ls : gmap string string) (tr : list Effect) :
  (CheckoutPage.cartId s = None →
   CheckoutPage.handlePlaceOrder net (mkSigma s ls tr)
   = (Fulfilled,
      mkSigma (with_error s (CheckoutPage.submitting s)
                          (Some "سبد خرید یافت نشد")) ls tr))
  ∧ (CheckoutPage.addresses s ≠ [] → CheckoutPage.selectedAddressId s = "" →
     ∃ msg,
       CheckoutPage.handlePlaceOrder net (mkSigma s ls tr)
       = (Fulfilled,
          mkSigma (with_error s (CheckoutPage.submitting s) (Some msg)) ls tr))
  ∧ (has_cart s = true → address_missing s = false → ls !! "token" = None →
     CheckoutPage.handlePlaceOrder net (mkSigma s ls tr)
     = (Fulfilled,
        mkSigma (with_error s false (Some "لطفا ابتدا وارد حساب کاربری شوید"))
                ls (tr ++ [ENavigate "/login" None]))
     ∧ requests_since tr
         (CheckoutPage.handlePlaceOrder net (mkSigma s ls tr)).2 = []).
Proof.
  split; [|split].
  - intros Hcart. apply CheckoutPageFacts.handlePlaceOrder_no_cart.
    unfold has_cart. by rewrite Hcart.
  - intros Haddr Hsel.
    assert (Hmiss : address_missing s = true).
    { unfold address_missing. rewrite Hsel.
      destruct (CheckoutPage.addresses s); [done|].
      done. }
    destruct (has_cart s) eqn:Hcart.
    + eexists. by apply CheckoutPageFacts.handlePlaceOrder_no_address.
    + eexists. by apply CheckoutPageFacts.handlePlaceOrder_no_cart.
  - intros Hcart Haddr Htok.
    rewrite CheckoutPageFacts.handlePlaceOrder_no_token
      by (try done; by rewrite Htok).
    split; [done|]. unfold requests_since. cbn [snd trace].
    by rewrite drop_app_length.
Qed.

Lemma placeOrder_guards_witness :
  (CheckoutPage.handlePlaceOrder NetworkError
     (mkSigma (CheckoutPage.mkState [] None [] false false None ""
                 CheckoutPage.cash_on_delivery "") ∅ [])).2
  = mkSigma (CheckoutPage.mkState [] None [] false false
               (Some "سبد خرید یافت نشد") "" CheckoutPage.cash_on_delivery "")
            ∅ []
  ∧ requests_since []
      (CheckoutPage.handlePlaceOrder NetworkError
         (mkSigma (CheckoutPage.mkState [] (Some "cart-1") [] false false None ""
                     CheckoutPage.cash_on_delivery "") ∅ [])).2
    = [].
Proof.
  split.
  - destruct (placeOrder_guards NetworkError
                (CheckoutPage.mkState [] None [] false false None ""
                   CheckoutPage.cash_on_delivery "") ∅ []) as (H & _ & _).
    rewrite H; reflexivity.
  - destruct (placeOrder_guards NetworkError
                (CheckoutPage.mkState [] (Some "cart-1") [] false false None ""
                   CheckoutPage.cash_on_delivery "") ∅ []) as (_ & _ & H).
    apply H; reflexivity.
Defined.

(** C9 (the code departs from the claim).  With a cart identifier, a
    stored bearer token and a success envelope, [handlePlaceOrder] issues
    one POST with body [{cartId}], removes the guest token and navigates to
    the order-confirmation view with the returned order identifier; but
    the URL it requests is the text ["${API_BASE_URL}/orders"], which is
    [base/orders] for no base URL other than the placeholder text. *)
Theorem placeOrder_requests_placeholder_url :
  CheckoutPage.handlePlaceOrder
    (Responded (mkResponse true
       (Some (CheckoutPage.Api.mkEnvelope true
                (Some (CheckoutPage.Api.mkOrder "order-7")) None))))
    (mkSigma
       (CheckoutPage.mkState
          [CheckoutPage.mkCartItem "1" "1" "a" (JS.lit 250000) (JS.lit 2)]
          (Some "cart-1") [] false false None ""
          CheckoutPage.cash_on_delivery "")
       {[ "token" := "jwt"; "guestToken" := "guest-1" ]} [])
  = (Fulfilled,
     mkSigma
       (CheckoutPage.mkState
          [CheckoutPage.mkCartItem "1" "1" "a" (JS.lit 250000) (JS.lit 2)]
          (Some "cart-1") [] false false None ""
          CheckoutPage.cash_on_delivery "")
       {[ "token" := "jwt" ]}
       [EFetch "${API_BASE_URL}/orders" "POST"
               {[ "Authorization" := "Bearer jwt";
                  "Content-Type" := "application/json" ]}
               (Some (JObject [("cartId", JString "cart-1")]));
        ENavigate "/order-success"
                  (Some (JObject [("orderId", JString "order-7")]))])
  ∧ ∀ base : string,
      base = "${API_BASE_URL}" ∨ "${API_BASE_URL}/orders" ≠ base +:+ "/orders".
Proof.
  split.
  - rewrite CheckoutPageFacts.handlePlaceOrder_success by done.
    reflexivity.
  - intros base. destruct (decide (base = "${API_BASE_URL}")) as [|Hne];
      [by left|right].
    intros Heq. by apply Hne, CheckoutPageFacts.literal_url_base.
Qed.

(** C10.  For every cart state, item id, positive new quantity and network
    answer, the local update of [updateQuantity] keeps the length and the
    order of the cart list, leaves every item with another id as it was,
    and changes nothing but the quantity of an item with the given id; if no
    item has that id the list is unchanged. *)
Theorem updateQuantity_frame
    (API_BASE_URL : string) {B : Type} (net : FetchOutcome B)
    (itemId : string) (newQuantity : JS.number)
    (s : CartPage.State) (ls : gmap string string) (tr : list Effect) :
  (newQuantity > JS.lit 0)%js = true →
  length (CartPage.cartItems
            (st (CartPage.updateQuantity API_BASE_URL net itemId newQuantity
                   (mkSigma s ls tr)).2))
  = length (CartPage.cartItems s)
  ∧ (∀ (i : nat) (item : CartPage.CartItem),
       CartPage.cartItems s !! i = Some item →
       ∃ item',
         CartPage.cartItems
           (st (CartPage.updateQuantity API_BASE_URL net itemId newQuantity
                  (mkSigma s ls tr)).2) !! i = Some item'
         ∧ CartPage.id item' = CartPage.id item
         ∧ CartPage.name item' = CartPage.name item
         ∧ CartPage.price item' = CartPage.price item
         ∧ CartPage.image item' = CartPage.image item
         ∧ CartPage.category item' = CartPage.category item
         ∧ CartPage.productId item' = CartPage.productId item
         ∧ (CartPage.id item ≠ itemId → item' = item)
         ∧ (CartPage.id item = itemId →
            CartPage.quantity item' = newQuantity))
  ∧ ((∀ item, item ∈ CartPage.cartItems s → CartPage.id item ≠ itemId) →
     CartPage.cartItems
       (st (CartPage.updateQuantity API_BASE_URL net itemId newQuantity
              (mkSigma s ls tr)).2)
     = CartPage.cartItems s).
Proof.
  intros Hq. apply CartPageFacts.positive_not_le_0 in Hq.
  rewrite CartPageFacts.updateQuantity_run by done.
  cbn [snd st CartPage.cartItems]. split; [|split].
  - unfold set_quantity. apply length_map.
  - intros i item Hi. rewrite CartPageFacts.set_quantity_lookup, Hi. simpl.
    eexists. split; [done|].
    destruct (decide (CartPage.id item = itemId)); repeat split; done.
  - apply CartPageFacts.set_quantity_absent.
Qed.

Lemma updateQuantity_frame_witness :
  length (CartPage.cartItems
            (st (CartPage.updateQuantity "/api" (@NetworkError unit) "1"
                   (JS.lit 5)
                   (mkSigma (CartPage.mkState CartPage.mockCartItems false
                               None None) ∅ [])).2))
  = 2%nat.
Proof.
  destruct (updateQuantity_frame "/api" (@NetworkError unit) "1" (JS.lit 5)
              (CartPage.mkState CartPage.mockCartItems false None None) ∅ [])
    as (Hlen & _ & _); [reflexivity|].
  exact Hlen.
Defined.

(** * The rest of the code *)

(** ** More binary64 arithmetic on integers *)

Module Binary64Order.
Import Binary64.

(** Comparing the other way round gives the opposite answer. *)
Lemma SFcompare_antisym (x y : JS.number) :
  SFcompare y x = CompOpp <$> SFcompare x y.
Proof.
  destruct x as [sx|sx| |sx mx e1], y as [sy|sy| |sy my e2];
    try done; try (by destruct sx); try (by destruct sy);
    try (by destruct sx, sy).
  cbn [SFcompare fmap option_fmap option_map].
  rewrite (Z.compare_antisym e1 e2).
  destruct sx, sy; try done; f_equal;
    destruct (e1 ?= e2); cbn [CompOpp]; try done;
    change (Pos.compare_cont Eq ?p ?q) with (Pos.compare p q);
    by rewrite (Pos.compare_antisym mx my), ?CompOpp_involutive.
Qed.

Lemma le_not_gt (x y : JS.number) :
  (x <= y)%js = true → (x > y)%js = false.
Proof.
  unfold JS.le, JS.gt, SFleb, SFltb. rewrite (SFcompare_antisym x y).
  by destruct (SFcompare x y) as [[]|].
Qed.

(** Unless one of them is NaN, [x <= y] is the negation of [x > y]. *)
Lemma le_or_gt (x y : JS.number) :
  x ≠ S754_nan → y ≠ S754_nan → (x <= y)%js = negb (x > y)%js.
Proof.
  intros Hx Hy. unfold JS.le, JS.gt, SFleb, SFltb.
  rewrite (SFcompare_antisym x y).
  destruct x as [sx|sx| |sx mx e1], y as [sy|sy| |sy my e2]; try done;
    by destruct (SFcompare _ _) as [[]|] eqn:Hc.
Qed.

Lemma compare_canon a b :
  0 < a < 2 ^ 53 → 0 < b < 2 ^ 53 →
  SFcompare (JS.canon false a) (JS.canon false b) = Some (a ?= b).
Proof.
  intros Ha Hb.
  pose proof (Zdigits2_bounds a ltac:(lia)) as [Halo Hahi].
  pose proof (Zdigits2_bounds b ltac:(lia)) as [Hblo Hbhi].
  pose proof (digits_53 a Ha). pose proof (digits_53 b Hb).
  unfold JS.canon. cbn [SFcompare]. f_equal.
  unfold JS.canon_e, JS.prec.
  destruct (Z.compare_spec (Zdigits2 a - 53) (Zdigits2 b - 53)) as [He|He|He].
  - change (Pos.compare_cont Eq ?x ?y) with (Z.compare (Zpos x) (Zpos y)).
    rewrite !canon_m_to_pos by done. unfold JS.canon_m, JS.prec.
    replace (Zdigits2 b) with (Zdigits2 a) by lia.
    assert (0 < 2 ^ (53 - Zdigits2 a)) by (apply Z.pow_pos_nonneg; lia).
    destruct (Z.compare_spec (a * 2 ^ (53 - Zdigits2 a)) (b * 2 ^ (53 - Zdigits2 a)));
      destruct (Z.compare_spec a b); try done; nia.
  - assert (2 ^ Zdigits2 a ≤ 2 ^ (Zdigits2 b - 1)) by (apply Z.pow_le_mono_r; lia).
    destruct (Z.compare_spec a b); try done; lia.
  - assert (2 ^ Zdigits2 b ≤ 2 ^ (Zdigits2 a - 1)) by (apply Z.pow_le_mono_r; lia).
    destruct (Z.compare_spec a b); try done; lia.
Qed.

(** On integers, comparison is the comparison of the integers. *)
Lemma compare_lit a b :
  0 ≤ a < 2 ^ 53 → 0 ≤ b < 2 ^ 53 →
  SFcompare (JS.lit a) (JS.lit b) = Some (a ?= b).
Proof.
  intros Ha Hb.
  destruct (Z.eq_dec a 0) as [->|Ha0], (Z.eq_dec b 0) as [->|Hb0].
  - done.
  - rewrite lit_0, lit_pos by lia. cbn. f_equal.
    by destruct (Z.compare_spec 0 b); try lia.
  - rewrite lit_0, lit_pos by lia. cbn. f_equal.
    by destruct (Z.compare_spec a 0); try lia.
  - rewrite !lit_pos by lia. apply compare_canon; lia.
Qed.

Lemma le_lit a b :
  0 ≤ a < 2 ^ 53 → 0 ≤ b < 2 ^ 53 →
  (JS.lit a <= JS.lit b)%js = (a <=? b).
Proof.
  intros Ha Hb. unfold JS.le, SFleb. rewrite compare_lit by done.
  unfold Z.leb. by destruct (a ?= b).
Qed.

Lemma eq_lit a b :
  0 ≤ a < 2 ^ 53 → 0 ≤ b < 2 ^ 53 →
  (JS.lit a === JS.lit b)%js = (a =? b).
Proof.
  intros Ha Hb. unfold JS.eq, SFeqb. rewrite compare_lit by done.
  destruct (Z.compare_spec a b), (Z.eqb_spec a b); try done; lia.
Qed.

(** Subtraction of integers is exact. *)
Lemma sub_lit a b :
  0 ≤ b ≤ a → a < 2 ^ 53 →
  (JS.lit a - JS.lit b)%js = JS.lit (a - b).
Proof.
  intros Hba Ha.
  destruct (Z.eq_dec b 0) as [->|Hb0].
  { rewrite Z.sub_0_r. destruct (Z.eq_dec a 0) as [->|Ha0]; [done|].
    by rewrite lit_0, lit_pos by lia. }
  assert (Ha' : 0 < a < 2 ^ 53) by lia.
  assert (Hb' : 0 < b < 2 ^ 53) by lia.
  destruct (canon_scaled a Ha') as [Hma Hea].
  destruct (canon_scaled b Hb') as [Hmb Heb].
  rewrite (lit_pos a), (lit_pos b) by lia.
  unfold JS.sub, JS.canon. cbn [SFsub cond_Zopp].
  set (ez := Z.min (JS.canon_e a) (JS.canon_e b)).
  rewrite !shl_align_scaled, Hma, Hmb by lia.
  assert (Hdiff : a * 2 ^ (- JS.canon_e a) * 2 ^ (JS.canon_e a - ez)
                  - b * 2 ^ (- JS.canon_e b) * 2 ^ (JS.canon_e b - ez)
                  = (a - b) * 2 ^ (- ez)).
  { rewrite <- !Z.mul_assoc, <- !Z.pow_add_r by lia.
    replace (- JS.canon_e a + (JS.canon_e a - ez)) with (- ez) by lia.
    replace (- JS.canon_e b + (JS.canon_e b - ez)) with (- ez) by lia. lia. }
  rewrite Hdiff.
  destruct (Z.eq_dec a b) as [->|Hne].
  { by rewrite Z.sub_diag. }
  assert (Hp : 0 < (a - b) * 2 ^ (- ez)).
  { apply Z.mul_pos_pos; [lia|]. apply Z.pow_pos_nonneg; lia. }
  destruct ((a - b) * 2 ^ (- ez)) as [|p|p] eqn:Hv; try lia.
  cbn [binary_normalize]. rewrite (lit_pos (a - b)) by lia.
  apply binary_round_canon; [lia|lia|done].
Qed.

End Binary64Order.

(** ** Running the other handlers *)

Ltac eff_run2 :=
  cbv beta iota zeta delta
    [async try_catch try_finally bind ret return_ throw read write emit fetch
     json call console_warn console_error navigate localStorage_getItem
     localStorage_removeItem localStorage_setItem st localStorage trace ok
     body fst snd negb andb orb request_ok member
     CheckoutPage.setSubmitting CheckoutPage.setError CheckoutPage.setCartItems
     CheckoutPage.setCartId CheckoutPage.setAddresses CheckoutPage.setLoading
     CheckoutPage.setSelectedAddressId
     CheckoutPage.cartItems
     CheckoutPage.cartId CheckoutPage.addresses CheckoutPage.loading
     CheckoutPage.submitting CheckoutPage.error CheckoutPage.selectedAddressId
     CheckoutPage.paymentMethod CheckoutPage.notes
     CheckoutPage.Api.success CheckoutPage.Api.data CheckoutPage.Api.message
     CheckoutPage.LoadApi.success CheckoutPage.LoadApi.data
     CheckoutPage.LoadApi.items CheckoutPage.LoadApi.cart_id
     CheckoutPage.LoadApi.addr_success CheckoutPage.LoadApi.addr_data
     FeaturedProductsSection.setProducts FeaturedProductsSection.setLoading
     FeaturedProductsSection.products FeaturedProductsSection.loading
     FeaturedProductsSection.Api.success FeaturedProductsSection.Api.data
     ProductCard.setIsAddingToCart ProductCard.toast ProductCard.isAddingToCart
     ProductCard.toasts ProductCard.Api.success ProductCard.Api.data
     ProductCard.Api.id ProductCard.Api.guestToken].

(** ** The cart page *)

Module CartPageMore.
Import CartPage CartPageSpec.

Lemma base_headers_lookup (token : option string) :
  base_headers token !! "Content-Type" = Some "application/json"
  ∧ base_headers token !! "Authorization"
    = if truthy token then Some ("Bearer " +:+ splice token) else None.
Proof. unfold base_headers. by destruct (truthy token). Qed.

Lemma or_else_truthy (a : option string) (b : string) :
  b ≠ "" → or_else a b ≠ "".
Proof.
  intros Hb. unfold or_else, truthy_string.
  destruct a as [x|]; [|done]. by case_bool_decide.
Qed.

Lemma or_else_some (x b : string) : x ≠ "" → or_else (Some x) b = x.
Proof. intros Hx. unfold or_else, truthy_string. by rewrite bool_decide_eq_true_2. Qed.

(** The handlers of one render, run in any state. *)
Section Render.
Variable API_BASE_URL : string.
Context {B : Type}.

Lemma render_removeItem_run (net : FetchOutcome B) items itemId s ls tr :
  Render.removeItem API_BASE_URL items net itemId (mkSigma s ls tr)
  = (Fulfilled,
     mkSigma
       (mkState (without itemId items) (loading s)
                (if request_ok net then error s
                 else Some "خطا در حذف محصول")
                (cartId s))
       ls
       (tr ++ [EFetch (API_BASE_URL +:+ "/cart/items/" +:+ itemId) "DELETE"
                      (base_headers (ls !! "token")) None]
           ++ (if request_ok net then []
               else [EConsoleError "Error removing item:"]))).
Proof.
  unfold Render.removeItem, without. destruct s as [its ld err cid].
  destruct net as [|[[] b]]; eff_run; by trace_norm.
Qed.

Lemma render_updateQuantity_run (net : FetchOutcome B) items itemId q s ls tr :
  Render.updateQuantity API_BASE_URL items net itemId q (mkSigma s ls tr)
  = (Fulfilled,
     mkSigma
       (mkState (if (q <= JS.lit 0)%js then without itemId items
                 else set_quantity itemId q items)
                (loading s)
                (if request_ok net then error s
                 else if (q <= JS.lit 0)%js then Some "خطا در حذف محصول"
                 else Some "خطا در به‌روزرسانی تعداد")
                (cartId s))
       ls
       (tr ++ [if (q <= JS.lit 0)%js
               then EFetch (API_BASE_URL +:+ "/cart/items/" +:+ itemId) "DELETE"
                           (base_headers (ls !! "token")) None
               else EFetch (API_BASE_URL +:+ "/cart/items/" +:+ itemId) "PUT"
                           (base_headers (ls !! "token"))
                           (Some (JObject [("quantity", JNumber q)]))]
           ++ (if request_ok net then []
               else if (q <= JS.lit 0)%js
                    then [EConsoleError "Error removing item:"]
                    else [EConsoleError "Error updating quantity:"]))).
Proof.
  unfold Render.updateQuantity, set_quantity.
  destruct s as [its ld err cid].
  destruct (q <= JS.lit 0)%js.
  - destruct net as [|[[] b]]; eff_run; rewrite render_removeItem_run;
      eff_run; by trace_norm.
  - destruct net as [|[[] b]]; eff_run; by trace_norm.
Qed.
End Render.

End CartPageMore.



(** X2.  Every line that [fetchCart] builds from a server item and its
    product has a non-empty image path and a non-empty category label:
    the first image and the category name of the product when they are
    non-empty strings, the placeholder image and the label for
    uncategorised products otherwise, also when the category has an empty
    name. *)
Theorem of_api_fallbacks
    (item : CartPage.Api.ApiCartItem) (product : CartPage.Api.Product) :
  CartPage.image (CartPage.of_api item product) ≠ ""
  ∧ CartPage.category (CartPage.of_api item product) ≠ ""
  ∧ (∀ first rest,
       CartPage.Api.images product = Some (first :: rest) →
       first ≠ "" → CartPage.image (CartPage.of_api item product) = first)
  ∧ (CartPage.Api.images product = None
     ∨ CartPage.Api.images product = Some []
     ∨ (∃ rest, CartPage.Api.images product = Some ("" :: rest)) →
     CartPage.image (CartPage.of_api item product) = "/images/placeholder.jpg")
  ∧ (∀ c,
       CartPage.Api.category product = Some c →
       CartPage.Api.name c ≠ "" →
       CartPage.category (CartPage.of_api item product) = CartPage.Api.name c)
  ∧ (CartPage.Api.category product = None
     ∨ CartPage.Api.category product = Some (CartPage.Api.mkCategory "") →
     CartPage.category (CartPage.of_api item product) = "دسته‌بندی نشده").
Proof.
  unfold CartPage.of_api. cbn [CartPage.image CartPage.category].
  repeat split.
  - by apply CartPageMore.or_else_truthy.
  - by apply CartPageMore.or_else_truthy.
  - intros first rest -> Hne. by apply CartPageMore.or_else_some.
  - by intros [-> | [-> | [rest ->]]].
  - intros c -> Hne. by apply CartPageMore.or_else_some.
  - by intros [-> | ->].
Qed.

Lemma of_api_fallbacks_witness :
  CartPage.image
    (CartPage.of_api
       (CartPage.Api.mkApiCartItem "i1" (JS.lit 1) None)
       (CartPage.Api.mkProduct "p1" "t" (JS.lit 5) (Some ["/a.jpg"; "/b.jpg"])
          None))
  = "/a.jpg"
  ∧ CartPage.category
      (CartPage.of_api
         (CartPage.Api.mkApiCartItem "i1" (JS.lit 1) None)
         (CartPage.Api.mkProduct "p1" "t" (JS.lit 5) (Some ["/a.jpg"; "/b.jpg"])
            None))
    = "دسته‌بندی نشده".
Proof.
  destruct (of_api_fallbacks
              (CartPage.Api.mkApiCartItem "i1" (JS.lit 1) None)
              (CartPage.Api.mkProduct "p1" "t" (JS.lit 5)
                 (Some ["/a.jpg"; "/b.jpg"]) None))
    as (_ & _ & Himg & _ & _ & Hcat).
  split.
  - apply (Himg "/a.jpg" ["/b.jpg"]); [reflexivity|discriminate].
  - apply Hcat. by left.
Defined.

(** X3.  Whatever the network answers, [fetchCart] issues exactly one
    request, a GET, never rejects, ends loading and leaves [localStorage]
    as it was.  The URL carries [?guestToken=] exactly when a non-empty
    guest token is stored, also when a bearer token is stored; the
    [Authorization] header is present exactly when a non-empty bearer token
    is stored. *)
Theorem fetchCart_request
    (API_BASE_URL : string) (net : FetchOutcome CartPage.Api.Envelope)
    (s : CartPage.State) (ls : gmap string string) (tr : list Effect) :
  (CartPage.fetchCart API_BASE_URL net (mkSigma s ls tr)).1 = Fulfilled
  ∧ CartPage.loading
      (st (CartPage.fetchCart API_BASE_URL net (mkSigma s ls tr)).2) = false
  ∧ localStorage (CartPage.fetchCart API_BASE_URL net (mkSigma s ls tr)).2 = ls
  ∧ (∃ url headers,
       new_requests tr (CartPage.fetchCart API_BASE_URL net (mkSigma s ls tr)).2
       = [EFetch url "GET" headers None]
       ∧ url = (if truthy (ls !! "guestToken")
                then API_BASE_URL +:+ "/cart?guestToken="
                     +:+ splice (ls !! "guestToken")
                else API_BASE_URL +:+ "/cart")
       ∧ headers !! "Content-Type" = Some "application/json"
       ∧ headers !! "Authorization"
         = if truthy (ls !! "token")
           then Some ("Bearer " +:+ splice (ls !! "token")) else None).
Proof.
  rewrite CartPageFacts.fetchCart_run. cbn [fst snd st localStorage].
  split; [done|]. split; [by destruct (classify net)|]. split; [done|].
  eexists _, _. split; [|split; [reflexivity|apply CartPageMore.base_headers_lookup]].
  unfold new_requests, new_effects. cbn [trace].
  rewrite drop_app_length. by destruct (classify net).
Qed.

(** X4.  Whatever the network answers, [removeItem] and [updateQuantity]
    never reject, leave [localStorage], the loading flag and the cart
    identifier as they were, and issue exactly one request to
    [/cart/items/<id>]: a DELETE for [removeItem] and for a quantity
    [<= 0], a PUT with body [{quantity}] otherwise.  The error is left as
    it was when the request succeeds, and set when it fails. *)
Theorem cart_mutations_frame
    (API_BASE_URL : string) {B : Type} (net : FetchOutcome B)
    (itemId : string) (newQuantity : JS.number)
    (s : CartPage.State) (ls : gmap string string) (tr : list Effect) :
  ((CartPage.removeItem API_BASE_URL net itemId (mkSigma s ls tr)).1 = Fulfilled
   ∧ localStorage (CartPage.removeItem API_BASE_URL net itemId (mkSigma s ls tr)).2
     = ls
   ∧ CartPage.loading
       (st (CartPage.removeItem API_BASE_URL net itemId (mkSigma s ls tr)).2)
     = CartPage.loading s
   ∧ CartPage.cartId
       (st (CartPage.removeItem API_BASE_URL net itemId (mkSigma s ls tr)).2)
     = CartPage.cartId s
   ∧ CartPage.error
       (st (CartPage.removeItem API_BASE_URL net itemId (mkSigma s ls tr)).2)
     = (if request_ok net then CartPage.error s else Some "خطا در حذف محصول")
   ∧ new_requests tr
       (CartPage.removeItem API_BASE_URL net itemId (mkSigma s ls tr)).2
     = [EFetch (API_BASE_URL +:+ "/cart/items/" +:+ itemId) "DELETE"
               (CartPage.base_headers (ls !! "token")) None])
  ∧ ((CartPage.updateQuantity API_BASE_URL net itemId newQuantity
        (mkSigma s ls tr)).1 = Fulfilled
     ∧ localStorage
         (CartPage.updateQuantity API_BASE_URL net itemId newQuantity
            (mkSigma s ls tr)).2 = ls
     ∧ CartPage.loading
         (st (CartPage.updateQuantity API_BASE_URL net itemId newQuantity
                (mkSigma s ls tr)).2)
       = CartPage.loading s
     ∧ CartPage.cartId
         (st (CartPage.updateQuantity API_BASE_URL net itemId newQuantity
                (mkSigma s ls tr)).2)
       = CartPage.cartId s
     ∧ CartPage.error
         (st (CartPage.updateQuantity API_BASE_URL net itemId newQuantity
                (mkSigma s ls tr)).2)
       = (if request_ok net then CartPage.error s
          else if (newQuantity <= JS.lit 0)%js then Some "خطا در حذف محصول"
          else Some "خطا در به‌روزرسانی تعداد")
     ∧ new_requests tr
         (CartPage.updateQuantity API_BASE_URL net itemId newQuantity
            (mkSigma s ls tr)).2
       = [if (newQuantity <= JS.lit 0)%js
          then EFetch (API_BASE_URL +:+ "/cart/items/" +:+ itemId) "DELETE"
                      (CartPage.base_headers (ls !! "token")) None
          else EFetch (API_BASE_URL +:+ "/cart/items/" +:+ itemId) "PUT"
                      (CartPage.base_headers (ls !! "token"))
                      (Some (JObject [("quantity", JNumber newQuantity)]))]).
Proof.
  assert (Hrem :
    (CartPage.removeItem API_BASE_URL net itemId (mkSigma s ls tr)).1 = Fulfilled
    ∧ localStorage (CartPage.removeItem API_BASE_URL net itemId (mkSigma s ls tr)).2
      = ls
    ∧ CartPage.loading
        (st (CartPage.removeItem API_BASE_URL net itemId (mkSigma s ls tr)).2)
      = CartPage.loading s
    ∧ CartPage.cartId
        (st (CartPage.removeItem API_BASE_URL net itemId (mkSigma s ls tr)).2)
      = CartPage.cartId s
    ∧ CartPage.error
        (st (CartPage.removeItem API_BASE_URL net itemId (mkSigma s ls tr)).2)
      = (if request_ok net then CartPage.error s else Some "خطا در حذف محصول")
    ∧ new_requests tr
        (CartPage.removeItem API_BASE_URL net itemId (mkSigma s ls tr)).2
      = [EFetch (API_BASE_URL +:+ "/cart/items/" +:+ itemId) "DELETE"
                (CartPage.base_headers (ls !! "token")) None]).
  { rewrite CartPageFacts.removeItem_run.
    cbn [fst snd st localStorage trace CartPage.loading CartPage.cartId
         CartPage.error].
    repeat split. unfold new_requests, new_effects. cbn [trace].
    rewrite drop_app_length. by destruct (request_ok net). }
  split; [exact Hrem|].
  destruct (newQuantity <= JS.lit 0)%js eqn:Hq.
  - rewrite CartPageFacts.updateQuantity_delegates by done. exact Hrem.
  - rewrite CartPageFacts.updateQuantity_run by done.
    cbn [fst snd st localStorage trace CartPage.loading CartPage.cartId
         CartPage.error].
    repeat split. unfold new_requests, new_effects. cbn [trace].
    rewrite drop_app_length. by destruct (request_ok net).
Qed.

(** X5.  On a line whose quantity is an integer [n] with [1 <= n] and
    [n + 1 < 2^53], the plus button sets the quantity of the lines with
    that id to [n + 1]; the minus button sets it to [n - 1] when [n >= 2]
    and, when [n = 1], does exactly what the remove button does. *)
Theorem quantity_buttons
    (API_BASE_URL : string) {B : Type} (net : FetchOutcome B)
    (item : CartPage.CartItem) (n : Z)
    (s : CartPage.State) (ls : gmap string string) (tr : list Effect) :
  CartPage.quantity item = JS.lit n → 1 ≤ n → n + 1 < 2 ^ 53 →
  CartPage.cartItems
    (st (CartPage.onPlus API_BASE_URL net item (mkSigma s ls tr)).2)
  = set_quantity (CartPage.id item) (JS.lit (n + 1)) (CartPage.cartItems s)
  ∧ (2 ≤ n →
     CartPage.cartItems
       (st (CartPage.onMinus API_BASE_URL net item (mkSigma s ls tr)).2)
     = set_quantity (CartPage.id item) (JS.lit (n - 1)) (CartPage.cartItems s))
  ∧ (n = 1 →
     CartPage.onMinus API_BASE_URL net item (mkSigma s ls tr)
     = CartPage.onRemove API_BASE_URL net item (mkSigma s ls tr)).
Proof.
  intros Hq Hn1 Hn2. unfold CartPage.onPlus, CartPage.onMinus, CartPage.onRemove.
  rewrite Hq. split; [|split].
  - rewrite Binary64.add_lit by lia.
    rewrite CartPageFacts.updateQuantity_run
      by (rewrite Binary64Order.le_lit by lia; apply Z.leb_gt; lia).
    reflexivity.
  - intros Hn. rewrite Binary64Order.sub_lit by lia.
    rewrite CartPageFacts.updateQuantity_run
      by (rewrite Binary64Order.le_lit by lia; apply Z.leb_gt; lia).
    reflexivity.
  - intros ->. apply CartPageFacts.updateQuantity_delegates. reflexivity.
Qed.

Lemma quantity_buttons_witness :
  CartPage.cartItems
    (st (CartPage.onPlus "/api" (@NetworkError unit)
           (CartPage.mkCartItem "1" "a" (JS.lit 250000) (JS.lit 2) "" "" "1")
           (mkSigma (CartPage.mkState CartPage.mockCartItems false None None)
                    ∅ [])).2)
  = set_quantity "1" (JS.lit (2 + 1)) CartPage.mockCartItems.
Proof.
  destruct (quantity_buttons "/api" (@NetworkError unit)
              (CartPage.mkCartItem "1" "a" (JS.lit 250000) (JS.lit 2) "" "" "1")
              2 (CartPage.mkState CartPage.mockCartItems false None None) ∅ [])
    as (Hplus & _ & _); [reflexivity|lia|lia|].
  exact Hplus.
Defined.

(** X6.  In the order summary of the cart page, shipping is shown as free
    exactly when the subtotal exceeds 1,000,000; the hint "add ... more for
    free shipping" is shown only when the flat fee of 50,000 is charged,
    and, unless the subtotal is NaN, exactly then.  For an integer subtotal
    [z <= 1,000,000] the hint shows the missing amount [1,000,000 - z]. *)
Theorem shipping_summary (cartItems : list CartPage.CartItem) :
  (CartPage.shown_shipping (CartPage.summary cartItems) = CartPage.Free
   ↔ (CartPage.subtotal cartItems > JS.lit 1000000)%js = true)
  ∧ (CartPage.shown_shipping (CartPage.summary cartItems) = CartPage.Free
     ∨ CartPage.shown_shipping (CartPage.summary cartItems)
       = CartPage.Fee (JS.lit 50000))
  ∧ (CartPage.shown_missing (CartPage.summary cartItems) ≠ None →
     CartPage.shown_shipping (CartPage.summary cartItems)
     = CartPage.Fee (JS.lit 50000))
  ∧ (CartPage.subtotal cartItems ≠ S754_nan →
     CartPage.shown_shipping (CartPage.summary cartItems)
     = CartPage.Fee (JS.lit 50000) →
     CartPage.shown_missing (CartPage.summary cartItems)
     = Some (JS.lit 1000000 - CartPage.subtotal cartItems)%js)
  ∧ (∀ z, 0 ≤ z ≤ 1000000 → CartPage.subtotal cartItems = JS.lit z →
          CartPage.shown_missing (CartPage.summary cartItems)
          = Some (JS.lit (1000000 - z))).
Proof.
  unfold CartPage.summary.
  cbn [CartPage.shown_shipping CartPage.shown_missing].
  unfold CartPage.shipping, Pricing.shipping.
  change (Pricing.subtotal CartPage.price CartPage.quantity cartItems)
    with (CartPage.subtotal cartItems).
  destruct (CartPage.subtotal cartItems > JS.lit 1000000)%js eqn:Hgt.
  - change (JS.lit 0 === JS.lit 0)%js with true. cbv iota.
    repeat split; try done; try (by left).
    + intros Hmiss.
      destruct (CartPage.subtotal cartItems <= JS.lit 1000000)%js eqn:Hle;
        [|done].
      apply Binary64Order.le_not_gt in Hle. congruence.
    + intros z Hz Hsub. rewrite Hsub in Hgt.
      rewrite Binary64.gt_lit in Hgt by lia.
      apply Z.ltb_lt in Hgt. lia.
  - change (JS.lit 50000 === JS.lit 0)%js with false. cbv iota.
    repeat split; try done; try (by right).
    + intros Hnan _.
      rewrite Binary64Order.le_or_gt, Hgt by done. done.
    + intros z Hz Hsub. rewrite Hsub.
      rewrite Binary64Order.le_lit by lia.
      rewrite (proj2 (Z.leb_le z 1000000)) by lia.
      by rewrite Binary64Order.sub_lit by lia.
Qed.

Lemma shipping_summary_witness :
  CartPage.shown_missing (CartPage.summary CartPage.mockCartItems)
  = Some (JS.lit (1000000 - 650000)).
Proof.
  destruct (shipping_summary CartPage.mockCartItems) as (_ & _ & _ & _ & Hz).
  apply (Hz 650000); [lia|reflexivity].
Defined.

(** X7.  After [fetchCart], whatever the network answered, the cart page
    no longer shows the spinner.  It shows the empty-cart card exactly when
    the server's cart was loaded and has no item; after any failure it
    shows the two lines of the mock cart (their names, quantities 2 and 1,
    and line totals 500,000 and 150,000), with the error banner exactly
    when an error string was recorded. *)
Theorem view_after_fetchCart
    (API_BASE_URL : string) (net : FetchOutcome CartPage.Api.Envelope)
    (σ : Sigma CartPage.State) :
  CartPage.render (st (CartPage.fetchCart API_BASE_URL net σ).2)
  ≠ CartPage.LoadingView
  ∧ (CartPage.render (st (CartPage.fetchCart API_BASE_URL net σ).2)
     = CartPage.EmptyCartView
     ↔ ∃ apiCart, classify net = Loaded apiCart
                  ∧ CartPage.Api.items apiCart = Some [])
  ∧ (fetch_failure net →
     ∃ lines,
       length lines = 2%nat
       ∧ CartPage.line_name <$> lines
         = CartPage.name <$> CartPage.mockCartItems
       ∧ CartPage.line_quantity <$> lines = [JS.lit 2; JS.lit 1]
       ∧ CartPage.line_total <$> lines = [JS.lit 500000; JS.lit 150000]
       ∧ CartPage.render (st (CartPage.fetchCart API_BASE_URL net σ).2)
         = CartPage.CartView 2
             (CartPage.error (st (CartPage.fetchCart API_BASE_URL net σ).2))
             lines (CartPage.summary CartPage.mockCartItems)).
Proof.
  destruct σ as [s ls tr]. rewrite CartPageFacts.fetchCart_run.
  cbn [snd st]. unfold fetch_failure.
  assert (Hmock : ∀ banner,
    ∃ lines,
      length lines = 2%nat
      ∧ CartPage.line_name <$> lines = CartPage.name <$> CartPage.mockCartItems
      ∧ CartPage.line_quantity <$> lines = [JS.lit 2; JS.lit 1]
      ∧ CartPage.line_total <$> lines = [JS.lit 500000; JS.lit 150000]
      ∧ CartPage.CartView 2 banner
          (map (λ item, CartPage.mkLine (CartPage.name item)
                          (CartPage.category item)
                          (CartPage.price item * CartPage.quantity item)%js
                          (CartPage.quantity item))
               CartPage.mockCartItems)
          (CartPage.summary CartPage.mockCartItems)
        = CartPage.CartView 2 banner lines
            (CartPage.summary CartPage.mockCartItems)).
  { intros banner.
    exists (map (λ item, CartPage.mkLine (CartPage.name item)
                           (CartPage.category item)
                           (CartPage.price item * CartPage.quantity item)%js
                           (CartPage.quantity item))
                CartPage.mockCartItems).
    repeat split. }
  destruct (classify net) as [apiCart|apiCart| |] eqn:Hnet; unfold CartPage.render;
    cbn [CartPage.loading CartPage.cartItems CartPage.error].
  - destruct (CartPageFacts.classify_Loaded _ _ Hnet) as [l Hl].
    destruct (CartPageFacts.lines_lookup _ _ Hl) as (items & Hitems & Hlen & _).
    rewrite Hl. change (default [] (Some l)) with l.
    split; [by case_bool_decide|]. split.
    + case_bool_decide as Hnil.
      * split; [|done]. intros _. exists apiCart. split; [done|].
        rewrite Hitems. f_equal. apply nil_length_inv. by rewrite <- Hlen.
      * split; [done|]. intros (c & [= <-] & Hc). rewrite Hc in Hitems.
        injection Hitems as <-. by rewrite Hlen in Hnil.
    + intros Hfail. by destruct (Hfail apiCart).
  - split; [done|]. split; [split; [done|by intros (? & ? & _)]|].
    intros _. apply Hmock.
  - split; [done|]. split; [split; [done|by intros (? & ? & _)]|].
    intros _. apply Hmock.
  - split; [done|]. split; [split; [done|by intros (? & ? & _)]|].
    intros _. apply Hmock.
Qed.

Lemma view_after_fetchCart_witness :
  ∃ lines,
    length lines = 2%nat
    ∧ CartPage.line_name <$> lines = CartPage.name <$> CartPage.mockCartItems
    ∧ CartPage.line_quantity <$> lines = [JS.lit 2; JS.lit 1]
    ∧ CartPage.line_total <$> lines = [JS.lit 500000; JS.lit 150000]
    ∧ CartPage.render (st (CartPage.fetchCart "/api" NetworkError
                             CartPageSpec.initial).2)
      = CartPage.CartView 2
          (CartPage.error (st (CartPage.fetchCart "/api" NetworkError
                                 CartPageSpec.initial).2))
          lines (CartPage.summary CartPage.mockCartItems).
Proof.
  destruct (view_after_fetchCart "/api" NetworkError CartPageSpec.initial)
    as (_ & _ & Hfail).
  apply Hfail. intros apiCart. discriminate.
Defined.

(** X8.  [removeItem] and [updateQuantity] write a list computed from the
    [cartItems] of the render that created them.  When the page has been
    rendered again between two calls, so that the second handler is the
    one of the state that the first call left: removing an id twice is
    the same as removing it once; after an id has been removed, any
    quantity update for that id leaves the list as it is; removing two
    ids gives the same list in either order; and the list after a removal
    is a sublist of the list before.  When two calls overlap, both
    handlers are those of the same render, and the write of the second
    one wins: the list is the one that the second call alone would give,
    so an item removed by the first call is back unless the second call
    removes it too. *)
Theorem removal_composes
    (API_BASE_URL : string) {B : Type} (net1 net2 : FetchOutcome B)
    (a b : string) (q : JS.number) (σ : Sigma CartPage.State) :
  (CartPage.removeItem API_BASE_URL net1 a σ
   = CartPage.Render.removeItem API_BASE_URL (CartPage.cartItems (st σ))
       net1 a σ
   ∧ CartPage.updateQuantity API_BASE_URL net1 a q σ
     = CartPage.Render.updateQuantity API_BASE_URL (CartPage.cartItems (st σ))
         net1 a q σ)
  ∧ (CartPage.cartItems
       (st (CartPage.removeItem API_BASE_URL net2 a
              (CartPage.removeItem API_BASE_URL net1 a σ).2).2)
     = CartPage.cartItems (st (CartPage.removeItem API_BASE_URL net1 a σ).2)
     ∧ CartPage.cartItems
         (st (CartPage.updateQuantity API_BASE_URL net2 a q
                (CartPage.removeItem API_BASE_URL net1 a σ).2).2)
       = CartPage.cartItems (st (CartPage.removeItem API_BASE_URL net1 a σ).2)
     ∧ CartPage.cartItems
         (st (CartPage.removeItem API_BASE_URL net2 b
                (CartPage.removeItem API_BASE_URL net1 a σ).2).2)
       = CartPage.cartItems
           (st (CartPage.removeItem API_BASE_URL net2 a
                  (CartPage.removeItem API_BASE_URL net1 b σ).2).2)
     ∧ CartPage.cartItems (st (CartPage.removeItem API_BASE_URL net1 a σ).2)
       `sublist_of` CartPage.cartItems (st σ))
  ∧ (CartPage.cartItems
       (st (CartPage.Render.removeItem API_BASE_URL (CartPage.cartItems (st σ))
              net2 b
              (CartPage.Render.removeItem API_BASE_URL
                 (CartPage.cartItems (st σ)) net1 a σ).2).2)
     = without b (CartPage.cartItems (st σ))
     ∧ CartPage.cartItems
         (st (CartPage.Render.updateQuantity API_BASE_URL
                (CartPage.cartItems (st σ)) net2 b q
                (CartPage.Render.removeItem API_BASE_URL
                   (CartPage.cartItems (st σ)) net1 a σ).2).2)
       = (if (q <= JS.lit 0)%js then without b (CartPage.cartItems (st σ))
          else set_quantity b q (CartPage.cartItems (st σ)))
     ∧ ∀ item,
         item ∈ CartPage.cartItems (st σ) → CartPage.id item = a → a ≠ b →
         (item ∉ CartPage.cartItems
                   (st (CartPage.Render.removeItem API_BASE_URL
                          (CartPage.cartItems (st σ)) net1 a σ).2))
         ∧ item ∈ CartPage.cartItems
                    (st (CartPage.Render.removeItem API_BASE_URL
                           (CartPage.cartItems (st σ)) net2 b
                           (CartPage.Render.removeItem API_BASE_URL
                              (CartPage.cartItems (st σ)) net1 a σ).2).2)).
Proof.
  destruct σ as [s ls tr]. cbn [st].
  assert (Hidem : ∀ l, without a (without a l) = without a l).
  { intros l. unfold without. rewrite list_filter_filter.
    apply list_filter_iff. tauto. }
  assert (Habsent : ∀ l item, item ∈ without a l → CartPage.id item ≠ a).
  { intros l item Hin. unfold without in Hin.
    by apply list_elem_of_filter in Hin as [? _]. }
  split; [|split].
  - split.
    + by rewrite CartPageFacts.removeItem_run, CartPageMore.render_removeItem_run.
    + rewrite CartPageMore.render_updateQuantity_run.
      destruct (q <= JS.lit 0)%js eqn:Hq.
      * rewrite CartPageFacts.updateQuantity_delegates by done.
        rewrite CartPageFacts.removeItem_run. by destruct (request_ok net1).
      * rewrite CartPageFacts.updateQuantity_run by done.
        by destruct (request_ok net1).
  - rewrite !CartPageFacts.removeItem_run. cbn [snd].
    rewrite !CartPageFacts.removeItem_run. cbn [snd st CartPage.cartItems].
    split; [apply Hidem|]. split; [|split].
    + destruct (q <= JS.lit 0)%js eqn:Hq.
      * rewrite CartPageFacts.updateQuantity_delegates by done.
        rewrite CartPageFacts.removeItem_run. cbn [snd st CartPage.cartItems].
        apply Hidem.
      * rewrite CartPageFacts.updateQuantity_run by done.
        cbn [snd st CartPage.cartItems].
        apply CartPageFacts.set_quantity_absent. apply Habsent.
    + unfold without. rewrite !list_filter_filter.
      apply list_filter_iff. tauto.
    + unfold without. apply sublist_filter.
  - rewrite !CartPageMore.render_removeItem_run. cbn [snd].
    rewrite CartPageMore.render_removeItem_run,
      CartPageMore.render_updateQuantity_run.
    cbn [snd st CartPage.cartItems].
    split; [done|]. split; [done|].
    intros item Hin Hid Hab. unfold without. rewrite !list_elem_of_filter.
    split; [|split; [congruence|done]].
    intros [Hne _]. by apply Hne.
Qed.

Lemma removal_composes_witness :
  CartPage.cartItems
    (st (CartPage.Render.removeItem "/api" CartPage.mockCartItems
           (@NetworkError unit) "2"
           (CartPage.Render.removeItem "/api" CartPage.mockCartItems
              (@NetworkError unit) "1"
              (mkSigma (CartPage.mkState CartPage.mockCartItems false None None)
                       ∅ [])).2).2)
  = without "2" CartPage.mockCartItems
  ∧ CartPage.cartItems
      (st (CartPage.removeItem "/api" (@NetworkError unit) "2"
             (CartPage.removeItem "/api" (@NetworkError unit) "1"
                (mkSigma (CartPage.mkState CartPage.mockCartItems false None None)
                         ∅ [])).2).2)
    = CartPage.cartItems
        (st (CartPage.removeItem "/api" (@NetworkError unit) "1"
               (CartPage.removeItem "/api" (@NetworkError unit) "2"
                  (mkSigma (CartPage.mkState CartPage.mockCartItems false None
                              None) ∅ [])).2).2).
Proof.
  destruct (removal_composes "/api" (@NetworkError unit) (@NetworkError unit)
              "1" "2" (JS.lit 1)
              (mkSigma (CartPage.mkState CartPage.mockCartItems false None None)
                       ∅ []))
    as (_ & (_ & _ & Hcomm & _) & (Hoverlap & _)).
  split; [exact Hoverlap|exact Hcomm].
Defined.

(** ** The checkout page *)

Module CheckoutPageMore.
Import CheckoutPage CheckoutPageSpec CheckoutLoadSpec.

(** The outcome of a submission that passes the checks, by the answer of
    the server. *)
Lemma handlePlaceOrder_run net s ls tr :
  has_cart s = true → address_missing s = false →
  truthy (ls !! "token") = true →
  handlePlaceOrder net (mkSigma s ls tr)
  = (Fulfilled,
     mkSigma
       (with_error s false
          match classify_order net with
          | Placed _ => None
          | Refused m => Some (or_else m "خطا در ثبت سفارش")
          | AcceptedWithoutData | RequestFailed =>
              Some "خطا در ثبت سفارش. لطفا دوباره تلاش کنید."
          end)
       match classify_order net with
       | Placed _ | AcceptedWithoutData => delete "guestToken" ls
       | Refused _ | RequestFailed => ls
       end
       (tr ++ [order_request s ls]
           ++ match classify_order net with
              | Placed order =>
                  [ENavigate "/order-success"
                     (Some (JObject [("orderId", JString (Api.id order))]))]
              | Refused _ => []
              | AcceptedWithoutData | RequestFailed =>
                  [EConsoleError "Error placing order:"]
              end)).
Proof.
  unfold has_cart, address_missing, handlePlaceOrder, order_request,
    order_headers, with_error, classify_order.
  destruct s as [items cid addrs ld sub err sel pm nt]. eff_run.
  intros -> -> ->.
  destruct net as [|[[] [[[] [order|] msg]|]]]; eff_run; by trace_norm.
Qed.



End CheckoutPageMore.

(** X9.  Whatever the state, the stored tokens and the answer of the
    network, [handlePlaceOrder] never rejects, never changes an entry of
    [localStorage] other than [guestToken] (the bearer token stays), issues
    at most one request, and leaves the cart, the cart identifier, the
    addresses, the selection, the payment method and the notes as they
    were. *)
Theorem handlePlaceOrder_frame
    (net : FetchOutcome CheckoutPage.Api.Envelope)
    (s : CheckoutPage.State) (ls : gmap string string) (tr : list Effect) :
  (CheckoutPage.handlePlaceOrder net (mkSigma s ls tr)).1 = Fulfilled
  ∧ (∀ key, key ≠ "guestToken" →
       localStorage (CheckoutPage.handlePlaceOrder net (mkSigma s ls tr)).2
         !! key = ls !! key)
  ∧ (length (new_requests tr
               (CheckoutPage.handlePlaceOrder net (mkSigma s ls tr)).2)
     ≤ 1)%nat
  ∧ ∃ submitting' error',
      st (CheckoutPage.handlePlaceOrder net (mkSigma s ls tr)).2
      = with_error s submitting' error'.
Proof.
  destruct (has_cart s) eqn:Hcart.
  2: { rewrite CheckoutPageFacts.handlePlaceOrder_no_cart by done.
       cbn [fst snd st localStorage]. repeat split; eauto.
       unfold new_requests, new_effects. cbn [trace].
       rewrite drop_all. simpl. lia. }
  destruct (address_missing s) eqn:Haddr.
  { rewrite CheckoutPageFacts.handlePlaceOrder_no_address by done.
    cbn [fst snd st localStorage]. repeat split; eauto.
    unfold new_requests, new_effects. cbn [trace].
    rewrite drop_all. simpl. lia. }
  destruct (truthy (ls !! "token")) eqn:Htok.
  2: { rewrite CheckoutPageFacts.handlePlaceOrder_no_token by done.
       cbn [fst snd st localStorage]. repeat split; eauto.
       unfold new_requests, new_effects. cbn [trace].
       rewrite drop_app_length. simpl. lia. }
  rewrite CheckoutPageMore.handlePlaceOrder_run by done.
  cbn [fst snd st localStorage]. split; [done|]. split; [|split; [|eauto]].
  - intros key Hkey.
    destruct (CheckoutLoadSpec.classify_order net); try done;
      by rewrite lookup_delete_ne.
  - unfold new_requests, new_effects. cbn [trace].
    rewrite drop_app_length.
    destruct (CheckoutLoadSpec.classify_order net); simpl; lia.
Qed.

(** X10.  When a submission that passes the checks fails (network error,
    status not OK, unreadable body) or is refused by the server (envelope
    not a success), nothing is lost: [localStorage] is unchanged, nothing
    navigates, the submitting flag is reset and an error is shown, which is
    the server's message when the refusal carries a non-empty one. *)
Theorem placeOrder_failure_is_retryable
    (net : FetchOutcome CheckoutPage.Api.Envelope)
    (s : CheckoutPage.State) (ls : gmap string string) (tr : list Effect) :
  has_cart s = true → address_missing s = false →
  truthy (ls !! "token") = true →
  (CheckoutLoadSpec.classify_order net = CheckoutLoadSpec.RequestFailed →
   CheckoutPage.handlePlaceOrder net (mkSigma s ls tr)
   = (Fulfilled,
      mkSigma (with_error s false
                 (Some "خطا در ثبت سفارش. لطفا دوباره تلاش کنید."))
              ls
              (tr ++ [order_request s ls; EConsoleError "Error placing order:"])))
  ∧ (∀ message,
       CheckoutLoadSpec.classify_order net = CheckoutLoadSpec.Refused message →
       CheckoutPage.handlePlaceOrder net (mkSigma s ls tr)
       = (Fulfilled,
          mkSigma (with_error s false (Some (or_else message "خطا در ثبت سفارش")))
                  ls (tr ++ [order_request s ls]))
       ∧ (∀ m, message = Some m → m ≠ "" →
               CheckoutPage.error
                 (st (CheckoutPage.handlePlaceOrder net (mkSigma s ls tr)).2)
               = Some m)).
Proof.
  intros Hcart Haddr Htok.
  rewrite CheckoutPageMore.handlePlaceOrder_run by done. split.
  - by intros ->.
  - intros message ->. split; [by trace_norm|].
    intros m -> Hm. cbn [snd st]. unfold with_error.
    cbn [CheckoutPage.error]. by rewrite CartPageMore.or_else_some.
Qed.

Lemma placeOrder_failure_is_retryable_witness :
  CheckoutPage.handlePlaceOrder NetworkError
    (mkSigma (CheckoutPage.mkState [] (Some "cart-1") [] false false None ""
                CheckoutPage.cash_on_delivery "")
             {[ "token" := "jwt" ]} [])
  = (Fulfilled,
     mkSigma (with_error
                (CheckoutPage.mkState [] (Some "cart-1") [] false false None ""
                   CheckoutPage.cash_on_delivery "")
                false (Some "خطا در ثبت سفارش. لطفا دوباره تلاش کنید."))
             {[ "token" := "jwt" ]}
             ([] ++ [order_request
                       (CheckoutPage.mkState [] (Some "cart-1") [] false false
                          None "" CheckoutPage.cash_on_delivery "")
                       {[ "token" := "jwt" ]};
                     EConsoleError "Error placing order:"])).
Proof.
  apply (placeOrder_failure_is_retryable NetworkError
           (CheckoutPage.mkState [] (Some "cart-1") [] false false None ""
              CheckoutPage.cash_on_delivery "")
           {[ "token" := "jwt" ]} []);
    reflexivity.
Defined.

(** X11.  When the server answers a submission with a success envelope
    that carries no order, the guest token is already removed when the
    missing order is noticed: the handler ends with the guest token gone,
    no navigation, and the retry error shown. *)
Theorem placeOrder_success_without_order
    (net : FetchOutcome CheckoutPage.Api.Envelope)
    (s : CheckoutPage.State) (ls : gmap string string) (tr : list Effect) :
  has_cart s = true → address_missing s = false →
  truthy (ls !! "token") = true →
  CheckoutLoadSpec.classify_order net = CheckoutLoadSpec.AcceptedWithoutData →
  localStorage (CheckoutPage.handlePlaceOrder net (mkSigma s ls tr)).2
    !! "guestToken" = None
  ∧ new_navigations tr (CheckoutPage.handlePlaceOrder net (mkSigma s ls tr)).2
    = []
  ∧ CheckoutPage.error
      (st (CheckoutPage.handlePlaceOrder net (mkSigma s ls tr)).2)
    = Some "خطا در ثبت سفارش. لطفا دوباره تلاش کنید.".
Proof.
  intros Hcart Haddr Htok Hnet.
  rewrite CheckoutPageMore.handlePlaceOrder_run, Hnet by done.
  cbn [snd st localStorage]. split; [apply lookup_delete_eq|]. split; [|done].
  unfold new_navigations, new_effects. cbn [trace].
  by rewrite drop_app_length.
Qed.

Lemma placeOrder_success_without_order_witness :
  localStorage
    (CheckoutPage.handlePlaceOrder
       (Responded (mkResponse true
          (Some (CheckoutPage.Api.mkEnvelope true None None))))
       (mkSigma (CheckoutPage.mkState [] (Some "cart-1") [] false false None ""
                   CheckoutPage.cash_on_delivery "")
                {[ "token" := "jwt"; "guestToken" := "guest-1" ]} [])).2
    !! "guestToken" = None.
Proof.
  apply (placeOrder_success_without_order
           (Responded (mkResponse true
              (Some (CheckoutPage.Api.mkEnvelope true None None))))
           (CheckoutPage.mkState [] (Some "cart-1") [] false false None ""
              CheckoutPage.cash_on_delivery "")
           {[ "token" := "jwt"; "guestToken" := "guest-1" ]} []);
    reflexivity.
Defined.

(** X12.  [handlePlaceOrder] navigates to the order-confirmation view
    exactly when the checks pass, a bearer token is stored and the server
    answers with a success envelope carrying an order; the view then
    receives that order's identifier, and the guest token is gone. *)
Theorem order_success_navigation
    (net : FetchOutcome CheckoutPage.Api.Envelope)
    (s : CheckoutPage.State) (ls : gmap string string) (tr : list Effect)
    (to : string) (state : option JSON) :
  ENavigate to state
    ∈ new_navigations tr (CheckoutPage.handlePlaceOrder net (mkSigma s ls tr)).2
  ∧ to = "/order-success"
  ↔ ∃ order,
      has_cart s = true ∧ address_missing s = false
      ∧ truthy (ls !! "token") = true
      ∧ CheckoutLoadSpec.classify_order net = CheckoutLoadSpec.Placed order
      ∧ to = "/order-success"
      ∧ state = Some (JObject [("orderId", JString (CheckoutPage.Api.id order))])
      ∧ localStorage (CheckoutPage.handlePlaceOrder net (mkSigma s ls tr)).2
        = delete "guestToken" ls.
Proof.
  unfold new_navigations, new_effects.
  destruct (has_cart s) eqn:Hcart.
  2: { rewrite CheckoutPageFacts.handlePlaceOrder_no_cart by done.
       cbn [snd trace]. rewrite drop_all. simpl.
       split; [by intros [?%elem_of_nil _]|by intros (? & ? & _)]. }
  destruct (address_missing s) eqn:Haddr.
  { rewrite CheckoutPageFacts.handlePlaceOrder_no_address by done.
    cbn [snd trace]. rewrite drop_all. simpl.
    split; [by intros [?%elem_of_nil _]|by intros (? & _ & ? & _)]. }
  destruct (truthy (ls !! "token")) eqn:Htok.
  2: { rewrite CheckoutPageFacts.handlePlaceOrder_no_token by done.
       cbn [snd trace]. rewrite drop_app_length. simpl.
       split.
       - intros [Hin ->]. apply list_elem_of_singleton in Hin. discriminate.
       - by intros (? & _ & _ & ? & _). }
  rewrite CheckoutPageMore.handlePlaceOrder_run by done.
  cbn [snd trace localStorage]. rewrite drop_app_length.
  destruct (CheckoutLoadSpec.classify_order net) as [order| | |]; simpl.
  - split.
    + intros [Hin ->]. apply list_elem_of_singleton in Hin.
      injection Hin as ->. by exists order.
    + intros (o & _ & _ & _ & [= <-] & -> & -> & _).
      split; [|done]. by apply list_elem_of_singleton.
  - split; [by intros [?%elem_of_nil _]|by intros (? & _ & _ & _ & ? & _)].
  - split; [by intros [?%elem_of_nil _]|by intros (? & _ & _ & _ & ? & _)].
  - split; [by intros [?%elem_of_nil _]|by intros (? & _ & _ & _ & ? & _)].
Qed.

(** X13.  The place-order button is disabled whenever the address check
    of [handlePlaceOrder] would fail or a submission is in flight.  So a
    click on the enabled button, with a cart identifier and a stored bearer
    token, always sends the order: exactly one POST with the cart
    identifier as body, whatever the server answers. *)
Theorem placeOrder_button_guard
    (net : FetchOutcome CheckoutPage.Api.Envelope)
    (s : CheckoutPage.State) (ls : gmap string string) (tr : list Effect) :
  (CheckoutPage.placeOrder_disabled s = false →
   address_missing s = false ∧ CheckoutPage.submitting s = false)
  ∧ (CheckoutPage.placeOrder_disabled s = false →
     has_cart s = true → truthy (ls !! "token") = true →
     new_requests tr (CheckoutPage.handlePlaceOrder net (mkSigma s ls tr)).2
     = [EFetch "${API_BASE_URL}/orders" "POST"
               (order_headers (ls !! "token"))
               (Some (JObject [("cartId",
                                JString (splice (CheckoutPage.cartId s)))]))]).
Proof.
  assert (Hdis : CheckoutPage.placeOrder_disabled s = false →
                 address_missing s = false ∧ CheckoutPage.submitting s = false).
  { unfold CheckoutPage.placeOrder_disabled, address_missing.
    destruct (CheckoutPage.submitting s); [done|]. simpl.
    rewrite andb_comm. by intros ->. }
  split; [exact Hdis|]. intros Hen Hcart Htok.
  destruct (Hdis Hen) as [Haddr _].
  apply (CheckoutPageFacts.handlePlaceOrder_request net s ls tr Hcart Haddr Htok).
Qed.

Lemma placeOrder_button_guard_witness :
  new_requests []
    (CheckoutPage.handlePlaceOrder NetworkError
       (mkSigma (CheckoutPage.mkState [] (Some "cart-1") [] false false None ""
                   CheckoutPage.cash_on_delivery "")
                {[ "token" := "jwt" ]} [])).2
  = [EFetch "${API_BASE_URL}/orders" "POST"
            (order_headers (({[ "token" := "jwt" ]} : gmap string string) !! "token"))
            (Some (JObject [("cartId", JString (splice (Some "cart-1")))]))].
Proof.
  destruct (placeOrder_button_guard NetworkError
              (CheckoutPage.mkState [] (Some "cart-1") [] false false None ""
                 CheckoutPage.cash_on_delivery "")
              {[ "token" := "jwt" ]} []) as [_ H].
  apply H; reflexivity.
Defined.

Module CheckoutLoadFacts.
Import CheckoutPage CheckoutPageSpec CheckoutLoadSpec.

Lemma load_map_item_run (item : LoadApi.Item) (σ : Sigma State) :
  map_item item σ = match line item with
                    | Some y => (Normal y, σ)
                    | None => (Thrown TypeError, σ)
                    end.
Proof. unfold map_item, line. by destruct (LoadApi.product item). Qed.

(** The outcome of [loadCheckoutData], by what the two requests yield. *)
Lemma loadCheckoutData_run API_BASE_URL net_cart net_address s ls tr :
  loadCheckoutData API_BASE_URL net_cart net_address (mkSigma s ls tr)
  = (Fulfilled,
     mkSigma
       (mkState
          match cart_answer net_cart with
          | Got cart =>
              match map_items cart with
              | Replaced lines => lines
              | Kept | MapThrew => cartItems s
              end
          | _ => cartItems s
          end
          match cart_answer net_cart with
          | Got cart => Some (LoadApi.cart_id cart)
          | _ => cartId s
          end
          match address_step ls net_cart net_address with
          | Some (Got l) => l
          | _ => addresses s
          end
          false
          (submitting s)
          (if load_threw ls net_cart net_address
           then Some "خطا در بارگذاری اطلاعات" else error s)
          match address_step ls net_cart net_address with
          | Some (Got l) =>
              match find is_default l with
              | Some defaultAddr => address_id defaultAddr
              | None => selectedAddressId s
              end
          | _ => selectedAddressId s
          end
          (paymentMethod s) (notes s))
       ls
       (tr ++ [EFetch (CartPageSpec.cart_url API_BASE_URL (ls !! "guestToken"))
                      "GET" (load_headers (ls !! "token")) None]
           ++ match address_step ls net_cart net_address with
              | Some _ => [EFetch (API_BASE_URL +:+ "/address") "GET"
                                  (load_headers (ls !! "token")) None]
              | None => []
              end
           ++ (if load_threw ls net_cart net_address
               then [EConsoleError "Error loading checkout data:"] else []))).
Proof.
  unfold loadCheckoutData, load_threw, address_step, cart_threw, map_items,
    cart_answer, address_answer, load_headers, CartPageSpec.cart_url.
  destruct s as [items cid addrs ld sub err sel pm nt].
  destruct (truthy (ls !! "token")) eqn:Htok;
    destruct net_cart as [|[[] [[[] [[cartid [citems|]]|]]|]]];
    destruct net_address as [|[[] [[[] [l|]]|]]];
    eff_run2; rewrite ?Htok; eff_run2;
    try (rewrite (EffFacts.array_map_run _ line) by apply load_map_item_run;
         destruct (mapM line citems) as [mapped|]; eff_run2;
         rewrite ?Htok; eff_run2);
    try destruct (find is_default l) as [a|];
    eff_run2; by trace_norm.
Qed.

Lemma map_items_Replaced cart lines :
  map_items cart = Replaced lines →
  ∃ items,
    LoadApi.items cart = Some items
    ∧ length lines = length items
    ∧ ∀ (i : nat) (item : LoadApi.Item),
        items !! i = Some item →
        ∃ product,
          LoadApi.product item = Some product
          ∧ lines !! i = Some (of_api item product).
Proof.
  unfold map_items. destruct (LoadApi.items cart) as [items|]; [|done].
  destruct (mapM line items) as [l|] eqn:Hl; [|done]. intros [= <-].
  apply mapM_Some in Hl. exists items. split; [done|].
  split; [symmetry; by eapply Forall2_length|].
  intros i item Hi.
  destruct (Forall2_lookup_l _ _ _ _ _ Hl Hi) as (y & Hy & Hline).
  unfold line in Hline. destruct (LoadApi.product item) as [product|]; [|done].
  injection Hline as <-. by exists product.
Qed.

Lemma map_items_cases cart :
  (map_items cart = Kept ↔ LoadApi.items cart = None)
  ∧ (map_items cart = MapThrew
     ↔ ∃ items item, LoadApi.items cart = Some items ∧ item ∈ items
                     ∧ LoadApi.product item = None).
Proof.
  unfold map_items. destruct (LoadApi.items cart) as [items|].
  - destruct (mapM line items) as [l|] eqn:Hl.
    + split; [done|]. split; [done|].
      intros (items' & item & [= <-] & Hin & Hp).
      assert (Hnone : mapM line items = None); [|congruence].
      apply mapM_None, Exists_exists. exists item. split; [done|].
      unfold line. by rewrite Hp.
    + split; [done|]. split; [|done]. intros _.
      apply mapM_None, Exists_exists in Hl as (item & Hin & Hline).
      exists items, item. split; [done|]. split; [done|].
      unfold line in Hline. by destruct (LoadApi.product item).
  - split; [done|]. split; [done|]. by intros (? & ? & ? & _).
Qed.


End CheckoutLoadFacts.

(** X14.  Without a stored bearer token, [loadCheckoutData] issues only
    the cart request, with no header at all; the address request is never
    sent, and the addresses and the selected address stay as they were. *)
Theorem load_without_token
    (API_BASE_URL : string)
    (net_cart : FetchOutcome CheckoutPage.LoadApi.CartEnvelope)
    (net_address : FetchOutcome CheckoutPage.LoadApi.AddressEnvelope)
    (s : CheckoutPage.State) (ls : gmap string string) (tr : list Effect) :
  truthy (ls !! "token") = false →
  new_requests tr
    (CheckoutPage.loadCheckoutData API_BASE_URL net_cart net_address
       (mkSigma s ls tr)).2
  = [EFetch (cart_url API_BASE_URL (ls !! "guestToken")) "GET" ∅ None]
  ∧ CheckoutPage.addresses
      (st (CheckoutPage.loadCheckoutData API_BASE_URL net_cart net_address
             (mkSigma s ls tr)).2)
    = CheckoutPage.addresses s
  ∧ CheckoutPage.selectedAddressId
      (st (CheckoutPage.loadCheckoutData API_BASE_URL net_cart net_address
             (mkSigma s ls tr)).2)
    = CheckoutPage.selectedAddressId s.
Proof.
  intros Htok. rewrite CheckoutLoadFacts.loadCheckoutData_run.
  cbn [snd st CheckoutPage.addresses CheckoutPage.selectedAddressId].
  assert (Hstep : CheckoutLoadSpec.address_step ls net_cart net_address = None).
  { unfold CheckoutLoadSpec.address_step. rewrite Htok.
    by destruct (CheckoutLoadSpec.cart_threw net_cart). }
  rewrite Hstep. split; [|done].
  unfold new_requests, new_effects, CheckoutLoadSpec.load_headers.
  cbn [trace]. rewrite drop_app_length, Htok.
  by destruct (CheckoutLoadSpec.load_threw ls net_cart net_address).
Qed.

Lemma load_without_token_witness :
  CheckoutPage.addresses
    (st (CheckoutPage.loadCheckoutData "/api" NetworkError NetworkError
           CheckoutLoadSpec.initial).2)
  = [].
Proof.
  apply (load_without_token "/api" NetworkError NetworkError
           CheckoutLoadSpec.initial_state ∅ []).
  reflexivity.
Defined.




(** X17.  When the cart request of [loadCheckoutData] throws (network
    error or unreadable body), the address request is not sent, even with
    a stored bearer token; the cart, the cart identifier, the addresses and
    the selection stay as they were and the error message is set. *)
Theorem load_cart_throws
    (API_BASE_URL : string)
    (net_cart : FetchOutcome CheckoutPage.LoadApi.CartEnvelope)
    (net_address : FetchOutcome CheckoutPage.LoadApi.AddressEnvelope)
    (s : CheckoutPage.State) (ls : gmap string string) (tr : list Effect) :
  CheckoutLoadSpec.cart_answer net_cart = Threw →
  CheckoutPage.loadCheckoutData API_BASE_URL net_cart net_address
    (mkSigma s ls tr)
  = (Fulfilled,
     mkSigma
       (CheckoutPage.mkState
          (CheckoutPage.cartItems s) (CheckoutPage.cartId s)
          (CheckoutPage.addresses s) false (CheckoutPage.submitting s)
          (Some "خطا در بارگذاری اطلاعات") (CheckoutPage.selectedAddressId s)
          (CheckoutPage.paymentMethod s) (CheckoutPage.notes s))
       ls
       (tr ++ [EFetch (cart_url API_BASE_URL (ls !! "guestToken")) "GET"
                      (CheckoutLoadSpec.load_headers (ls !! "token")) None;
               EConsoleError "Error loading checkout data:"])).
Proof.
  intros Hcart. rewrite CheckoutLoadFacts.loadCheckoutData_run.
  unfold CheckoutLoadSpec.load_threw, CheckoutLoadSpec.address_step,
    CheckoutLoadSpec.cart_threw.
  by rewrite Hcart.
Qed.

Lemma load_cart_throws_witness :
  CheckoutPage.loadCheckoutData "/api" NetworkError NetworkError
    (mkSigma CheckoutLoadSpec.initial_state {[ "token" := "jwt" ]} [])
  = (Fulfilled,
     mkSigma
       (CheckoutPage.mkState [] None [] false false
          (Some "خطا در بارگذاری اطلاعات") "" CheckoutPage.cash_on_delivery "")
       {[ "token" := "jwt" ]}
       ([] ++ [EFetch (cart_url "/api"
                         (({[ "token" := "jwt" ]} : gmap string string)
                            !! "guestToken")) "GET"
                      (CheckoutLoadSpec.load_headers
                         (({[ "token" := "jwt" ]} : gmap string string)
                            !! "token")) None;
               EConsoleError "Error loading checkout data:"])).
Proof.
  apply (load_cart_throws "/api" NetworkError NetworkError
           CheckoutLoadSpec.initial_state {[ "token" := "jwt" ]} []).
  reflexivity.
Defined.

(** X18.  When [loadCheckoutData] obtains the cart, it records the cart
    identifier.  When the cart carries a list of items, each with a
    product, the local cart is replaced by it, in order and one for one,
    each line named by the product's title, or by its name when the title
    is missing or empty.  When the cart carries no list, the local cart
    stays as it was.  When an item of the list has no product, the local
    cart stays as it was too, the error message is set and the address
    request is not sent. *)
Theorem load_cart_loaded
    (API_BASE_URL : string)
    (net_cart : FetchOutcome CheckoutPage.LoadApi.CartEnvelope)
    (net_address : FetchOutcome CheckoutPage.LoadApi.AddressEnvelope)
    (s : CheckoutPage.State) (ls : gmap string string) (tr : list Effect)
    (cart : CheckoutPage.LoadApi.Cart) :
  CheckoutLoadSpec.cart_answer net_cart = Got cart →
  CheckoutPage.cartId
    (st (CheckoutPage.loadCheckoutData API_BASE_URL net_cart net_address
           (mkSigma s ls tr)).2)
  = Some (CheckoutPage.LoadApi.cart_id cart)
  ∧ (CheckoutPage.LoadApi.items cart = None →
     CheckoutPage.cartItems
       (st (CheckoutPage.loadCheckoutData API_BASE_URL net_cart net_address
              (mkSigma s ls tr)).2)
     = CheckoutPage.cartItems s)
  ∧ (∀ items,
       CheckoutPage.LoadApi.items cart = Some items →
       (∀ item, item ∈ items → CheckoutPage.LoadApi.product item ≠ None) →
       length (CheckoutPage.cartItems
                 (st (CheckoutPage.loadCheckoutData API_BASE_URL net_cart
                        net_address (mkSigma s ls tr)).2))
       = length items
       ∧ ∀ (i : nat) (item : CheckoutPage.LoadApi.Item),
           items !! i = Some item →
           ∃ product line,
             CheckoutPage.LoadApi.product item = Some product
             ∧ CheckoutPage.cartItems
                 (st (CheckoutPage.loadCheckoutData API_BASE_URL net_cart
                        net_address (mkSigma s ls tr)).2) !! i = Some line
             ∧ CheckoutPage.id line = CheckoutPage.LoadApi.item_id item
             ∧ CheckoutPage.productId line = CheckoutPage.LoadApi.id product
             ∧ CheckoutPage.price line = CheckoutPage.LoadApi.price product
             ∧ CheckoutPage.quantity line = CheckoutPage.LoadApi.quantity item
             ∧ (∀ t, CheckoutPage.LoadApi.title product = Some t → t ≠ "" →
                     CheckoutPage.name line = t)
             ∧ (CheckoutPage.LoadApi.title product = None
                ∨ CheckoutPage.LoadApi.title product = Some "" →
                CheckoutPage.name line = CheckoutPage.LoadApi.name product))
  ∧ (∀ items item,
       CheckoutPage.LoadApi.items cart = Some items →
       item ∈ items → CheckoutPage.LoadApi.product item = None →
       CheckoutPage.cartItems
         (st (CheckoutPage.loadCheckoutData API_BASE_URL net_cart net_address
                (mkSigma s ls tr)).2)
       = CheckoutPage.cartItems s
       ∧ CheckoutPage.error
           (st (CheckoutPage.loadCheckoutData API_BASE_URL net_cart net_address
                  (mkSigma s ls tr)).2)
         = Some "خطا در بارگذاری اطلاعات"
       ∧ new_requests tr
           (CheckoutPage.loadCheckoutData API_BASE_URL net_cart net_address
              (mkSigma s ls tr)).2
         = [EFetch (cart_url API_BASE_URL (ls !! "guestToken")) "GET"
                   (CheckoutLoadSpec.load_headers (ls !! "token")) None]).
Proof.
  intros Hcart. rewrite CheckoutLoadFacts.loadCheckoutData_run, Hcart.
  cbn [snd st CheckoutPage.cartId CheckoutPage.cartItems CheckoutPage.error].
  destruct (CheckoutLoadFacts.map_items_cases cart) as [Hkept Hthrew].
  split; [done|]. split; [|split].
  - intros Hnone. by rewrite (proj2 Hkept Hnone).
  - intros items Hitems Hall.
    destruct (CheckoutLoadSpec.map_items cart) as [l| |] eqn:Hmap.
    + destruct (CheckoutLoadFacts.map_items_Replaced _ _ Hmap)
        as (items' & Hitems' & Hlen & Hlook).
      rewrite Hitems in Hitems'. injection Hitems' as <-.
      split; [done|]. intros i item Hi.
      destruct (Hlook i item Hi) as (product & Hp & Hline).
      exists product, (CheckoutPage.of_api item product).
      split; [done|]. split; [done|].
      unfold CheckoutPage.of_api. cbn [CheckoutPage.id CheckoutPage.productId
        CheckoutPage.price CheckoutPage.quantity CheckoutPage.name].
      repeat split.
      * intros t -> Ht. by apply CartPageMore.or_else_some.
      * by intros [-> | ->].
    + rewrite (proj1 Hkept eq_refl) in Hitems. discriminate Hitems.
    + destruct (proj1 Hthrew eq_refl) as (items' & item & Hitems' & Hin & Hp).
      rewrite Hitems in Hitems'. injection Hitems' as <-.
      by destruct (Hall item Hin).
  - intros items item Hitems Hin Hp.
    assert (Hmap : CheckoutLoadSpec.map_items cart = CheckoutLoadSpec.MapThrew).
    { apply Hthrew. by exists items, item. }
    assert (Hct : CheckoutLoadSpec.cart_threw net_cart = true).
    { unfold CheckoutLoadSpec.cart_threw. by rewrite Hcart, Hmap. }
    unfold CheckoutLoadSpec.load_threw, CheckoutLoadSpec.address_step.
    rewrite Hmap, Hct. cbn [orb]. split; [done|]. split; [done|].
    unfold new_requests, new_effects. cbn [trace].
    by rewrite drop_app_length.
Qed.

Lemma load_cart_loaded_witness :
  (∃ line,
     CheckoutPage.cartItems
       (st (CheckoutPage.loadCheckoutData "/api"
              (Responded (mkResponse true
                 (Some (CheckoutPage.LoadApi.mkCartEnvelope true
                    (Some (CheckoutPage.LoadApi.mkCart "cart-1"
                       (Some [CheckoutPage.LoadApi.mkItem "i1" (JS.lit 2)
                                (Some (CheckoutPage.LoadApi.mkProduct "p1"
                                         (Some "") "Seeds" (JS.lit 150000)))])))))))
              NetworkError CheckoutLoadSpec.initial).2) !! 0%nat
     = Some line
     ∧ CheckoutPage.name line = "Seeds"
     ∧ CheckoutPage.quantity line = JS.lit 2)
  ∧ CheckoutPage.cartId
      (st (CheckoutPage.loadCheckoutData "/api"
             (Responded (mkResponse true
                (Some (CheckoutPage.LoadApi.mkCartEnvelope true
                   (Some (CheckoutPage.LoadApi.mkCart "cart-1"
                      (Some [CheckoutPage.LoadApi.mkItem "i1" (JS.lit 2)
                               (Some (CheckoutPage.LoadApi.mkProduct "p1"
                                        (Some "") "Seeds" (JS.lit 150000)))])))))))
             NetworkError CheckoutLoadSpec.initial).2)
    = Some "cart-1".
Proof.
  destruct (load_cart_loaded "/api"
              (Responded (mkResponse true
                 (Some (CheckoutPage.LoadApi.mkCartEnvelope true
                    (Some (CheckoutPage.LoadApi.mkCart "cart-1"
                       (Some [CheckoutPage.LoadApi.mkItem "i1" (JS.lit 2)
                                (Some (CheckoutPage.LoadApi.mkProduct "p1"
                                         (Some "") "Seeds" (JS.lit 150000)))])))))))
              NetworkError CheckoutLoadSpec.initial_state ∅ []
              (CheckoutPage.LoadApi.mkCart "cart-1"
                 (Some [CheckoutPage.LoadApi.mkItem "i1" (JS.lit 2)
                          (Some (CheckoutPage.LoadApi.mkProduct "p1"
                                   (Some "") "Seeds" (JS.lit 150000)))])))
    as (Hid & _ & Hitems & _); [reflexivity|].
  split; [|exact Hid].
  destruct (Hitems _ eq_refl) as [_ Hlook].
  { intros item Hin. apply list_elem_of_singleton in Hin. by rewrite Hin. }
  destruct (Hlook 0%nat _ eq_refl)
    as (product & line & Hp & Hline & _ & _ & _ & Hq & _ & Hname).
  injection Hp as <-. exists line.
  split; [exact Hline|]. split; [|exact Hq].
  apply Hname. by right.
Defined.

(** X19.  On a freshly mounted checkout page (no cart identifier, no
    item), if [loadCheckoutData] does not obtain the cart, the page shows
    the empty-cart card, not the checkout form; and a call of
    [handlePlaceOrder] in that state sends nothing and reports that the
    cart was not found. *)
Theorem load_failure_blocks_order
    (API_BASE_URL : string)
    (net_cart : FetchOutcome CheckoutPage.LoadApi.CartEnvelope)
    (net_address : FetchOutcome CheckoutPage.LoadApi.AddressEnvelope)
    (net_order : FetchOutcome CheckoutPage.Api.Envelope)
    (s : CheckoutPage.State) (ls : gmap string string) (tr : list Effect) :
  CheckoutPage.cartId s = None → CheckoutPage.cartItems s = [] →
  (∀ cart, CheckoutLoadSpec.cart_answer net_cart ≠ Got cart) →
  CheckoutPage.render
    (st (CheckoutPage.loadCheckoutData API_BASE_URL net_cart net_address
           (mkSigma s ls tr)).2)
  = CheckoutPage.EmptyCartView
  ∧ new_requests
      (trace (CheckoutPage.loadCheckoutData API_BASE_URL net_cart net_address
                (mkSigma s ls tr)).2)
      (CheckoutPage.handlePlaceOrder net_order
         (CheckoutPage.loadCheckoutData API_BASE_URL net_cart net_address
            (mkSigma s ls tr)).2).2
    = []
  ∧ CheckoutPage.error
      (st (CheckoutPage.handlePlaceOrder net_order
             (CheckoutPage.loadCheckoutData API_BASE_URL net_cart net_address
                (mkSigma s ls tr)).2).2)
    = Some "سبد خرید یافت نشد".
Proof.
  intros Hcid Hitems Hcart.
  rewrite CheckoutLoadFacts.loadCheckoutData_run. cbn [snd st trace].
  assert (Hc : CheckoutLoadSpec.cart_answer net_cart = Ignored
               ∨ CheckoutLoadSpec.cart_answer net_cart = Threw).
  { destruct (CheckoutLoadSpec.cart_answer net_cart) as [cart| |]; eauto.
    by destruct (Hcart cart). }
  assert (Hitems' :
    match CheckoutLoadSpec.cart_answer net_cart with
    | Got cart => match CheckoutLoadSpec.map_items cart with
                  | CheckoutLoadSpec.Replaced lines => lines
                  | _ => CheckoutPage.cartItems s
                  end
    | _ => CheckoutPage.cartItems s
    end = []) by (by destruct Hc as [-> | ->]).
  assert (Hcid' :
    match CheckoutLoadSpec.cart_answer net_cart with
    | Got cart => Some (CheckoutPage.LoadApi.cart_id cart)
    | _ => CheckoutPage.cartId s
    end = None) by (by destruct Hc as [-> | ->]).
  rewrite Hitems', Hcid'. split; [done|].
  rewrite CheckoutPageFacts.handlePlaceOrder_no_cart by done.
  cbn [snd st trace]. split; [|done].
  unfold new_requests, new_effects. cbn [trace]. by rewrite drop_all.
Qed.

Lemma load_failure_blocks_order_witness :
  CheckoutPage.render
    (st (CheckoutPage.loadCheckoutData "/api" NetworkError NetworkError
           CheckoutLoadSpec.initial).2)
  = CheckoutPage.EmptyCartView.
Proof.
  apply (load_failure_blocks_order "/api" NetworkError NetworkError NetworkError
           CheckoutLoadSpec.initial_state ∅ []); try reflexivity.
  intros cart. discriminate.
Defined.

(** X20.  Loading then ordering: when [loadCheckoutData] obtains a cart
    with a non-empty identifier whose items, if any, all have a product, a
    bearer token is stored, and the address request yields no saved
    address or a default address with a non-empty identifier, a following
    call of [handlePlaceOrder] sends exactly one POST whose body is the
    cart identifier that the server gave. *)
Theorem load_then_place_order
    (API_BASE_URL : string)
    (net_cart : FetchOutcome CheckoutPage.LoadApi.CartEnvelope)
    (net_address : FetchOutcome CheckoutPage.LoadApi.AddressEnvelope)
    (net_order : FetchOutcome CheckoutPage.Api.Envelope)
    (s : CheckoutPage.State) (ls : gmap string string) (tr : list Effect)
    (cart : CheckoutPage.LoadApi.Cart) (l : list CheckoutPage.Address) :
  CheckoutLoadSpec.cart_answer net_cart = Got cart →
  CheckoutLoadSpec.map_items cart ≠ CheckoutLoadSpec.MapThrew →
  CheckoutPage.LoadApi.cart_id cart ≠ "" →
  truthy (ls !! "token") = true →
  CheckoutLoadSpec.address_answer net_address = Got l →
  (l = [] ∨ ∃ a, find CheckoutPage.is_default l = Some a
                 ∧ CheckoutPage.address_id a ≠ "") →
  new_requests
    (trace (CheckoutPage.loadCheckoutData API_BASE_URL net_cart net_address
              (mkSigma s ls tr)).2)
    (CheckoutPage.handlePlaceOrder net_order
       (CheckoutPage.loadCheckoutData API_BASE_URL net_cart net_address
          (mkSigma s ls tr)).2).2
  = [EFetch "${API_BASE_URL}/orders" "POST" (order_headers (ls !! "token"))
            (Some (JObject [("cartId",
                             JString (CheckoutPage.LoadApi.cart_id cart))]))].
Proof.
  intros Hcart Hmap Hid Htok Haddr Hl.
  rewrite CheckoutLoadFacts.loadCheckoutData_run.
  assert (Hstep : CheckoutLoadSpec.address_step ls net_cart net_address
                  = Some (Got l)).
  { unfold CheckoutLoadSpec.address_step, CheckoutLoadSpec.cart_threw.
    rewrite Hcart, Htok, Haddr.
    by destruct (CheckoutLoadSpec.map_items cart). }
  rewrite Hcart, Hstep. cbn [snd trace].
  match goal with
  | |- new_requests ?tr' (CheckoutPage.handlePlaceOrder _ (mkSigma ?s' _ _)).2 = _ =>
      pose proof (CheckoutPageFacts.handlePlaceOrder_request net_order s' ls tr')
        as Hreq
  end.
  unfold requests_since, order_request in Hreq.
  cbn [CheckoutPage.cartId splice default] in Hreq.
  apply Hreq; [|..|done].
  - unfold has_cart. cbn [CheckoutPage.cartId truthy].
    by apply bool_decide_eq_true.
  - unfold address_missing.
    cbn [CheckoutPage.selectedAddressId CheckoutPage.addresses].
    destruct Hl as [-> | (a & -> & Ha)]; [by rewrite andb_false_r|].
    unfold truthy_string. by rewrite bool_decide_eq_true_2.
Qed.

Lemma load_then_place_order_witness :
  new_requests
    (trace (CheckoutPage.loadCheckoutData "/api"
              (Responded (mkResponse true
                 (Some (CheckoutPage.LoadApi.mkCartEnvelope true
                    (Some (CheckoutPage.LoadApi.mkCart "cart-1" None))))))
              (Responded (mkResponse true
                 (Some (CheckoutPage.LoadApi.mkAddressEnvelope true (Some [])))))
              (mkSigma CheckoutLoadSpec.initial_state {[ "token" := "jwt" ]} [])).2)
    (CheckoutPage.handlePlaceOrder NetworkError
       (CheckoutPage.loadCheckoutData "/api"
          (Responded (mkResponse true
             (Some (CheckoutPage.LoadApi.mkCartEnvelope true
                (Some (CheckoutPage.LoadApi.mkCart "cart-1" None))))))
          (Responded (mkResponse true
             (Some (CheckoutPage.LoadApi.mkAddressEnvelope true (Some [])))))
          (mkSigma CheckoutLoadSpec.initial_state {[ "token" := "jwt" ]} [])).2).2
  = [EFetch "${API_BASE_URL}/orders" "POST"
            (order_headers (({[ "token" := "jwt" ]} : gmap string string) !! "token"))
            (Some (JObject [("cartId", JString "cart-1")]))].
Proof.
  apply (load_then_place_order "/api" _ _ NetworkError
           CheckoutLoadSpec.initial_state {[ "token" := "jwt" ]} []
           (CheckoutPage.LoadApi.mkCart "cart-1" None) []);
    try reflexivity; [discriminate|discriminate|by left].
Defined.

(** ** The featured products section *)

Module FeaturedProductsFacts.
Import FeaturedProductsSection FeaturedProductsSpec.

Lemma fetchProducts_run API_BASE_URL net random s ls tr :
  fetchProducts API_BASE_URL net random (mkSigma s ls tr)
  = (Fulfilled,
     mkSigma
       (mkState
          match products_answer net with
          | Some l => imap (λ i p, of_api (random i) p) l
          | None => fallbackProducts
          end
          false)
       ls
       (tr ++ [EFetch (API_BASE_URL +:+ "/products?limit=8") "GET" ∅ None]
           ++ match net with
              | NetworkError => [EConsoleError "Error fetching featured products:"]
              | Responded r =>
                  if ok r then
                    match body r with
                    | Some _ => []
                    | None => [EConsoleError "Error fetching featured products:"]
                    end
                  else []
              end)).
Proof.
  unfold fetchProducts, products_answer. destruct s as [ps ld].
  destruct net as [|[[] [[[] [l|]]|]]]; eff_run2; by trace_norm.
Qed.


End FeaturedProductsFacts.

(** X21.  Whatever the network answers, [fetchProducts] never rejects,
    ends loading, leaves [localStorage] as it was and issues exactly one
    request, a GET of [/products?limit=8] without headers.  Unless the
    server answers with a success envelope holding a list, the products
    are the four fallback products; so the section is empty only when the
    server itself returned an empty list. *)
Theorem fetchProducts_fallback
    (API_BASE_URL : string)
    (net : FetchOutcome FeaturedProductsSection.Api.Envelope)
    (random : nat → JS.number)
    (s : FeaturedProductsSection.State) (ls : gmap string string)
    (tr : list Effect) :
  (FeaturedProductsSection.fetchProducts API_BASE_URL net random
     (mkSigma s ls tr)).1 = Fulfilled
  ∧ FeaturedProductsSection.loading
      (st (FeaturedProductsSection.fetchProducts API_BASE_URL net random
             (mkSigma s ls tr)).2) = false
  ∧ localStorage
      (FeaturedProductsSection.fetchProducts API_BASE_URL net random
         (mkSigma s ls tr)).2 = ls
  ∧ new_requests tr
      (FeaturedProductsSection.fetchProducts API_BASE_URL net random
         (mkSigma s ls tr)).2
    = [EFetch (API_BASE_URL +:+ "/products?limit=8") "GET" ∅ None]
  ∧ (FeaturedProductsSpec.products_answer net = None →
     FeaturedProductsSection.products
       (st (FeaturedProductsSection.fetchProducts API_BASE_URL net random
              (mkSigma s ls tr)).2)
     = FeaturedProductsSection.fallbackProducts)
  ∧ length FeaturedProductsSection.fallbackProducts = 4%nat
  ∧ (FeaturedProductsSection.products
       (st (FeaturedProductsSection.fetchProducts API_BASE_URL net random
              (mkSigma s ls tr)).2) = []
     ↔ FeaturedProductsSpec.products_answer net = Some []).
Proof.
  rewrite FeaturedProductsFacts.fetchProducts_run.
  cbn [fst snd st localStorage FeaturedProductsSection.loading
       FeaturedProductsSection.products].
  split; [done|]. split; [done|]. split; [done|]. split; [|split; [|split]].
  - unfold new_requests, new_effects. cbn [trace]. rewrite drop_app_length.
    by destruct net as [|[[] [b|]]].
  - by intros ->.
  - done.
  - destruct (FeaturedProductsSpec.products_answer net) as [[|p l]|]; done.
Qed.



(** ** The product card *)

Module ProductCardFacts.
Import ProductCard ProductCardSpec.

Lemma append_assoc (a b c : string) : (a +:+ b) +:+ c = a +:+ (b +:+ c).
Proof.
  induction a as [|x a IH]; [done|].
  change (String x ((a +:+ b) +:+ c) = String x (a +:+ (b +:+ c))).
  by rewrite IH.
Qed.

Section Runs.
Variable API_BASE_URL : string.
Context {B : Type}.

Lemma handleAddToCart_out_of_stock p
    (net_cart : FetchOutcome Api.Envelope) (net_add : FetchOutcome B) s ls tr :
  inStock_of p = false →
  handleAddToCart API_BASE_URL p net_cart net_add (mkSigma s ls tr)
  = (Fulfilled,
     mkSigma (mkState (isAddingToCart s) (toasts s ++ [out_of_stock_toast]))
             ls tr).
Proof.
  intros Hstock. unfold handleAddToCart. rewrite Hstock.
  destruct s as [adding ts]. by eff_run2.
Qed.

Lemma handleAddToCart_run p
    (net_cart : FetchOutcome Api.Envelope) (net_add : FetchOutcome B) s ls tr :
  inStock_of p = true →
  handleAddToCart API_BASE_URL p net_cart net_add (mkSigma s ls tr)
  = (Fulfilled,
     match cart_answer net_cart with
     | None =>
         mkSigma (mkState false (toasts s ++ [failure_toast])) ls
                 (tr ++ [EFetch (lookup_url ls) "GET"
                                (CartPage.base_headers (ls !! "token")) None;
                         EConsoleError "Error adding to cart:"])
     | Some cart =>
         mkSigma
           (mkState false
              (toasts s ++ [if request_ok net_add then success_toast p
                            else failure_toast]))
           (if issues_guest_token ls cart
            then <[ "guestToken" := splice (Api.guestToken cart) ]> ls
            else ls)
           (tr ++ [EFetch (lookup_url ls) "GET"
                          (CartPage.base_headers (ls !! "token")) None;
                   add_request API_BASE_URL p ls cart]
               ++ (if request_ok net_add then []
                   else [EConsoleError "Error adding to cart:"]))
     end).
Proof.
  intros Hstock.
  unfold handleAddToCart, cart_answer, add_request, guest_after, lookup_url,
    issues_guest_token, CartPage.base_headers, success_toast, failure_toast.
  rewrite Hstock. destruct s as [adding ts].
  destruct (truthy (ls !! "token")) eqn:Htok;
    destruct (truthy (ls !! "guestToken")) eqn:Hguest;
    destruct net_cart as [|[[] [[[] [[cid cg]|]]|]]];
    eff_run2; rewrite ?Htok, ?Hguest; eff_run2;
    try (destruct (truthy cg) eqn:Hcg; eff_run2; rewrite ?Htok, ?Hguest, ?Hcg;
         eff_run2);
    try (destruct net_add as [|[[] b]]; eff_run2);
    rewrite ?Htok, ?Hguest, ?Hcg; cbv iota;
    rewrite <- ?append_assoc; by trace_norm.
Qed.
End Runs.

End ProductCardFacts.

(** X23.  On a card that is out of stock, [handleAddToCart] sends
    nothing: it raises one destructive toast and returns, leaving
    [localStorage] and the adding flag as they were. *)
Theorem add_to_cart_out_of_stock
    (API_BASE_URL : string) {B : Type} (p : ProductCard.Props)
    (net_cart : FetchOutcome ProductCard.Api.Envelope) (net_add : FetchOutcome B)
    (s : ProductCard.State) (ls : gmap string string) (tr : list Effect) :
  ProductCard.inStock p = Some false →
  ProductCard.handleAddToCart API_BASE_URL p net_cart net_add (mkSigma s ls tr)
  = (Fulfilled,
     mkSigma
       (ProductCard.mkState (ProductCard.isAddingToCart s)
          (ProductCard.toasts s
           ++ [ProductCard.mkToast "خطا" "این محصول ناموجود است"
                                   (Some "destructive")]))
       ls tr).
Proof.
  intros Hstock. apply ProductCardFacts.handleAddToCart_out_of_stock.
  unfold ProductCard.inStock_of. by rewrite Hstock.
Qed.

Lemma add_to_cart_out_of_stock_witness :
  ProductCard.handleAddToCart "/api"
    (ProductCard.mkProps "1" "a" (JS.lit 5) None "" "" None (Some false))
    NetworkError (@NetworkError unit)
    (mkSigma (ProductCard.mkState false []) ∅ [])
  = (Fulfilled,
     mkSigma
       (ProductCard.mkState false
          ([] ++ [ProductCard.mkToast "خطا" "این محصول ناموجود است"
                                      (Some "destructive")]))
       ∅ []).
Proof.
  apply (add_to_cart_out_of_stock "/api"
           (ProductCard.mkProps "1" "a" (JS.lit 5) None "" "" None (Some false))
           NetworkError (@NetworkError unit) (ProductCard.mkState false []) ∅ []).
  reflexivity.
Defined.

(** X24.  On a card that is in stock (also when the prop is not given),
    whatever the network answers, [handleAddToCart] never rejects, resets
    the adding flag and raises exactly one toast: the success toast when
    the cart lookup yields a cart and the add request succeeds, the
    destructive failure toast otherwise.  The add request is sent exactly
    when the lookup yields a cart. *)
Theorem add_to_cart_outcome
    (API_BASE_URL : string) {B : Type} (p : ProductCard.Props)
    (net_cart : FetchOutcome ProductCard.Api.Envelope) (net_add : FetchOutcome B)
    (s : ProductCard.State) (ls : gmap string string) (tr : list Effect) :
  ProductCard.inStock p ≠ Some false →
  (ProductCard.handleAddToCart API_BASE_URL p net_cart net_add
     (mkSigma s ls tr)).1 = Fulfilled
  ∧ ProductCard.isAddingToCart
      (st (ProductCard.handleAddToCart API_BASE_URL p net_cart net_add
             (mkSigma s ls tr)).2) = false
  ∧ ProductCard.toasts
      (st (ProductCard.handleAddToCart API_BASE_URL p net_cart net_add
             (mkSigma s ls tr)).2)
    = (ProductCard.toasts s
       ++ [match ProductCardSpec.cart_answer net_cart with
           | Some _ =>
               if request_ok net_add then ProductCardSpec.success_toast p
               else ProductCardSpec.failure_toast
           | None => ProductCardSpec.failure_toast
           end])%list
  ∧ new_requests tr
      (ProductCard.handleAddToCart API_BASE_URL p net_cart net_add
         (mkSigma s ls tr)).2
    = EFetch (ProductCardSpec.lookup_url ls) "GET"
             (CartPage.base_headers (ls !! "token")) None
      :: match ProductCardSpec.cart_answer net_cart with
         | Some cart => [ProductCardSpec.add_request API_BASE_URL p ls cart]
         | None => []
         end.
Proof.
  intros Hstock.
  assert (Hin : ProductCard.inStock_of p = true).
  { unfold ProductCard.inStock_of.
    by destruct (ProductCard.inStock p) as [[]|]. }
  rewrite ProductCardFacts.handleAddToCart_run by done. cbn [fst snd].
  split; [done|].
  unfold new_requests, new_effects.
  destruct (ProductCardSpec.cart_answer net_cart) as [cart|];
    cbn [st trace ProductCard.isAddingToCart ProductCard.toasts];
    rewrite drop_app_length; repeat split.
  by destruct (request_ok net_add).
Qed.

Lemma add_to_cart_outcome_witness :
  ProductCard.isAddingToCart
    (st (ProductCard.handleAddToCart "/api"
           (ProductCard.mkProps "1" "a" (JS.lit 5) None "" "" None None)
           NetworkError (@NetworkError unit)
           (mkSigma (ProductCard.mkState false []) ∅ [])).2)
  = false.
Proof.
  apply (add_to_cart_outcome "/api"
           (ProductCard.mkProps "1" "a" (JS.lit 5) None "" "" None None)
           NetworkError (@NetworkError unit) (ProductCard.mkState false []) ∅ []).
  discriminate.
Defined.

(** X25.  [handleAddToCart] never changes an entry of [localStorage]
    other than [guestToken], and writes [guestToken] only for an anonymous
    visitor without a stored guest token to whom the server issues one: a
    stored bearer token is never touched, a stored non-empty guest token is
    never overwritten, and a visitor with a bearer token never gets a guest
    token. *)
Theorem add_to_cart_storage
    (API_BASE_URL : string) {B : Type} (p : ProductCard.Props)
    (net_cart : FetchOutcome ProductCard.Api.Envelope) (net_add : FetchOutcome B)
    (s : ProductCard.State) (ls : gmap string string) (tr : list Effect) :
  (∀ key, key ≠ "guestToken" →
     localStorage
       (ProductCard.handleAddToCart API_BASE_URL p net_cart net_add
          (mkSigma s ls tr)).2 !! key = ls !! key)
  ∧ (truthy (ls !! "token") = true ∨ truthy (ls !! "guestToken") = true →
     localStorage
       (ProductCard.handleAddToCart API_BASE_URL p net_cart net_add
          (mkSigma s ls tr)).2 = ls)
  ∧ (localStorage
       (ProductCard.handleAddToCart API_BASE_URL p net_cart net_add
          (mkSigma s ls tr)).2 ≠ ls →
     ∃ cart token,
       ProductCard.inStock p ≠ Some false
       ∧ ProductCardSpec.cart_answer net_cart = Some cart
       ∧ ProductCard.Api.guestToken cart = Some token ∧ token ≠ ""
       ∧ localStorage
           (ProductCard.handleAddToCart API_BASE_URL p net_cart net_add
              (mkSigma s ls tr)).2 = <[ "guestToken" := token ]> ls).
Proof.
  destruct (ProductCard.inStock_of p) eqn:Hin.
  2: { rewrite ProductCardFacts.handleAddToCart_out_of_stock by done.
       cbn [snd localStorage].
       split; [done|]. split; [done|]. intros Hne. by destruct Hne. }
  assert (Hstock : ProductCard.inStock p ≠ Some false).
  { unfold ProductCard.inStock_of in Hin. by intros Heq; rewrite Heq in Hin. }
  rewrite ProductCardFacts.handleAddToCart_run by done. cbn [snd].
  destruct (ProductCardSpec.cart_answer net_cart) as [cart|];
    cbn [localStorage];
    [|split; [done|]; split; [done|]; intros Hne; by destruct Hne].
  unfold ProductCardSpec.issues_guest_token.
  destruct (truthy (ls !! "token")), (truthy (ls !! "guestToken")),
    (truthy (ProductCard.Api.guestToken cart)) eqn:Hg;
    cbn [negb andb];
    try (solve [split; [done|]; split; [done|]; intros Hne; by destruct Hne]).
  split; [by intros key Hkey; rewrite lookup_insert_ne|].
  split; [by intros [|]|]. intros _.
  destruct (ProductCard.Api.guestToken cart) as [token|] eqn:Htoken; [|done].
  exists cart, token. repeat split; try done.
  unfold truthy in Hg. by apply bool_decide_eq_true in Hg.
Qed.

Lemma add_to_cart_storage_witness :
  localStorage
    (ProductCard.handleAddToCart "/api"
       (ProductCard.mkProps "1" "a" (JS.lit 5) None "" "" None None)
       (Responded (mkResponse true
          (Some (ProductCard.Api.mkEnvelope true
                   (Some (ProductCard.Api.mkCart "c1" (Some "g-new")))))))
       (@NetworkError unit)
       (mkSigma (ProductCard.mkState false []) {[ "token" := "jwt" ]} [])).2
  = {[ "token" := "jwt" ]}.
Proof.
  destruct (add_to_cart_storage "/api"
              (ProductCard.mkProps "1" "a" (JS.lit 5) None "" "" None None)
              (Responded (mkResponse true
                 (Some (ProductCard.Api.mkEnvelope true
                          (Some (ProductCard.Api.mkCart "c1" (Some "g-new")))))))
              (@NetworkError unit) (ProductCard.mkState false [])
              {[ "token" := "jwt" ]} []) as (_ & Hkeep & _).
  apply Hkeep. left. reflexivity.
Defined.

(** X26.  When the cart lookup of [handleAddToCart] yields a cart, the two
    requests are a GET of the text ["${API_BASE_URL}/cart"], whatever
    [API_BASE_URL] is, and a POST of [{productId, quantity: 1}] to
    [API_BASE_URL/cart/<id of that cart>/items].  For a visitor without a
    bearer token, the guest token is appended as [?guestToken=]: the
    stored one to both URLs, or one just issued by the server to the
    second URL only; with a bearer token no guest token is sent. *)
Theorem add_to_cart_requests
    (API_BASE_URL : string) {B : Type} (p : ProductCard.Props)
    (net_cart : FetchOutcome ProductCard.Api.Envelope) (net_add : FetchOutcome B)
    (s : ProductCard.State) (ls : gmap string string) (tr : list Effect)
    (cart : ProductCard.Api.Cart) :
  ProductCard.inStock p ≠ Some false →
  ProductCardSpec.cart_answer net_cart = Some cart →
  ∃ url1 url2,
    new_requests tr
      (ProductCard.handleAddToCart API_BASE_URL p net_cart net_add
         (mkSigma s ls tr)).2
    = [EFetch url1 "GET" (CartPage.base_headers (ls !! "token")) None;
       EFetch url2 "POST" (CartPage.base_headers (ls !! "token"))
              (Some (JObject [("productId", JString (ProductCard.id p));
                              ("quantity", JNumber (JS.lit 1))]))]
    ∧ (truthy (ls !! "token") = true →
       url1 = "${API_BASE_URL}/cart"
       ∧ url2 = API_BASE_URL +:+ "/cart/" +:+ ProductCard.Api.id cart +:+ "/items")
    ∧ (truthy (ls !! "token") = false → truthy (ls !! "guestToken") = true →
       url1 = "${API_BASE_URL}/cart?guestToken=" +:+ splice (ls !! "guestToken")
       ∧ url2 = API_BASE_URL +:+ "/cart/" +:+ ProductCard.Api.id cart +:+ "/items"
                +:+ "?guestToken=" +:+ splice (ls !! "guestToken"))
    ∧ (truthy (ls !! "token") = false → truthy (ls !! "guestToken") = false →
       url1 = "${API_BASE_URL}/cart"
       ∧ (truthy (ProductCard.Api.guestToken cart) = true →
          url2 = API_BASE_URL +:+ "/cart/" +:+ ProductCard.Api.id cart +:+ "/items"
                 +:+ "?guestToken=" +:+ splice (ProductCard.Api.guestToken cart))
       ∧ (truthy (ProductCard.Api.guestToken cart) = false →
          url2 = API_BASE_URL +:+ "/cart/" +:+ ProductCard.Api.id cart
                 +:+ "/items")).
Proof.
  intros Hstock Hcart.
  assert (Hin : ProductCard.inStock_of p = true).
  { unfold ProductCard.inStock_of.
    by destruct (ProductCard.inStock p) as [[]|]. }
  rewrite ProductCardFacts.handleAddToCart_run, Hcart by done. cbn [snd].
  unfold new_requests, new_effects. cbn [trace]. rewrite drop_app_length.
  unfold ProductCardSpec.add_request.
  eexists _, _. split; [by destruct (request_ok net_add)|].
  unfold ProductCardSpec.lookup_url, ProductCardSpec.guest_after,
    ProductCardSpec.issues_guest_token.
  destruct (truthy (ls !! "token")), (truthy (ls !! "guestToken")) eqn:Hg,
    (truthy (ProductCard.Api.guestToken cart)) eqn:Hcg;
    cbn [negb andb]; rewrite ?Hg, ?Hcg; cbn [negb andb]; repeat split; done.
Qed.

Lemma add_to_cart_requests_witness :
  ∃ url1 url2,
    new_requests []
      (ProductCard.handleAddToCart "/api"
         (ProductCard.mkProps "1" "a" (JS.lit 5) None "" "" None None)
         (Responded (mkResponse true
            (Some (ProductCard.Api.mkEnvelope true
                     (Some (ProductCard.Api.mkCart "c1" (Some "g-new")))))))
         (@NetworkError unit)
         (mkSigma (ProductCard.mkState false []) ∅ [])).2
    = [EFetch url1 "GET" (CartPage.base_headers ((∅ : gmap string string) !! "token")) None;
       EFetch url2 "POST" (CartPage.base_headers ((∅ : gmap string string) !! "token"))
              (Some (JObject [("productId", JString "1");
                              ("quantity", JNumber (JS.lit 1))]))]
    ∧ url1 = "${API_BASE_URL}/cart"
    ∧ url2 = "/api/cart/c1/items?guestToken=g-new".
Proof.
  destruct (add_to_cart_requests "/api"
              (ProductCard.mkProps "1" "a" (JS.lit 5) None "" "" None None)
              (Responded (mkResponse true
                 (Some (ProductCard.Api.mkEnvelope true
                          (Some (ProductCard.Api.mkCart "c1" (Some "g-new")))))))
              (@NetworkError unit) (ProductCard.mkState false []) ∅ []
              (ProductCard.Api.mkCart "c1" (Some "g-new")))
    as (url1 & url2 & Hreq & _ & _ & Hanon); [discriminate|reflexivity|].
  exists url1, url2. split; [exact Hreq|].
  destruct Hanon as (-> & Hissued & _); [reflexivity|reflexivity|].
  split; [reflexivity|]. rewrite Hissued; reflexivity.
Defined.

(** ** The discount of a product card *)

Module Binary64Sign.
Import Binary64 Binary64Order ProductCardSpec.
#[local] Open Scope Z_scope.

Lemma binary_round_aux_nonpositive m e l :
  0 ≤ m → nonpositive (binary_round_aux 53 1024 true m e l).
Proof.
  intros Hm. unfold binary_round_aux.
  pose proof (shr_fexp_bound m e l Hm) as H1.
  destruct (shr_fexp 53 1024 m e l) as [mrs1 e1]. cbn [fst] in H1.
  pose proof (shr_fexp_bound
                (round_nearest_even (shr_m mrs1) (loc_of_shr_record mrs1)) e1
                loc_Exact) as H2.
  destruct (shr_fexp 53 1024 _ e1 loc_Exact) as [mrs2 e2]. cbn [fst] in H2.
  destruct (shr_m mrs2) as [|p|p]; [done| |].
  - by destruct (e2 <=? 1024 - 53).
  - exfalso. assert (0 ≤ Zneg p); [|lia].
    apply H2, round_nearest_even_nonneg. lia.
Qed.

Lemma binary_round_nonpositive m e :
  nonpositive (binary_round 53 1024 true m e).
Proof.
  unfold binary_round. destruct (shl_align m e _) as [mz ez].
  by apply binary_round_aux_nonpositive.
Qed.

Lemma binary_normalize_nonpositive z e s :
  z ≤ 0 → nonpositive (binary_normalize 53 1024 z e s).
Proof.
  intros Hz. destruct z as [|p|p]; [done|lia|].
  apply binary_round_nonpositive.
Qed.

(** A smaller integer minus a larger one. *)
Lemma sub_nonpositive a b :
  0 < a → a ≤ b → b < 2 ^ 53 → nonpositive (JS.lit a - JS.lit b)%js.
Proof.
  intros Ha Hab Hb.
  assert (Ha' : 0 < a < 2 ^ 53) by lia.
  assert (Hb' : 0 < b < 2 ^ 53) by lia.
  destruct (canon_scaled a Ha') as [Hma Hea].
  destruct (canon_scaled b Hb') as [Hmb Heb].
  rewrite (lit_pos a), (lit_pos b) by lia.
  unfold JS.sub, JS.canon. cbn [SFsub cond_Zopp].
  set (ez := Z.min (JS.canon_e a) (JS.canon_e b)).
  rewrite !shl_align_scaled, Hma, Hmb by lia.
  assert (Hdiff : a * 2 ^ (- JS.canon_e a) * 2 ^ (JS.canon_e a - ez)
                  - b * 2 ^ (- JS.canon_e b) * 2 ^ (JS.canon_e b - ez)
                  = (a - b) * 2 ^ (- ez)).
  { rewrite <- !Z.mul_assoc, <- !Z.pow_add_r by lia.
    replace (- JS.canon_e a + (JS.canon_e a - ez)) with (- ez) by lia.
    replace (- JS.canon_e b + (JS.canon_e b - ez)) with (- ez) by lia. lia. }
  rewrite Hdiff. apply binary_normalize_nonpositive.
  assert (0 < 2 ^ (- ez)) by (apply Z.pow_pos_nonneg; lia). nia.
Qed.

Lemma SFdiv_core_nonneg m1 e1 m2 e2 :
  0 ≤ m1 → 0 < m2 → 0 ≤ (SFdiv_core_binary 53 1024 m1 e1 m2 e2).1.1.
Proof.
  intros H1 H2. unfold SFdiv_core_binary.
  set (m' := match _ with Z0 => m1 | Zpos _ => _ | Zneg _ => 0 end).
  assert (Hm' : 0 ≤ m').
  { subst m'. destruct (e1 - e2 - _) as [|p|p]; [done| |done].
    rewrite Z.shiftl_mul_pow2 by lia.
    apply Z.mul_nonneg_nonneg; [done|]. apply Z.pow_nonneg. lia. }
  pose proof (Z.div_pos m' m2 Hm' H2) as Hq. unfold Z.div in Hq.
  destruct (Z.div_eucl m' m2) as [q r]. exact Hq.
Qed.

(** Dividing by a positive finite number keeps the class. *)
Lemma div_nonpositive x m e :
  nonpositive x → nonpositive (x / S754_finite false m e)%js.
Proof.
  destruct x as [sx|sx| |sx mx ex]; try done.
  - intros ->. done.
  - intros ->. unfold JS.div. cbn [SFdiv xorb].
    pose proof (SFdiv_core_nonneg (Zpos mx) ex (Zpos m) e) as Hq.
    destruct (SFdiv_core_binary _ _ (Zpos mx) ex (Zpos m) e) as [[mz ez] lz].
    apply binary_round_aux_nonpositive, Hq; lia.
Qed.

(** So does multiplying by one. *)
Lemma mul_nonpositive x m e :
  nonpositive x → nonpositive (x * S754_finite false m e)%js.
Proof.
  destruct x as [sx|sx| |sx mx ex]; try done.
  - intros ->. done.
  - intros ->. unfold JS.mul. cbn [SFmul xorb].
    apply binary_round_aux_nonpositive. lia.
Qed.

(** So does rounding to an integer. *)
Lemma Math_round_nonpositive x :
  nonpositive x → nonpositive (JS.Math_round x).
Proof.
  destruct x as [sx|sx| |sx mx ex]; try done.
  intros ->. destruct ex as [|k|k]; try done.
  cbn [JS.Math_round cond_Zopp]. apply binary_normalize_nonpositive.
  rewrite Z.shiftr_div_pow2, Z.shiftl_mul_pow2 by lia.
  assert (Hp : 0 < 2 ^ Zpos k) by (apply Z.pow_pos_nonneg; lia).
  rewrite Z.pow_add_r, Z.pow_1_r by lia.
  assert (Hlt : (2 * - Zpos mx + 1 * 2 ^ Zpos k) / (2 ^ Zpos k * 2) < 1).
  { apply Z.div_lt_upper_bound; lia. }
  lia.
Qed.

Lemma gt_0_nonpositive x : nonpositive x → (x > JS.lit 0)%js = false.
Proof.
  destruct x as [sx|sx| |sx mx ex]; try done; by intros ->.
Qed.

End Binary64Sign.

(** X27.  A product card shows a discount badge only for a lowered price:
    without an original price the discount is 0, and for whole amounts
    below 2^53 with the price not below the original price there is no
    badge, whatever the rounding of the division does. *)
Theorem discount_badge_needs_lower_price (p : ProductCard.Props) :
  (ProductCard.originalPrice p = None →
   ProductCard.discount p = JS.lit 0 ∧ ProductCard.discount_badge p = false)
  ∧ (∀ a b : Z,
       ProductCard.originalPrice p = Some (JS.lit a) →
       ProductCard.price p = JS.lit b →
       (0 ≤ a)%Z → (a ≤ b)%Z → (b < 2 ^ 53)%Z →
       ProductCard.discount_badge p = false).
Proof.
  split.
  - intros Hnone. unfold ProductCard.discount_badge, ProductCard.discount.
    by rewrite Hnone.
  - intros a b Ho Hp Ha Hab Hb.
    unfold ProductCard.discount_badge, ProductCard.discount. rewrite Ho, Hp.
    destruct (JS.truthy (JS.lit a)) eqn:Htruthy; [|done].
    destruct (Z.eq_dec a 0) as [->|Ha0]; [done|].
    apply Binary64Sign.gt_0_nonpositive, Binary64Sign.Math_round_nonpositive.
    change (JS.lit 100) with (S754_finite false 7036874417766400 (-46)).
    apply Binary64Sign.mul_nonpositive.
    rewrite (Binary64.lit_pos a) at 2 by lia. unfold JS.canon.
    apply Binary64Sign.div_nonpositive, Binary64Sign.sub_nonpositive; lia.
Qed.

Lemma discount_badge_needs_lower_price_witness :
  ProductCard.discount_badge
    (ProductCard.mkProps "1" "a" (JS.lit 1000000) (Some (JS.lit 850000))
       "" "" None None) = false
  ∧ ProductCard.discount
      (ProductCard.mkProps "1" "a" (JS.lit 850000) (Some (JS.lit 1000000))
         "" "" None None) = JS.lit 15.
Proof.
  split; [|vm_compute; reflexivity].
  destruct (discount_badge_needs_lower_price
              (ProductCard.mkProps "1" "a" (JS.lit 1000000)
                 (Some (JS.lit 850000)) "" "" None None)) as [_ Hno].
  exact (Hno 850000%Z 1000000%Z eq_refl eq_refl ltac:(lia) ltac:(lia) ltac:(lia)).
Defined.

